(** * ElectricEye: auditors and the VPC flow-logs response playbook

    A shallow embedding of three source files of ElectricEye:
    - [eeauditor/auditors/aws/Amazon_DAX_Auditor.py]
    - [eeauditor/auditors/aws/ElectricASM_EC2_Auditor.py]
    - [add-ons/electriceye-response/raw-source/VPC_Flow_Logs_Playbook.py]

    Python values are a small JSON-like datatype, the run cache is a finite
    map from strings to values, and every interaction with the outside
    (boto3 calls, nmap scans, the clock, [print], [time.sleep], and the
    findings a generator yields) is a node of a finite interaction tree, so
    that statements hold for every behaviour of AWS. *)

From Stdlib Require Import ZArith String Ascii List Bool Lia.
From stdpp Require Import base gmap strings list pretty.

Local Open Scope string_scope.
Local Open Scope Z_scope.
Local Open Scope list_scope.
Set Warnings "-register-all".

(** ** Python values *)

Module Py.

(** The values the three files manipulate.  [PyDatetime] carries the
    rendering [str()] gives the datetime; [PyObj] is an opaque object such as
    a boto3 paginator.  Dictionaries keep insertion order. *)
Inductive pyval : Type :=
| PyNone
| PyBool (b : bool)
| PyInt (z : Z)
| PyStr (s : string)
| PyDatetime (rendering : string)
| PyObj (tag : string)
| PyList (items : list pyval)
| PyDict (entries : list (string * pyval)).

Inductive exn : Type :=
| KeyError (key : pyval)
| IndexError
| TypeError
| ValueError
| AttributeError
| ClientError (code : string)
| OtherError (name : string).

Inductive result (A : Type) : Type :=
| Ok (a : A)
| Raise (e : exn).
Arguments Ok {A} a.
Arguments Raise {A} e.

Definition rbind {A B} (r : result A) (f : A -> result B) : result B :=
  match r with Ok a => f a | Raise e => Raise e end.

Notation "'let?' x := r 'in' k" := (rbind r (fun x => k))
  (at level 10, x name, r at level 200, k at level 200).

(** [except KeyError] *)
Definition is_KeyError (e : exn) : bool :=
  match e with KeyError _ => true | _ => false end.

(** Truth value testing: [None], [False], zero and empty containers are false. *)
Definition truthy (v : pyval) : bool :=
  match v with
  | PyNone => false
  | PyBool b => b
  | PyInt z => negb (z =? 0)
  | PyStr s => negb (String.eqb s "")
  | PyDatetime _ => true
  | PyObj _ => true
  | PyList l => match l with [] => false | _ => true end
  | PyDict d => match d with [] => false | _ => true end
  end.

(** [a or b] *)
Definition py_or (a b : pyval) : pyval := if truthy a then a else b.

Fixpoint assoc (k : string) (d : list (string * pyval)) : option pyval :=
  match d with
  | [] => None
  | (k', v) :: d' => if String.eqb k k' then Some v else assoc k d'
  end.

(** [a == b].  Booleans compare as the integers 0 and 1; dictionaries compare
    without regard to order. *)
Fixpoint py_eqb (a b : pyval) {struct a} : bool :=
  match a, b with
  | PyNone, PyNone => true
  | PyBool x, PyBool y => Bool.eqb x y
  | PyBool x, PyInt y => (if x then 1 else 0) =? y
  | PyInt x, PyBool y => x =? (if y then 1 else 0)
  | PyInt x, PyInt y => x =? y
  | PyStr x, PyStr y => String.eqb x y
  | PyDatetime x, PyDatetime y => String.eqb x y
  | PyObj x, PyObj y => String.eqb x y
  | PyList l1, PyList l2 =>
      (fix go (l1 l2 : list pyval) {struct l1} : bool :=
         match l1, l2 with
         | [], [] => true
         | x :: xs, y :: ys => py_eqb x y && go xs ys
         | _, _ => false
         end) l1 l2
  | PyDict d1, PyDict d2 =>
      (length d1 =? length d2)%nat &&
      (fix go (d : list (string * pyval)) {struct d} : bool :=
         match d with
         | [] => true
         | (k, v) :: d' =>
             match assoc k d2 with
             | Some w => py_eqb v w && go d'
             | None => false
             end
         end) d1
  | _, _ => false
  end.

Definition py_ne (a b : pyval) : bool := negb (py_eqb a b).

(** [v[k]]: dictionary lookup raises [KeyError], list indexing raises
    [IndexError], anything else is not subscriptable. *)
Definition py_getitem (v k : pyval) : result pyval :=
  match v, k with
  | PyDict d, PyStr s =>
      match assoc s d with Some x => Ok x | None => Raise (KeyError k) end
  | PyDict _, (PyList _ | PyDict _) => Raise TypeError
  | PyDict _, _ => Raise (KeyError k)
  | PyList l, PyInt i =>
      let n := Z.of_nat (length l) in
      let j := if i <? 0 then i + n else i in
      if (0 <=? j) && (j <? n)
      then match nth_error l (Z.to_nat j) with
           | Some x => Ok x
           | None => Raise IndexError
           end
      else Raise IndexError
  | PyStr s, PyInt i =>
      let n := Z.of_nat (String.length s) in
      let j := if i <? 0 then i + n else i in
      if (0 <=? j) && (j <? n)
      then match String.get (Z.to_nat j) s with
           | Some c => Ok (PyStr (String c EmptyString))
           | None => Raise IndexError
           end
      else Raise IndexError
  | _, _ => Raise TypeError
  end.

(** [for x in v] *)
Definition py_iter (v : pyval) : result (list pyval) :=
  match v with
  | PyList l => Ok l
  | PyDict d => Ok (map (fun kv => PyStr (fst kv)) d)
  | PyStr s => Ok (map (fun c => PyStr (String c EmptyString)) (list_ascii_of_string s))
  | _ => Raise TypeError
  end.

(** Parts of the Python runtime and of third-party packages that the three
    files call and that are not part of the repository. *)
Class Runtime : Type := {
  (** [repr] of a list or dictionary, as [str()] renders it *)
  container_repr : pyval -> string;
  (** [int(s)] on a string *)
  int_of_str : string -> result Z;
  (** [json.dumps] *)
  json_dumps : pyval -> string;
  (** [dateutil.parser.parse(s).isoformat()] *)
  parse_isoformat : string -> result string;
  (** [s.upper()] *)
  str_upper : string -> string
}.

Section WithRuntime.
Context `{RT : Runtime}.

(** [str(v)], also what an f-string field renders. *)
Definition py_str (v : pyval) : string :=
  match v with
  | PyNone => "None"
  | PyBool b => if b then "True" else "False"
  | PyInt z => pretty z
  | PyStr s => s
  | PyDatetime s => s
  | PyObj tag => tag
  | PyList _ | PyDict _ => container_repr v
  end.

(** [int(v)] *)
Definition py_int (v : pyval) : result Z :=
  match v with
  | PyInt z => Ok z
  | PyBool b => Ok (if b then 1 else 0)
  | PyStr s => int_of_str s
  | _ => Raise TypeError
  end.

End WithRuntime.

Fixpoint is_prefix (p s : string) : bool :=
  match p, s with
  | EmptyString, _ => true
  | String a p', String b s' => Ascii.eqb a b && is_prefix p' s'
  | String _ _, EmptyString => false
  end.

(** [s.replace(old, new)] for a non-empty [old]: occurrences are replaced
    from the left, without overlap.  [skip] counts the characters of the
    occurrence just replaced that are still to be dropped. *)
Fixpoint str_replace_from (old new s : string) (skip : nat) : string :=
  match s with
  | EmptyString => EmptyString
  | String c s' =>
      match skip with
      | S n => str_replace_from old new s' n
      | O =>
          if is_prefix old s
          then new +:+ str_replace_from old new s' (String.length old - 1)
          else String c (str_replace_from old new s' 0)
      end
  end.

Definition str_replace (s old new : string) : string :=
  str_replace_from old new s 0.

Coercion PyStr : string >-> pyval.

(** Lookup along a path of keys, used to read fields of a finding. *)
Fixpoint get_path (v : pyval) (path : list string) : option pyval :=
  match path with
  | [] => Some v
  | k :: rest =>
      match v with
      | PyDict d => match assoc k d with Some x => get_path x rest | None => None end
      | _ => None
      end
  end.

End Py.
Export Py.

(** ** Interaction with the outside *)

Module Interaction.

(** A boto3 client: the service it talks to and the explicit credentials it
    was built with ([None] for the ambient identity of the process). *)
Record client : Type := Client {
  service : string;
  credentials : option (pyval * pyval * pyval)
}.

(** [boto3.client(service)] *)
Definition boto3_client (svc : string) : client := Client svc None.

(** [boto3.client(service, aws_access_key_id=.., aws_secret_access_key=..,
    aws_session_token=..)] *)
Definition boto3_client_with (svc : string) (access secret token : pyval) : client :=
  Client svc (Some (access, secret, token)).

Inductive op : Type :=
| ApiCall (c : client) (method : string) (kwargs : list (string * pyval))
| GetPaginator (c : client) (operation : string)
| Paginate (paginator : pyval) (kwargs : list (string * pyval))
| NmapTcpScan (host : pyval) (args : string)
| UtcNow
| Print (v : pyval)
| PrintExn (e : exn)
| Sleep (seconds : Z)
| Yield (finding : pyval).

(** A program is a finite tree: it returns, or performs an operation and
    continues with the answer of the outside, which is a value or an
    exception. *)
Inductive prog (A : Type) : Type :=
| Ret (a : A)
| Do (o : op) (k : result pyval -> prog A).
Arguments Ret {A} a.
Arguments Do {A} o k.

Fixpoint pbind {A B} (p : prog A) (f : A -> prog B) : prog B :=
  match p with
  | Ret a => f a
  | Do o k => Do o (fun r => pbind (k r) f)
  end.

(** Python code over a mutable store [S] (the cache dictionary), which may
    raise; the store survives an exception. *)
Definition M (S A : Type) : Type := S -> prog (result A * S).

Definition ret {S A} (a : A) : M S A := fun s => Ret (Ok a, s).
Definition raise {S A} (e : exn) : M S A := fun s => Ret (Raise e, s).

Definition bind {S A B} (m : M S A) (f : A -> M S B) : M S B :=
  fun s => pbind (m s) (fun rs =>
    match fst rs with
    | Ok a => f a (snd rs)
    | Raise e => Ret (Raise e, snd rs)
    end).

(** [try: m  except Exception as e: h e] *)
Definition try_except {S A} (m : M S A) (h : exn -> M S A) : M S A :=
  fun s => pbind (m s) (fun rs =>
    match fst rs with
    | Ok a => Ret (Ok a, snd rs)
    | Raise e => h e (snd rs)
    end).

(** [try: m  except KeyError: h] *)
Definition try_except_KeyError {S A} (m : M S A) (h : M S A) : M S A :=
  try_except m (fun e => if is_KeyError e then h else raise e).

Definition lift {S A} (r : result A) : M S A := fun s => Ret (r, s).

(** Perform an operation; an exception answered by the outside is raised. *)
Definition perform {S} (o : op) : M S pyval := fun s => Do o (fun r => Ret (r, s)).

(** Perform an operation whose answer is not looked at. *)
Definition perform_ {S} (o : op) : M S unit := fun s => Do o (fun _ => Ret (Ok tt, s)).

(** [print(v)], [print(e)] for a caught exception, [time.sleep(n)] and
    [yield finding]: they return [None] and do not raise. *)
Definition print {S} (v : pyval) : M S unit := perform_ (Print v).
Definition print_exn {S} (e : exn) : M S unit := perform_ (PrintExn e).
Definition time_sleep {S} (seconds : Z) : M S unit := perform_ (Sleep seconds).
Definition yield {S} (finding : pyval) : M S unit := perform_ (Yield finding).

Definition get {S} : M S S := fun s => Ret (Ok s, s).
Definition put {S} (s' : S) : M S unit := fun _ => Ret (Ok tt, s').

Declare Scope py_scope.
Delimit Scope py_scope with py.
Notation "x <- m ;; k" := (bind m (fun x => k))
  (at level 100, m at next level, right associativity) : py_scope.
Notation "m ;;; k" := (bind m (fun _ => k))
  (at level 100, right associativity) : py_scope.
Local Open Scope py_scope.

(** [for x in l: body x] *)
Fixpoint for_each {S A} (l : list A) (body : A -> M S unit) : M S unit :=
  match l with
  | [] => ret tt
  | x :: l' => body x ;;; for_each l' body
  end.

(** [for index, x in enumerate(l): body index x], counting from [i]. *)
Fixpoint for_enumerate {S A} (i : Z) (l : list A) (body : Z -> A -> M S unit) : M S unit :=
  match l with
  | [] => ret tt
  | x :: l' => body i x ;;; for_enumerate (i + 1) l' body
  end.

(** What happened during a run: each operation with the answer it got. *)
Definition event : Type := op * result pyval.

(** The outside: a state and how it answers an operation. *)
Definition handler (W : Type) : Type := W -> op -> result pyval * W.

Fixpoint run {W A} (h : handler W) (p : prog A) (w : W) : A * W * list event :=
  match p with
  | Ret a => (a, w, [])
  | Do o k =>
      let rw := h w o in
      let res := run h (k (fst rw)) (snd rw) in
      (fst (fst res), snd (fst res), (o, fst rw) :: snd res)
  end.

Definition outcome {W A} (x : A * W * list event) : A := fst (fst x).
Definition world_after {W A} (x : A * W * list event) : W := snd (fst x).
Definition trace {W A} (x : A * W * list event) : list event := snd x.

(** The findings yielded during a run, in order. *)
Fixpoint yielded (tr : list event) : list pyval :=
  match tr with
  | [] => []
  | (Yield f, _) :: tr' => f :: yielded tr'
  | _ :: tr' => yielded tr'
  end.

(** The boto3 API calls of a run, in order. *)
Fixpoint api_calls (tr : list event) : list event :=
  match tr with
  | [] => []
  | (ApiCall c m kw, r) :: tr' => (ApiCall c m kw, r) :: api_calls tr'
  | _ :: tr' => api_calls tr'
  end.

Definition op_method (o : op) : option string :=
  match o with ApiCall _ m _ => Some m | _ => None end.

Definition api_methods (tr : list event) : list string :=
  omap (fun ev => op_method (fst ev)) tr.

End Interaction.
Export Interaction.
Local Open Scope py_scope.

(** ** The run cache

    Every check receives the same dictionary [cache]; it is the store of
    the programs below. *)

(** [cache.get(key)] *)
Definition cache_get (cache : gmap string pyval) (key : string) : pyval :=
  default PyNone (cache !! key).

(** [cache[key]] *)
Definition cache_getitem (cache : gmap string pyval) (key : string) : result pyval :=
  match cache !! key with
  | Some v => Ok v
  | None => Raise (KeyError (PyStr key))
  end.

(** [cache[key] = v] *)
Definition cache_setitem (key : string) (v : pyval) : M (gmap string pyval) unit :=
  cache <- get ;; put (<[key := v]> cache).

(** ** Amazon_DAX_Auditor.py *)

Module DAX.
Section WithRuntime.
Context `{RT : Runtime}.

(** [dax = boto3.client("dax")] *)
Definition dax : client := boto3_client "dax".

Definition describe_clusters : M (gmap string pyval) pyval :=
  cache <- get ;;
  let response := cache_get cache "describe_clusters" in
  if truthy response then ret response
  else
    fetched <- perform (ApiCall dax "describe_clusters" []) ;;
    cache_setitem "describe_clusters" fetched ;;;
    cache <- get ;;
    lift (cache_getitem cache "describe_clusters").

(** The finding of the failing branch of [dax_encryption_at_rest_check] (source lines 48-105). *)
Definition dax_encryption_at_rest_check_failing (cluster clusterName clusterArn iso8601Time : pyval) (awsAccountId awsRegion awsPartition : string) : result pyval :=
  let? x1 := py_getitem cluster (PyStr "TotalNodes") in
  let? x2 := py_getitem cluster (PyStr "NodeType") in
  let? x3 := py_getitem cluster (PyStr "Status") in
  let? x4 := py_getitem cluster (PyStr "ClusterDiscoveryEndpoint") in
  let? x5 := py_getitem x4 (PyStr "Address") in
  let? x6 := py_getitem cluster (PyStr "ClusterDiscoveryEndpoint") in
  let? x7 := py_getitem x6 (PyStr "Port") in
  let? x8 := py_getitem cluster (PyStr "ClusterDiscoveryEndpoint") in
  let? x9 := py_getitem x8 (PyStr "URL") in
  let? x10 := py_getitem cluster (PyStr "SubnetGroup") in
  let? x11 := py_getitem cluster (PyStr "SecurityGroups") in
  let? x12 := py_getitem x11 (PyInt 0) in
  let? x13 := py_getitem x12 (PyStr "SecurityGroupIdentifier") in
  let? x14 := py_getitem cluster (PyStr "IamRoleArn") in
  let? x15 := py_getitem cluster (PyStr "ParameterGroup") in
  let? x16 := py_getitem x15 (PyStr "ParameterGroupName") in
  Ok (PyDict [("SchemaVersion", PyStr "2018-10-08");
      ("Id", PyStr (py_str clusterArn +:+ "/dax-encryption-at-rest-check"));
      ("ProductArn", PyStr ("arn:" +:+ awsPartition +:+ ":securityhub:" +:+ awsRegion +:+ ":" +:+ awsAccountId +:+ ":product/" +:+ awsAccountId +:+ "/default"));
      ("GeneratorId", clusterArn);
      ("AwsAccountId", PyStr awsAccountId);
      ("Types", PyList [PyStr "Software and Configuration Checks/AWS Security Best Practices"]);
      ("FirstObservedAt", iso8601Time);
      ("CreatedAt", iso8601Time);
      ("UpdatedAt", iso8601Time);
      ("Severity", PyDict [("Label", PyStr "HIGH")]);
      ("Confidence", PyInt 99);
      ("Title", PyStr "[DAX.1] DynamoDB Accelerator (DAX) clusters should be encrypted at rest");
      ("Description", PyStr ("DynamoDB Accelerator (DAX) cluster " +:+ py_str clusterName +:+ " is not encrypted at rest. Amazon DynamoDB Accelerator (DAX) encryption at rest provides an additional layer of data protection by helping secure your data from unauthorized access to the underlying storage. Organizational policies, industry or government regulations, and compliance requirements might require the use of encryption at rest to protect your data. You can use encryption to increase the data security of your applications that are deployed in the cloud. With encryption at rest, the data persisted by DAX on disk is encrypted using 256-bit Advanced Encryption Standard, also known as AES-256 encryption. DAX writes data to disk as part of propagating changes from the primary node to read replicas. Refer to the remediation instructions if this configuration is not intended."));
      ("Remediation", PyDict [("Recommendation", PyDict [("Text", PyStr "You cannot enable or disable encryption at rest after a cluster has been created. You must re-create the cluster to enable encryption at rest if it was not enabled at creation. For more information refer to the DAX encryption at rest section of the Amazon DynamoDB Developer Guide");
          ("Url", PyStr "https://docs.aws.amazon.com/amazondynamodb/latest/developerguide/DAXEncryptionAtRest.html")])]);
      ("ProductFields", PyDict [("Product Name", PyStr "ElectricEye")]);
      ("Resources", PyList [PyDict [("Type", PyStr "AwsDaxCluster");
          ("Id", clusterArn);
          ("Partition", PyStr awsPartition);
          ("Region", PyStr awsRegion);
          ("Details", PyDict [("Other", PyDict [("ClusterName", clusterName);
              ("TotalNodes", PyStr (py_str x1));
              ("NodeType", x2);
              ("Status", x3);
              ("Address", x5);
              ("Port", PyStr (py_str x7));
              ("URL", x9);
              ("SubnetGroup", x10);
              ("SecurityGroupIdentifier", x13);
              ("IamRoleArn", x14);
              ("ParameterGroupName", x16)])])]]);
      ("Compliance", PyDict [("Status", PyStr "FAILED");
        ("RelatedRequirements", PyList [PyStr "NIST CSF PR.DS-1"; PyStr "NIST SP 800-53 MP-8"; PyStr "NIST SP 800-53 SC-12"; PyStr "NIST SP 800-53 SC-28"; PyStr "AICPA TSC CC6.1"; PyStr "ISO 27001:2013 A.8.2.3"])]);
      ("Workflow", PyDict [("Status", PyStr "NEW")]);
      ("RecordState", PyStr "ACTIVE")]).

(** The finding of the passing branch of [dax_encryption_at_rest_check] (source lines 109-166). *)
Definition dax_encryption_at_rest_check_passing (cluster clusterName clusterArn iso8601Time : pyval) (awsAccountId awsRegion awsPartition : string) : result pyval :=
  let? x1 := py_getitem cluster (PyStr "TotalNodes") in
  let? x2 := py_getitem cluster (PyStr "NodeType") in
  let? x3 := py_getitem cluster (PyStr "Status") in
  let? x4 := py_getitem cluster (PyStr "ClusterDiscoveryEndpoint") in
  let? x5 := py_getitem x4 (PyStr "Address") in
  let? x6 := py_getitem cluster (PyStr "ClusterDiscoveryEndpoint") in
  let? x7 := py_getitem x6 (PyStr "Port") in
  let? x8 := py_getitem cluster (PyStr "ClusterDiscoveryEndpoint") in
  let? x9 := py_getitem x8 (PyStr "URL") in
  let? x10 := py_getitem cluster (PyStr "SubnetGroup") in
  let? x11 := py_getitem cluster (PyStr "SecurityGroups") in
  let? x12 := py_getitem x11 (PyInt 0) in
  let? x13 := py_getitem x12 (PyStr "SecurityGroupIdentifier") in
  let? x14 := py_getitem cluster (PyStr "IamRoleArn") in
  let? x15 := py_getitem cluster (PyStr "ParameterGroup") in
  let? x16 := py_getitem x15 (PyStr "ParameterGroupName") in
  Ok (PyDict [("SchemaVersion", PyStr "2018-10-08");
      ("Id", PyStr (py_str clusterArn +:+ "/dax-encryption-at-rest-check"));
      ("ProductArn", PyStr ("arn:" +:+ awsPartition +:+ ":securityhub:" +:+ awsRegion +:+ ":" +:+ awsAccountId +:+ ":product/" +:+ awsAccountId +:+ "/default"));
      ("GeneratorId", clusterArn);
      ("AwsAccountId", PyStr awsAccountId);
      ("Types", PyList [PyStr "Software and Configuration Checks/AWS Security Best Practices"]);
      ("FirstObservedAt", iso8601Time);
      ("CreatedAt", iso8601Time);
      ("UpdatedAt", iso8601Time);
      ("Severity", PyDict [("Label", PyStr "INFORMATIONAL")]);
      ("Confidence", PyInt 99);
      ("Title", PyStr "[DAX.1] DynamoDB Accelerator (DAX) clusters should be encrypted at rest");
      ("Description", PyStr ("DynamoDB Accelerator (DAX) cluster " +:+ py_str clusterName +:+ " is encrypted at rest."));
      ("Remediation", PyDict [("Recommendation", PyDict [("Text", PyStr "You cannot enable or disable encryption at rest after a cluster has been created. You must re-create the cluster to enable encryption at rest if it was not enabled at creation. For more information refer to the DAX encryption at rest section of the Amazon DynamoDB Developer Guide");
          ("Url", PyStr "https://docs.aws.amazon.com/amazondynamodb/latest/developerguide/DAXEncryptionAtRest.html")])]);
      ("ProductFields", PyDict [("Product Name", PyStr "ElectricEye")]);
      ("Resources", PyList [PyDict [("Type", PyStr "AwsDaxCluster");
          ("Id", clusterArn);
          ("Partition", PyStr awsPartition);
          ("Region", PyStr awsRegion);
          ("Details", PyDict [("Other", PyDict [("ClusterName", clusterName);
              ("TotalNodes", PyStr (py_str x1));
              ("NodeType", x2);
              ("Status", x3);
              ("Address", x5);
              ("Port", PyStr (py_str x7));
              ("URL", x9);
              ("SubnetGroup", x10);
              ("SecurityGroupIdentifier", x13);
              ("IamRoleArn", x14);
              ("ParameterGroupName", x16)])])]]);
      ("Compliance", PyDict [("Status", PyStr "PASSED");
        ("RelatedRequirements", PyList [PyStr "NIST CSF PR.DS-1"; PyStr "NIST SP 800-53 MP-8"; PyStr "NIST SP 800-53 SC-12"; PyStr "NIST SP 800-53 SC-28"; PyStr "AICPA TSC CC6.1"; PyStr "ISO 27001:2013 A.8.2.3"])]);
      ("Workflow", PyDict [("Status", PyStr "RESOLVED")]);
      ("RecordState", PyStr "ARCHIVED")]).

(** The guard of [dax_encryption_at_rest_check] (source line 47):
    [cluster["SSEDescription"]["Status"] != ("ENABLING" or "ENABLED")]. *)
Definition dax_encryption_at_rest_check_guard (cluster : pyval) : result bool :=
  let? sse := py_getitem cluster (PyStr "SSEDescription") in
  let? status := py_getitem sse (PyStr "Status") in
  Ok (py_ne status (py_or (PyStr "ENABLING") (PyStr "ENABLED"))).

(** One iteration of the loop of [dax_encryption_at_rest_check], up to the
    [yield]: the finding the cluster gives rise to, or the exception raised
    on the way. *)
Definition dax_encryption_at_rest_check_cluster
    (iso8601Time : pyval) (awsAccountId awsRegion awsPartition : string)
    (cluster : pyval) : result pyval :=
  let? clusterName := py_getitem cluster (PyStr "ClusterName") in
  let? clusterArn := py_getitem cluster (PyStr "ClusterArn") in
  let? failing := dax_encryption_at_rest_check_guard cluster in
  if failing
  then dax_encryption_at_rest_check_failing cluster clusterName clusterArn iso8601Time
         awsAccountId awsRegion awsPartition
  else dax_encryption_at_rest_check_passing cluster clusterName clusterArn iso8601Time
         awsAccountId awsRegion awsPartition.

Definition dax_encryption_at_rest_check
    (awsAccountId awsRegion awsPartition : string) : M (gmap string pyval) unit :=
  iso8601Time <- perform UtcNow ;;
  response <- describe_clusters ;;
  clusters <- lift (py_getitem response (PyStr "Clusters")) ;;
  clusters <- lift (py_iter clusters) ;;
  for_each clusters (fun cluster =>
    finding <- lift (dax_encryption_at_rest_check_cluster iso8601Time
                       awsAccountId awsRegion awsPartition cluster) ;;
    yield finding).

(** The finding of the failing branch of [dax_encryption_in_transit_check] (source lines 179-241). *)
Definition dax_encryption_in_transit_check_failing (cluster clusterName clusterArn iso8601Time : pyval) (awsAccountId awsRegion awsPartition : string) : result pyval :=
  let? x1 := py_getitem cluster (PyStr "TotalNodes") in
  let? x2 := py_getitem cluster (PyStr "NodeType") in
  let? x3 := py_getitem cluster (PyStr "Status") in
  let? x4 := py_getitem cluster (PyStr "ClusterDiscoveryEndpoint") in
  let? x5 := py_getitem x4 (PyStr "Address") in
  let? x6 := py_getitem cluster (PyStr "ClusterDiscoveryEndpoint") in
  let? x7 := py_getitem x6 (PyStr "Port") in
  let? x8 := py_getitem cluster (PyStr "ClusterDiscoveryEndpoint") in
  let? x9 := py_getitem x8 (PyStr "URL") in
  let? x10 := py_getitem cluster (PyStr "SubnetGroup") in
  let? x11 := py_getitem cluster (PyStr "SecurityGroups") in
  let? x12 := py_getitem x11 (PyInt 0) in
  let? x13 := py_getitem x12 (PyStr "SecurityGroupIdentifier") in
  let? x14 := py_getitem cluster (PyStr "IamRoleArn") in
  let? x15 := py_getitem cluster (PyStr "ParameterGroup") in
  let? x16 := py_getitem x15 (PyStr "ParameterGroupName") in
  Ok (PyDict [("SchemaVersion", PyStr "2018-10-08");
      ("Id", PyStr (py_str clusterArn +:+ "/dax-encryption-in-transit-check"));
      ("ProductArn", PyStr ("arn:" +:+ awsPartition +:+ ":securityhub:" +:+ awsRegion +:+ ":" +:+ awsAccountId +:+ ":product/" +:+ awsAccountId +:+ "/default"));
      ("GeneratorId", clusterArn);
      ("AwsAccountId", PyStr awsAccountId);
      ("Types", PyList [PyStr "Software and Configuration Checks/AWS Security Best Practices"]);
      ("FirstObservedAt", iso8601Time);
      ("CreatedAt", iso8601Time);
      ("UpdatedAt", iso8601Time);
      ("Severity", PyDict [("Label", PyStr "HIGH")]);
      ("Confidence", PyInt 99);
      ("Title", PyStr "[DAX.2] DynamoDB Accelerator (DAX) clusters should enforce encryption in transit");
      ("Description", PyStr ("DynamoDB Accelerator (DAX) cluster " +:+ py_str clusterName +:+ " does not enforce encryption in transit. Amazon DynamoDB Accelerator (DAX) supports encryption in transit of data between your application and your DAX cluster, enabling you to use DAX in applications with stringent encryption requirements. Regardless of whether or not you choose encryption in transit, traffic between your application and your DAX cluster remains in your Amazon VPC. DAX encryption in transit adds to this baseline level of confidentiality, ensuring that all requests and responses between the application and the cluster are encrypted by transport level security (TLS), and connections to the cluster can be authenticated by verification of a cluster x509 certificate. Refer to the remediation instructions if this configuration is not intended."));
      ("Remediation", PyDict [("Recommendation", PyDict [("Text", PyStr "Encryption in transit cannot be enabled on an existing DAX cluster. To use encryption in transit in an existing DAX application, create a new cluster with encryption in transit enabled, shift your application's traffic to it, then delete the old cluster. For more information on DAX encryption in transit refer to the DAX encryption in transit section of the Amazon DynamoDB Developer Guide");
          ("Url", PyStr "https://docs.aws.amazon.com/amazondynamodb/latest/developerguide/DAXEncryptionInTransit.html")])]);
      ("ProductFields", PyDict [("Product Name", PyStr "ElectricEye")]);
      ("Resources", PyList [PyDict [("Type", PyStr "AwsDaxCluster");
          ("Id", clusterArn);
          ("Partition", PyStr awsPartition);
          ("Region", PyStr awsRegion);
          ("Details", PyDict [("Other", PyDict [("ClusterName", clusterName);
              ("TotalNodes", PyStr (py_str x1));
              ("NodeType", x2);
              ("Status", x3);
              ("Address", x5);
              ("Port", PyStr (py_str x7));
              ("URL", x9);
              ("SubnetGroup", x10);
              ("SecurityGroupIdentifier", x13);
              ("IamRoleArn", x14);
              ("ParameterGroupName", x16)])])]]);
      ("Compliance", PyDict [("Status", PyStr "FAILED");
        ("RelatedRequirements", PyList [PyStr "NIST CSF PR.DS-2"; PyStr "NIST SP 800-53 SC-8"; PyStr "NIST SP 800-53 SC-11"; PyStr "NIST SP 800-53 SC-12"; PyStr "AICPA TSC CC6.1"; PyStr "ISO 27001:2013 A.8.2.3"; PyStr "ISO 27001:2013 A.13.1.1"; PyStr "ISO 27001:2013 A.13.2.1"; PyStr "ISO 27001:2013 A.13.2.3"; PyStr "ISO 27001:2013 A.14.1.2"; PyStr "ISO 27001:2013 A.14.1.3"])]);
      ("Workflow", PyDict [("Status", PyStr "NEW")]);
      ("RecordState", PyStr "ACTIVE")]).

(** The finding of the passing branch of [dax_encryption_in_transit_check] (source lines 245-307). *)
Definition dax_encryption_in_transit_check_passing (cluster clusterName clusterArn iso8601Time : pyval) (awsAccountId awsRegion awsPartition : string) : result pyval :=
  let? x1 := py_getitem cluster (PyStr "TotalNodes") in
  let? x2 := py_getitem cluster (PyStr "NodeType") in
  let? x3 := py_getitem cluster (PyStr "Status") in
  let? x4 := py_getitem cluster (PyStr "ClusterDiscoveryEndpoint") in
  let? x5 := py_getitem x4 (PyStr "Address") in
  let? x6 := py_getitem cluster (PyStr "ClusterDiscoveryEndpoint") in
  let? x7 := py_getitem x6 (PyStr "Port") in
  let? x8 := py_getitem cluster (PyStr "ClusterDiscoveryEndpoint") in
  let? x9 := py_getitem x8 (PyStr "URL") in
  let? x10 := py_getitem cluster (PyStr "SubnetGroup") in
  let? x11 := py_getitem cluster (PyStr "SecurityGroups") in
  let? x12 := py_getitem x11 (PyInt 0) in
  let? x13 := py_getitem x12 (PyStr "SecurityGroupIdentifier") in
  let? x14 := py_getitem cluster (PyStr "IamRoleArn") in
  let? x15 := py_getitem cluster (PyStr "ParameterGroup") in
  let? x16 := py_getitem x15 (PyStr "ParameterGroupName") in
  Ok (PyDict [("SchemaVersion", PyStr "2018-10-08");
      ("Id", PyStr (py_str clusterArn +:+ "/dax-encryption-in-transit-check"));
      ("ProductArn", PyStr ("arn:" +:+ awsPartition +:+ ":securityhub:" +:+ awsRegion +:+ ":" +:+ awsAccountId +:+ ":product/" +:+ awsAccountId +:+ "/default"));
      ("GeneratorId", clusterArn);
      ("AwsAccountId", PyStr awsAccountId);
      ("Types", PyList [PyStr "Software and Configuration Checks/AWS Security Best Practices"]);
      ("FirstObservedAt", iso8601Time);
      ("CreatedAt", iso8601Time);
      ("UpdatedAt", iso8601Time);
      ("Severity", PyDict [("Label", PyStr "INFORMATIONAL")]);
      ("Confidence", PyInt 99);
      ("Title", PyStr "[DAX.2] DynamoDB Accelerator (DAX) clusters should enforce encryption in transit");
      ("Description", PyStr ("DynamoDB Accelerator (DAX) cluster " +:+ py_str clusterName +:+ " enforces encryption in transit."));
      ("Remediation", PyDict [("Recommendation", PyDict [("Text", PyStr "Encryption in transit cannot be enabled on an existing DAX cluster. To use encryption in transit in an existing DAX application, create a new cluster with encryption in transit enabled, shift your application's traffic to it, then delete the old cluster. For more information on DAX encryption in transit refer to the DAX encryption in transit section of the Amazon DynamoDB Developer Guide");
          ("Url", PyStr "https://docs.aws.amazon.com/amazondynamodb/latest/developerguide/DAXEncryptionInTransit.html")])]);
      ("ProductFields", PyDict [("Product Name", PyStr "ElectricEye")]);
      ("Resources", PyList [PyDict [("Type", PyStr "AwsDaxCluster");
          ("Id", clusterArn);
          ("Partition", PyStr awsPartition);
          ("Region", PyStr awsRegion);
          ("Details", PyDict [("Other", PyDict [("ClusterName", clusterName);
              ("TotalNodes", PyStr (py_str x1));
              ("NodeType", x2);
              ("Status", x3);
              ("Address", x5);
              ("Port", PyStr (py_str x7));
              ("URL", x9);
              ("SubnetGroup", x10);
              ("SecurityGroupIdentifier", x13);
              ("IamRoleArn", x14);
              ("ParameterGroupName", x16)])])]]);
      ("Compliance", PyDict [("Status", PyStr "PASSED");
        ("RelatedRequirements", PyList [PyStr "NIST CSF PR.DS-2"; PyStr "NIST SP 800-53 SC-8"; PyStr "NIST SP 800-53 SC-11"; PyStr "NIST SP 800-53 SC-12"; PyStr "AICPA TSC CC6.1"; PyStr "ISO 27001:2013 A.8.2.3"; PyStr "ISO 27001:2013 A.13.1.1"; PyStr "ISO 27001:2013 A.13.2.1"; PyStr "ISO 27001:2013 A.13.2.3"; PyStr "ISO 27001:2013 A.14.1.2"; PyStr "ISO 27001:2013 A.14.1.3"])]);
      ("Workflow", PyDict [("Status", PyStr "RESOLVED")]);
      ("RecordState", PyStr "ARCHIVED")]).

(** The guard of [dax_encryption_in_transit_check] (source line 178). *)
Definition dax_encryption_in_transit_check_guard (cluster : pyval) : result bool :=
  let? encryptionType := py_getitem cluster (PyStr "ClusterEndpointEncryptionType") in
  Ok (py_eqb encryptionType (PyStr "NONE")).

Definition dax_encryption_in_transit_check_cluster
    (iso8601Time : pyval) (awsAccountId awsRegion awsPartition : string)
    (cluster : pyval) : result pyval :=
  let? clusterName := py_getitem cluster (PyStr "ClusterName") in
  let? clusterArn := py_getitem cluster (PyStr "ClusterArn") in
  let? failing := dax_encryption_in_transit_check_guard cluster in
  if failing
  then dax_encryption_in_transit_check_failing cluster clusterName clusterArn iso8601Time
         awsAccountId awsRegion awsPartition
  else dax_encryption_in_transit_check_passing cluster clusterName clusterArn iso8601Time
         awsAccountId awsRegion awsPartition.

Definition dax_encryption_in_transit_check
    (awsAccountId awsRegion awsPartition : string) : M (gmap string pyval) unit :=
  iso8601Time <- perform UtcNow ;;
  response <- describe_clusters ;;
  clusters <- lift (py_getitem response (PyStr "Clusters")) ;;
  clusters <- lift (py_iter clusters) ;;
  for_each clusters (fun cluster =>
    finding <- lift (dax_encryption_in_transit_check_cluster iso8601Time
                       awsAccountId awsRegion awsPartition cluster) ;;
    yield finding).

End WithRuntime.
End DAX.

(** ** ElectricASM_EC2_Auditor.py *)

Module EC2ASM.
Section WithRuntime.
Context `{RT : Runtime}.

(** [ec2 = boto3.client("ec2")] and [elbv2 = boto3.client("elbv2")] *)
Definition ec2 : client := boto3_client "ec2".
Definition elbv2 : client := boto3_client "elbv2".

(** [for x in l: st = body x st], in the monad of exceptions. *)
Fixpoint rfor {A St} (l : list A) (st : St) (body : A -> St -> result St) : result St :=
  match l with
  | [] => Ok st
  | x :: l' => let? st' := body x st in rfor l' st' body
  end.

(** The three nested loops of [ec2_paginate] (source lines 41-44), appending
    every instance of every reservation of every page to [instanceList]. *)
Definition collect_instances (pages : list pyval) (instanceList : list pyval)
  : result (list pyval) :=
  rfor pages instanceList (fun page instanceList =>
    let? reservations := py_getitem page (PyStr "Reservations") in
    let? reservations := py_iter reservations in
    rfor reservations instanceList (fun r instanceList =>
      let? instances := py_getitem r (PyStr "Instances") in
      let? instances := py_iter instances in
      rfor instances instanceList (fun i instanceList =>
        Ok (instanceList ++ [i])%list))).

Definition ec2_paginate : M (gmap string pyval) pyval :=
  let instanceList := [] in
  cache <- get ;;
  let response := cache_get cache "instances" in
  if truthy response then ret response
  else
    paginator <- perform (GetPaginator ec2 "describe_instances") ;;
    if truthy paginator then
      pages <- perform (Paginate paginator
                 [("Filters", PyList [PyDict [("Name", PyStr "instance-state-name");
                                              ("Values", PyList [PyStr "running"])]])]) ;;
      pages <- lift (py_iter pages) ;;
      instanceList <- lift (collect_instances pages instanceList) ;;
      cache_setitem "instances" (PyList instanceList) ;;;
      cache <- get ;;
      lift (cache_getitem cache "instances")
    else ret PyNone.

Definition describe_load_balancers : M (gmap string pyval) pyval :=
  cache <- get ;;
  let response := cache_get cache "describe_load_balancers" in
  if truthy response then ret response
  else
    fetched <- perform (ApiCall elbv2 "describe_load_balancers" []) ;;
    cache_setitem "describe_load_balancers" fetched ;;;
    cache <- get ;;
    lift (cache_getitem cache "describe_load_balancers").

Definition scan_host {S} (host_ip : pyval) (instance_id : string) : M S pyval :=
  try_except_KeyError
    (results <- perform (NmapTcpScan host_ip
        "-Pn -p 21,22,23,25,80,110,139,445,3389,1433,3306,2049,2375,1521,5432,5601,8182,8080,8089,10250,6379,9092,27017,5672,4040") ;;
     print (PyStr ("Scanning EC2 instance " +:+ instance_id +:+ " on " +:+ py_str host_ip)) ;;;
     ret results)
    (ret PyNone).

(** The service name of a scanned port (source lines 108-118 and 278-288). *)
Definition port_service_name (p : pyval) (portNumber : Z) : result string :=
  if portNumber =? 8089 then Ok "SPLUNKD"
  else if portNumber =? 10250 then Ok "KUBERNETES-API"
  else if portNumber =? 5672 then Ok "RABBITMQ"
  else if portNumber =? 4040 then Ok "SPARK-WEBUI"
  else
    let? service := py_getitem p (PyStr "service") in
    let? name := py_getitem service (PyStr "name") in
    Ok (str_upper (py_str name)).

(** The finding of the failing branch of [ec2_attack_surface_open_tcp_port_check] (source lines 123-183). *)
Definition ec2_attack_surface_open_tcp_port_check_failing (iso8601Time : pyval) (awsAccountId awsRegion awsPartition instanceId instanceArn instanceType instanceImage subnetId vpcId instanceLaunchedAt checkIdNumber serviceName : string) (portNumber : Z) : result pyval :=
  let? x1 := parse_isoformat instanceLaunchedAt in
  Ok (PyDict [("SchemaVersion", PyStr "2018-10-08");
      ("Id", PyStr (instanceArn +:+ "/attack-surface-ec2-open-" +:+ serviceName +:+ "-check"));
      ("ProductArn", PyStr ("arn:" +:+ awsPartition +:+ ":securityhub:" +:+ awsRegion +:+ ":" +:+ awsAccountId +:+ ":product/" +:+ awsAccountId +:+ "/default"));
      ("GeneratorId", PyStr instanceArn);
      ("AwsAccountId", PyStr awsAccountId);
      ("Types", PyList [PyStr "Software and Configuration Checks/AWS Security Best Practices/Network Reachability"; PyStr "TTPs/Discovery"]);
      ("FirstObservedAt", iso8601Time);
      ("CreatedAt", iso8601Time);
      ("UpdatedAt", iso8601Time);
      ("Severity", PyDict [("Label", PyStr "HIGH")]);
      ("Confidence", PyInt 99);
      ("Title", PyStr ("[AttackSurface.EC2." +:+ checkIdNumber +:+ "] EC2 Instances should not be publicly reachable on " +:+ serviceName));
      ("Description", PyStr ("EC2 instance " +:+ instanceId +:+ " is publicly reachable on port " +:+ pretty portNumber +:+ " which corresponds to the " +:+ serviceName +:+ " service. When Services are successfully fingerprinted by the ElectricEye Attack Surface Management Auditor it means the instance is Public, has an open Secuirty Group rule, and a running service on the host which adversaries can also see. Refer to the remediation insturctions for an example of a way to secure EC2 instances."));
      ("Remediation", PyDict [("Recommendation", PyDict [("Text", PyStr "EC2 Instances should only have the minimum necessary ports open to achieve their purposes, allow traffic from authorized sources, and use other defense-in-depth and hardening strategies. For a basic view on traffic authorization into your instances refer to the Authorize inbound traffic for your Linux instances section of the Amazon Elastic Compute Cloud User Guide");
          ("Url", PyStr "https://docs.aws.amazon.com/AWSEC2/latest/UserGuide/authorizing-access-to-an-instance.html")])]);
      ("ProductFields", PyDict [("Product Name", PyStr "ElectricEye")]);
      ("Resources", PyList [PyDict [("Type", PyStr "AwsEc2Instance");
          ("Id", PyStr instanceArn);
          ("Partition", PyStr awsPartition);
          ("Region", PyStr awsRegion);
          ("Details", PyDict [("AwsEc2Instance", PyDict [("Type", PyStr instanceType);
              ("ImageId", PyStr instanceImage);
              ("VpcId", PyStr vpcId);
              ("SubnetId", PyStr subnetId);
              ("LaunchedAt", PyStr x1)])])]]);
      ("Compliance", PyDict [("Status", PyStr "FAILED");
        ("RelatedRequirements", PyList [PyStr "NIST CSF PR.AC-3"; PyStr "NIST SP 800-53 AC-1"; PyStr "NIST SP 800-53 AC-17"; PyStr "NIST SP 800-53 AC-19"; PyStr "NIST SP 800-53 AC-20"; PyStr "NIST SP 800-53 SC-15"; PyStr "AICPA TSC CC6.6"; PyStr "ISO 27001:2013 A.6.2.1"; PyStr "ISO 27001:2013 A.6.2.2"; PyStr "ISO 27001:2013 A.11.2.6"; PyStr "ISO 27001:2013 A.13.1.1"; PyStr "ISO 27001:2013 A.13.2.1"])]);
      ("Workflow", PyDict [("Status", PyStr "NEW")]);
      ("RecordState", PyStr "ACTIVE")]).

(** The finding of the passing branch of [ec2_attack_surface_open_tcp_port_check] (source lines 186-246). *)
Definition ec2_attack_surface_open_tcp_port_check_passing (iso8601Time : pyval) (awsAccountId awsRegion awsPartition instanceId instanceArn instanceType instanceImage subnetId vpcId instanceLaunchedAt checkIdNumber serviceName serviceStateReason : string) (portNumber : Z) : result pyval :=
  let? x1 := parse_isoformat instanceLaunchedAt in
  Ok (PyDict [("SchemaVersion", PyStr "2018-10-08");
      ("Id", PyStr (instanceArn +:+ "/attack-surface-ec2-open-" +:+ serviceName +:+ "-check"));
      ("ProductArn", PyStr ("arn:" +:+ awsPartition +:+ ":securityhub:" +:+ awsRegion +:+ ":" +:+ awsAccountId +:+ ":product/" +:+ awsAccountId +:+ "/default"));
      ("GeneratorId", PyStr instanceArn);
      ("AwsAccountId", PyStr awsAccountId);
      ("Types", PyList [PyStr "Software and Configuration Checks/AWS Security Best Practices/Network Reachability"; PyStr "TTPs/Discovery"]);
      ("FirstObservedAt", iso8601Time);
      ("CreatedAt", iso8601Time);
      ("UpdatedAt", iso8601Time);
      ("Severity", PyDict [("Label", PyStr "INFORMATIONAL")]);
      ("Confidence", PyInt 99);
      ("Title", PyStr ("[AttackSurface.EC2." +:+ checkIdNumber +:+ "] EC2 Instances should not be publicly reachable on " +:+ serviceName));
      ("Description", PyStr ("EC2 instance " +:+ instanceId +:+ " is not publicly reachable on port " +:+ pretty portNumber +:+ " which corresponds to the " +:+ serviceName +:+ " service due to " +:+ serviceStateReason +:+ ". Instances and their respective Security Groups should still be reviewed for minimum necessary access."));
      ("Remediation", PyDict [("Recommendation", PyDict [("Text", PyStr "EC2 Instances should only have the minimum necessary ports open to achieve their purposes, allow traffic from authorized sources, and use other defense-in-depth and hardening strategies. For a basic view on traffic authorization into your instances refer to the Authorize inbound traffic for your Linux instances section of the Amazon Elastic Compute Cloud User Guide");
          ("Url", PyStr "https://docs.aws.amazon.com/AWSEC2/latest/UserGuide/authorizing-access-to-an-instance.html")])]);
      ("ProductFields", PyDict [("Product Name", PyStr "ElectricEye")]);
      ("Resources", PyList [PyDict [("Type", PyStr "AwsEc2Instance");
          ("Id", PyStr instanceArn);
          ("Partition", PyStr awsPartition);
          ("Region", PyStr awsRegion);
          ("Details", PyDict [("AwsEc2Instance", PyDict [("Type", PyStr instanceType);
              ("ImageId", PyStr instanceImage);
              ("VpcId", PyStr vpcId);
              ("SubnetId", PyStr subnetId);
              ("LaunchedAt", PyStr x1)])])]]);
      ("Compliance", PyDict [("Status", PyStr "PASSED");
        ("RelatedRequirements", PyList [PyStr "NIST CSF PR.AC-3"; PyStr "NIST SP 800-53 AC-1"; PyStr "NIST SP 800-53 AC-17"; PyStr "NIST SP 800-53 AC-19"; PyStr "NIST SP 800-53 AC-20"; PyStr "NIST SP 800-53 SC-15"; PyStr "AICPA TSC CC6.6"; PyStr "ISO 27001:2013 A.6.2.1"; PyStr "ISO 27001:2013 A.6.2.2"; PyStr "ISO 27001:2013 A.11.2.6"; PyStr "ISO 27001:2013 A.13.1.1"; PyStr "ISO 27001:2013 A.13.2.1"])]);
      ("Workflow", PyDict [("Status", PyStr "RESOLVED")]);
      ("RecordState", PyStr "ARCHIVED")]).

(** One iteration of the loop over the scanned ports of an instance (source
    lines 105-247), up to the [yield]. *)
Definition ec2_attack_surface_open_tcp_port_check_port
    (iso8601Time : pyval)
    (awsAccountId awsRegion awsPartition
     instanceId instanceArn instanceType instanceImage subnetId vpcId
     instanceLaunchedAt : string)
    (index : Z) (p : pyval) : result pyval :=
  let checkIdNumber := pretty (index + 1) in
  let? portid := py_getitem p (PyStr "portid") in
  let? portNumber := py_int portid in
  let? serviceName := port_service_name p portNumber in
  let? reason := py_getitem p (PyStr "reason") in
  let serviceStateReason := py_str reason in
  let? state := py_getitem p (PyStr "state") in
  let serviceState := py_str state in
  if String.eqb serviceState "open"
  then ec2_attack_surface_open_tcp_port_check_failing iso8601Time
         awsAccountId awsRegion awsPartition
         instanceId instanceArn instanceType instanceImage subnetId vpcId
         instanceLaunchedAt checkIdNumber serviceName portNumber
  else ec2_attack_surface_open_tcp_port_check_passing iso8601Time
         awsAccountId awsRegion awsPartition
         instanceId instanceArn instanceType instanceImage subnetId vpcId
         instanceLaunchedAt checkIdNumber serviceName serviceStateReason portNumber.

(** Source lines 85-88: the EBS attach time of the first block device, or the
    launch time of the instance when a key on the way is missing. *)
Definition instance_launched_at (i : pyval) : result string :=
  match (let? mappings := py_getitem i (PyStr "BlockDeviceMappings") in
         let? first := py_getitem mappings (PyInt 0) in
         let? ebs := py_getitem first (PyStr "Ebs") in
         let? attachTime := py_getitem ebs (PyStr "AttachTime") in
         Ok (py_str attachTime)) with
  | Ok s => Ok s
  | Raise e =>
      if is_KeyError e
      then let? launchTime := py_getitem i (PyStr "LaunchTime") in Ok (py_str launchTime)
      else Raise e
  end.

(** Source lines 90-95: the public address to scan; [None] stands for the
    [continue] of the [try] block and of its [except KeyError]. *)
Definition instance_host_ip (i : pyval) : result (option pyval) :=
  match py_getitem i (PyStr "PublicIpAddress") with
  | Ok hostIp =>
      if py_eqb hostIp (py_or (PyStr "") PyNone) then Ok None else Ok (Some hostIp)
  | Raise e => if is_KeyError e then Ok None else Raise e
  end.

(** The body of the loop over the instances (source lines 79-247). *)
Definition ec2_attack_surface_open_tcp_port_check_instance {S}
    (iso8601Time : pyval) (awsAccountId awsRegion awsPartition : string)
    (i : pyval) : M S unit :=
  instanceId <- lift (let? x := py_getitem i (PyStr "InstanceId") in Ok (py_str x)) ;;
  let instanceArn :=
    "arn:" +:+ awsPartition +:+ ":ec2:" +:+ awsRegion +:+ ":" +:+ awsAccountId +:+ ":instance/" +:+ instanceId in
  instanceType <- lift (let? x := py_getitem i (PyStr "InstanceType") in Ok (py_str x)) ;;
  instanceImage <- lift (let? x := py_getitem i (PyStr "ImageId") in Ok (py_str x)) ;;
  subnetId <- lift (let? x := py_getitem i (PyStr "SubnetId") in Ok (py_str x)) ;;
  vpcId <- lift (let? x := py_getitem i (PyStr "VpcId") in Ok (py_str x)) ;;
  instanceLaunchedAt <- lift (instance_launched_at i) ;;
  host <- lift (instance_host_ip i) ;;
  match host with
  | None => ret tt
  | Some hostIp =>
      scanner <- scan_host hostIp instanceId ;;
      if py_eqb scanner PyNone then ret tt
      else
        ports <- lift (let? x := py_getitem scanner hostIp in py_getitem x (PyStr "ports")) ;;
        ports <- lift (py_iter ports) ;;
        for_enumerate 0 ports (fun index p =>
          finding <- lift (ec2_attack_surface_open_tcp_port_check_port iso8601Time
                             awsAccountId awsRegion awsPartition
                             instanceId instanceArn instanceType instanceImage subnetId vpcId
                             instanceLaunchedAt index p) ;;
          yield finding)
  end.

Definition ec2_attack_surface_open_tcp_port_check
    (awsAccountId awsRegion awsPartition : string) : M (gmap string pyval) unit :=
  iso8601Time <- perform UtcNow ;;
  instances <- ec2_paginate ;;
  instances <- lift (py_iter instances) ;;
  for_each instances
    (ec2_attack_surface_open_tcp_port_check_instance iso8601Time
       awsAccountId awsRegion awsPartition).

(** The finding of the failing branch of [elbv2_attack_surface_open_tcp_port_check] (source lines 293-353). *)
Definition elbv2_attack_surface_open_tcp_port_check_failing (iso8601Time : pyval) (awsAccountId awsRegion awsPartition elbv2Arn elbv2Name elbv2DnsName elbv2LbType elbv2Scheme elbv2VpcId elbv2IpAddressType checkIdNumber serviceName : string) (portNumber : Z) : result pyval :=
  Ok (PyDict [("SchemaVersion", PyStr "2018-10-08");
      ("Id", PyStr (elbv2Arn +:+ "/attack-surface-elbv2-open-" +:+ serviceName +:+ "-check"));
      ("ProductArn", PyStr ("arn:" +:+ awsPartition +:+ ":securityhub:" +:+ awsRegion +:+ ":" +:+ awsAccountId +:+ ":product/" +:+ awsAccountId +:+ "/default"));
      ("GeneratorId", PyStr elbv2Arn);
      ("AwsAccountId", PyStr awsAccountId);
      ("Types", PyList [PyStr "Software and Configuration Checks/AWS Security Best Practices/Network Reachability"; PyStr "TTPs/Discovery"]);
      ("FirstObservedAt", iso8601Time);
      ("CreatedAt", iso8601Time);
      ("UpdatedAt", iso8601Time);
      ("Severity", PyDict [("Label", PyStr "HIGH")]);
      ("Confidence", PyInt 99);
      ("Title", PyStr ("[AttackSurface.ELBv2." +:+ checkIdNumber +:+ "] Application Load Balancers should not be publicly reachable on " +:+ serviceName));
      ("Description", PyStr ("Application load balancer " +:+ elbv2Name +:+ " is publicly reachable on port " +:+ pretty portNumber +:+ " which corresponds to the " +:+ serviceName +:+ " service. When Services are successfully fingerprinted by the ElectricEye Attack Surface Management Auditor it means the instance is Public, has an open Secuirty Group rule, and a running service on the host which adversaries can also see. Refer to the remediation insturctions for an example of a way to secure EC2 instances."));
      ("Remediation", PyDict [("Recommendation", PyDict [("Text", PyStr "For more information on ALB security group reccomendations refer to the Security groups for your Application Load Balancer section of the Application Load Balancers User Guide.");
          ("Url", PyStr "https://docs.aws.amazon.com/elasticloadbalancing/latest/application/load-balancer-update-security-groups.html#security-group-recommended-rules")])]);
      ("ProductFields", PyDict [("Product Name", PyStr "ElectricEye")]);
      ("Resources", PyList [PyDict [("Type", PyStr "AwsElbv2LoadBalancer");
          ("Id", PyStr elbv2Arn);
          ("Partition", PyStr awsPartition);
          ("Region", PyStr awsRegion);
          ("Details", PyDict [("AwsElbv2LoadBalancer", PyDict [("DNSName", PyStr elbv2DnsName);
              ("IpAddressType", PyStr elbv2IpAddressType);
              ("Scheme", PyStr elbv2Scheme);
              ("Type", PyStr elbv2LbType);
              ("VpcId", PyStr elbv2VpcId)])])]]);
      ("Compliance", PyDict [("Status", PyStr "FAILED");
        ("RelatedRequirements", PyList [PyStr "NIST CSF PR.AC-3"; PyStr "NIST SP 800-53 AC-1"; PyStr "NIST SP 800-53 AC-17"; PyStr "NIST SP 800-53 AC-19"; PyStr "NIST SP 800-53 AC-20"; PyStr "NIST SP 800-53 SC-15"; PyStr "AICPA TSC CC6.6"; PyStr "ISO 27001:2013 A.6.2.1"; PyStr "ISO 27001:2013 A.6.2.2"; PyStr "ISO 27001:2013 A.11.2.6"; PyStr "ISO 27001:2013 A.13.1.1"; PyStr "ISO 27001:2013 A.13.2.1"])]);
      ("Workflow", PyDict [("Status", PyStr "NEW")]);
      ("RecordState", PyStr "ACTIVE")]).

(** The finding of the passing branch of [elbv2_attack_surface_open_tcp_port_check] (source lines 356-416). *)
Definition elbv2_attack_surface_open_tcp_port_check_passing (iso8601Time : pyval) (awsAccountId awsRegion awsPartition elbv2Arn elbv2Name elbv2DnsName elbv2LbType elbv2Scheme elbv2VpcId elbv2IpAddressType checkIdNumber serviceName serviceStateReason : string) (portNumber : Z) : result pyval :=
  Ok (PyDict [("SchemaVersion", PyStr "2018-10-08");
      ("Id", PyStr (elbv2Arn +:+ "/attack-surface-elbv2-open-" +:+ serviceName +:+ "-check"));
      ("ProductArn", PyStr ("arn:" +:+ awsPartition +:+ ":securityhub:" +:+ awsRegion +:+ ":" +:+ awsAccountId +:+ ":product/" +:+ awsAccountId +:+ "/default"));
      ("GeneratorId", PyStr elbv2Arn);
      ("AwsAccountId", PyStr awsAccountId);
      ("Types", PyList [PyStr "Software and Configuration Checks/AWS Security Best Practices/Network Reachability"; PyStr "TTPs/Discovery"]);
      ("FirstObservedAt", iso8601Time);
      ("CreatedAt", iso8601Time);
      ("UpdatedAt", iso8601Time);
      ("Severity", PyDict [("Label", PyStr "INFORMATIONAL")]);
      ("Confidence", PyInt 99);
      ("Title", PyStr ("[AttackSurface.ELBv2." +:+ checkIdNumber +:+ "] Application Load Balancers should not be publicly reachable on " +:+ serviceName));
      ("Description", PyStr ("Application load balancer " +:+ elbv2Name +:+ " is not publicly reachable on port " +:+ pretty portNumber +:+ " which corresponds to the " +:+ serviceName +:+ " service due to " +:+ serviceStateReason +:+ ". ALBs and their respective Security Groups should still be reviewed for minimum necessary access."));
      ("Remediation", PyDict [("Recommendation", PyDict [("Text", PyStr "For more information on ALB security group reccomendations refer to the Security groups for your Application Load Balancer section of the Application Load Balancers User Guide.");
          ("Url", PyStr "https://docs.aws.amazon.com/elasticloadbalancing/latest/application/load-balancer-update-security-groups.html#security-group-recommended-rules")])]);
      ("ProductFields", PyDict [("Product Name", PyStr "ElectricEye")]);
      ("Resources", PyList [PyDict [("Type", PyStr "AwsElbv2LoadBalancer");
          ("Id", PyStr elbv2Arn);
          ("Partition", PyStr awsPartition);
          ("Region", PyStr awsRegion);
          ("Details", PyDict [("AwsElbv2LoadBalancer", PyDict [("DNSName", PyStr elbv2DnsName);
              ("IpAddressType", PyStr elbv2IpAddressType);
              ("Scheme", PyStr elbv2Scheme);
              ("Type", PyStr elbv2LbType);
              ("VpcId", PyStr elbv2VpcId)])])]]);
      ("Compliance", PyDict [("Status", PyStr "PASSED");
        ("RelatedRequirements", PyList [PyStr "NIST CSF PR.AC-3"; PyStr "NIST SP 800-53 AC-1"; PyStr "NIST SP 800-53 AC-17"; PyStr "NIST SP 800-53 AC-19"; PyStr "NIST SP 800-53 AC-20"; PyStr "NIST SP 800-53 SC-15"; PyStr "AICPA TSC CC6.6"; PyStr "ISO 27001:2013 A.6.2.1"; PyStr "ISO 27001:2013 A.6.2.2"; PyStr "ISO 27001:2013 A.11.2.6"; PyStr "ISO 27001:2013 A.13.1.1"; PyStr "ISO 27001:2013 A.13.2.1"])]);
      ("Workflow", PyDict [("Status", PyStr "RESOLVED")]);
      ("RecordState", PyStr "ARCHIVED")]).

(** One iteration of the loop over the scanned ports of a load balancer
    (source lines 275-417), up to the [yield]. *)
Definition elbv2_attack_surface_open_tcp_port_check_port
    (iso8601Time : pyval)
    (awsAccountId awsRegion awsPartition
     elbv2Arn elbv2Name elbv2DnsName elbv2LbType elbv2Scheme elbv2VpcId
     elbv2IpAddressType : string)
    (index : Z) (p : pyval) : result pyval :=
  let checkIdNumber := pretty (index + 1) in
  let? portid := py_getitem p (PyStr "portid") in
  let? portNumber := py_int portid in
  let? serviceName := port_service_name p portNumber in
  let? reason := py_getitem p (PyStr "reason") in
  let serviceStateReason := py_str reason in
  let? state := py_getitem p (PyStr "state") in
  let serviceState := py_str state in
  if String.eqb serviceState "open"
  then elbv2_attack_surface_open_tcp_port_check_failing iso8601Time
         awsAccountId awsRegion awsPartition
         elbv2Arn elbv2Name elbv2DnsName elbv2LbType elbv2Scheme elbv2VpcId
         elbv2IpAddressType checkIdNumber serviceName portNumber
  else elbv2_attack_surface_open_tcp_port_check_passing iso8601Time
         awsAccountId awsRegion awsPartition
         elbv2Arn elbv2Name elbv2DnsName elbv2LbType elbv2Scheme elbv2VpcId
         elbv2IpAddressType checkIdNumber serviceName serviceStateReason portNumber.

(** [list(scanner.keys())[0]] (source lines 270-271) *)
Definition first_key (scanner : pyval) : result pyval :=
  match scanner with
  | PyDict d => py_getitem (PyList (map (fun kv => PyStr (fst kv)) d)) (PyInt 0)
  | _ => Raise AttributeError
  end.

(** The body of the loop over the load balancers (source lines 256-419). *)
Definition elbv2_attack_surface_open_tcp_port_check_lb {S}
    (iso8601Time : pyval) (awsAccountId awsRegion awsPartition : string)
    (lb : pyval) : M S unit :=
  elbv2Arn <- lift (let? x := py_getitem lb (PyStr "LoadBalancerArn") in Ok (py_str x)) ;;
  elbv2Name <- lift (let? x := py_getitem lb (PyStr "LoadBalancerName") in Ok (py_str x)) ;;
  elbv2DnsName <- lift (let? x := py_getitem lb (PyStr "DNSName") in Ok (py_str x)) ;;
  elbv2LbType <- lift (let? x := py_getitem lb (PyStr "Type") in Ok (py_str x)) ;;
  elbv2Scheme <- lift (let? x := py_getitem lb (PyStr "Scheme") in Ok (py_str x)) ;;
  elbv2VpcId <- lift (let? x := py_getitem lb (PyStr "VpcId") in Ok (py_str x)) ;;
  elbv2IpAddressType <- lift (let? x := py_getitem lb (PyStr "IpAddressType") in Ok (py_str x)) ;;
  if String.eqb elbv2Scheme "internet-facing" && String.eqb elbv2LbType "application" then
    scanner <- scan_host (PyStr elbv2DnsName) elbv2Name ;;
    if py_eqb scanner PyNone then ret tt
    else
      hostIp <- lift (first_key scanner) ;;
      ports <- lift (let? x := py_getitem scanner hostIp in py_getitem x (PyStr "ports")) ;;
      ports <- lift (py_iter ports) ;;
      for_enumerate 0 ports (fun index p =>
        finding <- lift (elbv2_attack_surface_open_tcp_port_check_port iso8601Time
                           awsAccountId awsRegion awsPartition
                           elbv2Arn elbv2Name elbv2DnsName elbv2LbType elbv2Scheme elbv2VpcId
                           elbv2IpAddressType index p) ;;
        yield finding)
  else ret tt.

Definition elbv2_attack_surface_open_tcp_port_check
    (awsAccountId awsRegion awsPartition : string) : M (gmap string pyval) unit :=
  iso8601Time <- perform UtcNow ;;
  response <- describe_load_balancers ;;
  lbs <- lift (py_getitem response (PyStr "LoadBalancers")) ;;
  lbs <- lift (py_iter lbs) ;;
  for_each lbs
    (elbv2_attack_surface_open_tcp_port_check_lb iso8601Time
       awsAccountId awsRegion awsPartition).

End WithRuntime.
End EC2ASM.

(** ** VPC_Flow_Logs_Playbook.py *)

Module Playbook.
Section WithRuntime.
Context `{RT : Runtime}.

(** [os.environ[name]] *)
Definition environ_getitem (environ : gmap string string) (name : string) : result string :=
  match environ !! name with
  | Some v => Ok v
  | None => Raise (KeyError (PyStr name))
  end.

(** The provisioning steps of the branch taken when the finding belongs to
    another account (source lines 49-150), over the clients [logs], [iam] and
    [ec2] the branch has just built. *)
Definition cross_account_pipeline
    (logs iam ec2 securityhub : client)
    (lambdaFunctionName findingId vpcId : string) : M unit unit :=
  (* create flow logs and wait for the creation to propogate *)
  try_except
    (response <- perform (ApiCall logs "create_log_group"
                   [("logGroupName", PyStr ("VPCFlowLogs/" +:+ vpcId))]) ;;
     print response ;;;
     time_sleep 5)
    (fun e => print_exn e ;;; raise e) ;;;
  (* describe the created group and retrieve the ARN *)
  group <- try_except
    (response <- perform (ApiCall logs "describe_log_groups"
                   [("logGroupNamePrefix", PyStr ("VPCFlowLogs/" +:+ vpcId))]) ;;
     logGroupArn <- lift (let? groups := py_getitem response (PyStr "logGroups") in
                          let? first := py_getitem groups (PyInt 0) in
                          let? arn := py_getitem first (PyStr "arn") in
                          Ok (py_str arn)) ;;
     logGroupName <- lift (let? groups := py_getitem response (PyStr "logGroups") in
                           let? first := py_getitem groups (PyInt 0) in
                           let? name := py_getitem first (PyStr "logGroupName") in
                           Ok (py_str name)) ;;
     ret (logGroupArn, logGroupName))
    (fun e => print_exn e ;;; raise e) ;;
  let logGroupArn := fst group in
  let logGroupName := snd group in
  (* create a VPC Flow > CWL policy *)
  let vpcFlowCwlPolicy :=
    PyDict [("Version", PyStr "2012-10-17");
            ("Statement", PyList [PyDict [
               ("Action", PyList [PyStr "logs:CreateLogGroup";
                                  PyStr "logs:CreateLogStream";
                                  PyStr "logs:PutLogEvents";
                                  PyStr "logs:DescribeLogGroups";
                                  PyStr "logs:DescribeLogStreams"]);
               ("Effect", PyStr "Allow");
               ("Resource", PyStr (logGroupArn +:+ "*"))]])] in
  (* create a VPC Flow logs Trust Policy *)
  let flowLogTrustPolicy :=
    PyDict [("Version", PyStr "2012-10-17");
            ("Statement", PyList [PyDict [
               ("Sid", PyStr "");
               ("Effect", PyStr "Allow");
               ("Principal", PyDict [("Service", PyStr "vpc-flow-logs.amazonaws.com")]);
               ("Action", PyStr "sts:AssumeRole")]])] in
  (* create an IAM Policy *)
  cwlPolicyArn <- try_except
    (response <- perform (ApiCall iam "create_policy"
                   [("PolicyName", PyStr ("VPCFlowLogsPolicy-" +:+ vpcId));
                    ("PolicyDocument", PyStr (json_dumps vpcFlowCwlPolicy));
                    ("Description", PyStr ("Allows " +:+ vpcId +:+ " to publish logs to CloudWatch"))]) ;;
     lift (let? policy := py_getitem response (PyStr "Policy") in
           let? arn := py_getitem policy (PyStr "Arn") in
           Ok (py_str arn)))
    (fun e => print_exn e ;;; raise e) ;;
  (* create the VPC flow logs role *)
  role <- try_except
    (response <- perform (ApiCall iam "create_role"
                   [("RoleName", PyStr ("VPCFlowLogsRole-" +:+ vpcId));
                    ("AssumeRolePolicyDocument", PyStr (json_dumps flowLogTrustPolicy));
                    ("Description", PyStr ("Allows " +:+ vpcId +:+ " to publish logs to CloudWatch"))]) ;;
     cwlRoleName <- lift (let? role := py_getitem response (PyStr "Role") in
                          let? name := py_getitem role (PyStr "RoleName") in
                          Ok (py_str name)) ;;
     cwlRoleArn <- lift (let? role := py_getitem response (PyStr "Role") in
                         let? arn := py_getitem role (PyStr "Arn") in
                         Ok (py_str arn)) ;;
     ret (cwlRoleName, cwlRoleArn))
    (fun e => print_exn e ;;; raise e) ;;
  let cwlRoleName := fst role in
  let cwlRoleArn := snd role in
  (* attach the IAM policy to the new role *)
  try_except
    (response <- perform (ApiCall iam "attach_role_policy"
                   [("RoleName", PyStr cwlRoleName);
                    ("PolicyArn", PyStr cwlPolicyArn)]) ;;
     print response)
    (fun e => print_exn e ;;; raise e) ;;;
  (* setup flow logging *)
  try_except
    (response <- perform (ApiCall ec2 "create_flow_logs"
                   [("DryRun", PyBool false);
                    ("DeliverLogsPermissionArn", PyStr cwlRoleArn);
                    ("LogGroupName", PyStr logGroupName);
                    ("ResourceIds", PyList [PyStr vpcId]);
                    ("ResourceType", PyStr "VPC");
                    ("TrafficType", PyStr "REJECT");
                    ("LogDestinationType", PyStr "cloud-watch-logs");
                    ("MaxAggregationInterval", PyInt 60)]) ;;
     print response ;;;
     try_except
       (response <- perform (ApiCall securityhub "update_findings"
                      [("Filters", PyDict [("Id", PyList [PyDict [("Value", PyStr findingId);
                                                                  ("Comparison", PyStr "EQUALS")]])]);
                       ("Note", PyDict [("Text", PyStr ("A new CloudWatch logs group and IAM role was created for the VPC and flow logs are enabled and being sent to " +:+ logGroupName +:+ " and the finding was archived."));
                                        ("UpdatedBy", PyStr lambdaFunctionName)]);
                       ("RecordState", PyStr "ARCHIVED")]) ;;
        print response)
       (fun e => print_exn e))
    (fun e => print_exn e ;;; raise e).

(** The provisioning steps of the branch taken when the finding belongs to
    the account of the caller (source lines 155-256). *)
Definition same_account_pipeline
    (logs iam ec2 securityhub : client)
    (lambdaFunctionName findingId vpcId : string) : M unit unit :=
  (* create flow logs and wait for the creation to propogate *)
  try_except
    (response <- perform (ApiCall logs "create_log_group"
                   [("logGroupName", PyStr ("VPCFlowLogs/" +:+ vpcId))]) ;;
     print response ;;;
     time_sleep 5)
    (fun e => print_exn e ;;; raise e) ;;;
  (* describe the created group and retrieve the ARN *)
  group <- try_except
    (response <- perform (ApiCall logs "describe_log_groups"
                   [("logGroupNamePrefix", PyStr ("VPCFlowLogs/" +:+ vpcId))]) ;;
     logGroupArn <- lift (let? groups := py_getitem response (PyStr "logGroups") in
                          let? first := py_getitem groups (PyInt 0) in
                          let? arn := py_getitem first (PyStr "arn") in
                          Ok (py_str arn)) ;;
     logGroupName <- lift (let? groups := py_getitem response (PyStr "logGroups") in
                           let? first := py_getitem groups (PyInt 0) in
                           let? name := py_getitem first (PyStr "logGroupName") in
                           Ok (py_str name)) ;;
     ret (logGroupArn, logGroupName))
    (fun e => print_exn e ;;; raise e) ;;
  let logGroupArn := fst group in
  let logGroupName := snd group in
  (* create a VPC Flow > CWL policy *)
  let vpcFlowCwlPolicy :=
    PyDict [("Version", PyStr "2012-10-17");
            ("Statement", PyList [PyDict [
               ("Action", PyList [PyStr "logs:CreateLogGroup";
                                  PyStr "logs:CreateLogStream";
                                  PyStr "logs:PutLogEvents";
                                  PyStr "logs:DescribeLogGroups";
                                  PyStr "logs:DescribeLogStreams"]);
               ("Effect", PyStr "Allow");
               ("Resource", PyStr (logGroupArn +:+ "*"))]])] in
  (* create a VPC Flow logs Trust Policy *)
  let flowLogTrustPolicy :=
    PyDict [("Version", PyStr "2012-10-17");
            ("Statement", PyList [PyDict [
               ("Sid", PyStr "");
               ("Effect", PyStr "Allow");
               ("Principal", PyDict [("Service", PyStr "vpc-flow-logs.amazonaws.com")]);
               ("Action", PyStr "sts:AssumeRole")]])] in
  (* create an IAM Policy *)
  cwlPolicyArn <- try_except
    (response <- perform (ApiCall iam "create_policy"
                   [("PolicyName", PyStr ("VPCFlowLogsPolicy-" +:+ vpcId));
                    ("PolicyDocument", PyStr (json_dumps vpcFlowCwlPolicy));
                    ("Description", PyStr ("Allows " +:+ vpcId +:+ " to publish logs to CloudWatch"))]) ;;
     lift (let? policy := py_getitem response (PyStr "Policy") in
           let? arn := py_getitem policy (PyStr "Arn") in
           Ok (py_str arn)))
    (fun e => print_exn e ;;; raise e) ;;
  (* create the VPC flow logs role *)
  role <- try_except
    (response <- perform (ApiCall iam "create_role"
                   [("RoleName", PyStr ("VPCFlowLogsRole-" +:+ vpcId));
                    ("AssumeRolePolicyDocument", PyStr (json_dumps flowLogTrustPolicy));
                    ("Description", PyStr ("Allows " +:+ vpcId +:+ " to publish logs to CloudWatch"))]) ;;
     cwlRoleName <- lift (let? role := py_getitem response (PyStr "Role") in
                          let? name := py_getitem role (PyStr "RoleName") in
                          Ok (py_str name)) ;;
     cwlRoleArn <- lift (let? role := py_getitem response (PyStr "Role") in
                         let? arn := py_getitem role (PyStr "Arn") in
                         Ok (py_str arn)) ;;
     ret (cwlRoleName, cwlRoleArn))
    (fun e => print_exn e ;;; raise e) ;;
  let cwlRoleName := fst role in
  let cwlRoleArn := snd role in
  (* attach the IAM policy to the new role *)
  try_except
    (response <- perform (ApiCall iam "attach_role_policy"
                   [("RoleName", PyStr cwlRoleName);
                    ("PolicyArn", PyStr cwlPolicyArn)]) ;;
     print response)
    (fun e => print_exn e ;;; raise e) ;;;
  (* setup flow logging *)
  try_except
    (response <- perform (ApiCall ec2 "create_flow_logs"
                   [("DryRun", PyBool false);
                    ("DeliverLogsPermissionArn", PyStr cwlRoleArn);
                    ("LogGroupName", PyStr logGroupName);
                    ("ResourceIds", PyList [PyStr vpcId]);
                    ("ResourceType", PyStr "VPC");
                    ("TrafficType", PyStr "REJECT");
                    ("LogDestinationType", PyStr "cloud-watch-logs");
                    ("MaxAggregationInterval", PyInt 60)]) ;;
     print response ;;;
     try_except
       (response <- perform (ApiCall securityhub "update_findings"
                      [("Filters", PyDict [("Id", PyList [PyDict [("Value", PyStr findingId);
                                                                  ("Comparison", PyStr "EQUALS")]])]);
                       ("Note", PyDict [("Text", PyStr ("A new CloudWatch logs group and IAM role was created for the VPC and flow logs are enabled and being sent to " +:+ logGroupName +:+ " and the finding was archived."));
                                        ("UpdatedBy", PyStr lambdaFunctionName)]);
                       ("RecordState", PyStr "ARCHIVED")]) ;;
        print response)
       (fun e => print_exn e))
    (fun e => print_exn e ;;; raise e).

(** The branch [if findingOwner != masterAccountId] (source lines 40-150). *)
Definition cross_account_branch
    (sts securityhub : client)
    (lambdaFunctionName findingId findingOwner vpcId : string) : M unit unit :=
  memberAcct <- perform (ApiCall sts "assume_role"
                  [("RoleArn", PyStr ("arn:aws:iam::" +:+ findingOwner +:+ ":role/XA-ElectricEye-Response"));
                   ("RoleSessionName", PyStr "x_acct_sechub")]) ;;
  (* retrieve creds from member account *)
  xAcctAccessKey <- lift (let? creds := py_getitem memberAcct (PyStr "Credentials") in
                          py_getitem creds (PyStr "AccessKeyId")) ;;
  xAcctSecretKey <- lift (let? creds := py_getitem memberAcct (PyStr "Credentials") in
                          py_getitem creds (PyStr "SecretAccessKey")) ;;
  xAcctSeshToken <- lift (let? creds := py_getitem memberAcct (PyStr "Credentials") in
                          py_getitem creds (PyStr "SessionToken")) ;;
  (* create service client using the assumed role credentials *)
  let logs := boto3_client_with "logs" xAcctAccessKey xAcctSecretKey xAcctSeshToken in
  let iam := boto3_client_with "iam" xAcctAccessKey xAcctSecretKey xAcctSeshToken in
  let ec2 := boto3_client_with "ec2" xAcctAccessKey xAcctSecretKey xAcctSeshToken in
  cross_account_pipeline logs iam ec2 securityhub lambdaFunctionName findingId vpcId.

(** The [else] branch (source lines 152-256). *)
Definition same_account_branch
    (securityhub : client)
    (lambdaFunctionName findingId vpcId : string) : M unit unit :=
  let logs := boto3_client "logs" in
  let iam := boto3_client "iam" in
  let ec2 := boto3_client "ec2" in
  same_account_pipeline logs iam ec2 securityhub lambdaFunctionName findingId vpcId.

(** The body of the loop over the resources of a finding (source lines 36-256). *)
Definition remediate_resource
    (sts securityhub : client) (awsRegion lambdaFunctionName : string)
    (masterAccountId : pyval) (findingId findingOwner : string)
    (resources : pyval) : M unit unit :=
  resourceId <- lift (let? x := py_getitem resources (PyStr "Id") in Ok (py_str x)) ;;
  (* create resource ID *)
  let vpcId := str_replace resourceId
                 ("arn:aws:ec2:" +:+ awsRegion +:+ ":" +:+ findingOwner +:+ ":vpc/") "" in
  if py_ne (PyStr findingOwner) masterAccountId
  then cross_account_branch sts securityhub lambdaFunctionName findingId findingOwner vpcId
  else same_account_branch securityhub lambdaFunctionName findingId vpcId.

Definition lambda_handler (environ : gmap string string) (event : pyval) : M unit unit :=
  (* boto3 clients *)
  let sts := boto3_client "sts" in
  let securityhub := boto3_client "securityhub" in
  (* create env vars *)
  awsRegion <- lift (environ_getitem environ "AWS_REGION") ;;
  lambdaFunctionName <- lift (environ_getitem environ "AWS_LAMBDA_FUNCTION_NAME") ;;
  identity <- perform (ApiCall sts "get_caller_identity" []) ;;
  masterAccountId <- lift (py_getitem identity (PyStr "Account")) ;;
  (* parse Security Hub CWE *)
  securityHubEvent <- lift (let? detail := py_getitem event (PyStr "detail") in
                            py_getitem detail (PyStr "findings")) ;;
  securityHubEvent <- lift (py_iter securityHubEvent) ;;
  for_each securityHubEvent (fun findings =>
    (* parse finding ID *)
    findingId <- lift (let? x := py_getitem findings (PyStr "Id") in Ok (py_str x)) ;;
    (* parse Account from SecHub Finding *)
    findingOwner <- lift (let? x := py_getitem findings (PyStr "AwsAccountId") in Ok (py_str x)) ;;
    resources <- lift (let? x := py_getitem findings (PyStr "Resources") in py_iter x) ;;
    for_each resources
      (remediate_resource sts securityhub awsRegion lambdaFunctionName
         masterAccountId findingId findingOwner)).

End WithRuntime.
End Playbook.

(** ** The registered checks *)

(** The checks that the two auditors register through
    [@registry.register_check(service)], in declaration order. *)
Definition registered_checks `{RT : Runtime}
  : list (string * (string -> string -> string -> M (gmap string pyval) unit)) :=
  [ ("dax", DAX.dax_encryption_at_rest_check);
    ("dax", DAX.dax_encryption_in_transit_check);
    ("ec2", EC2ASM.ec2_attack_surface_open_tcp_port_check);
    ("elbv2", EC2ASM.elbv2_attack_surface_open_tcp_port_check) ].

(** ** Vocabulary of the statements *)

Module Spec.

(** The four status fields of a finding. *)
Definition status_fields (f : pyval) : list (option pyval) :=
  [ get_path f ["Severity"; "Label"];
    get_path f ["Compliance"; "Status"];
    get_path f ["Workflow"; "Status"];
    get_path f ["RecordState"] ].

Definition passing_status (f : pyval) : Prop :=
  status_fields f =
  [ Some (PyStr "INFORMATIONAL"); Some (PyStr "PASSED");
    Some (PyStr "RESOLVED"); Some (PyStr "ARCHIVED") ].

Definition failing_status (f : pyval) : Prop :=
  status_fields f =
  [ Some (PyStr "HIGH"); Some (PyStr "FAILED");
    Some (PyStr "NEW"); Some (PyStr "ACTIVE") ].

Definition status_of_verdict (failing : bool) (f : pyval) : Prop :=
  if failing then failing_status f else passing_status f.

Definition well_formed_status (f : pyval) : Prop :=
  passing_status f \/ failing_status f.

(** [v[k1][k2]...] *)
Fixpoint py_path (v : pyval) (path : list pyval) : result pyval :=
  match path with
  | [] => Ok v
  | k :: rest => let? x := py_getitem v k in py_path x rest
  end.

(** The attributes of a cluster that both DAX checks copy into
    [Resources[0].Details.Other] (source lines 78-87), as subscript paths. *)
Definition dax_evidence_paths : list (list pyval) :=
  [ [PyStr "TotalNodes"];
    [PyStr "NodeType"];
    [PyStr "Status"];
    [PyStr "ClusterDiscoveryEndpoint"; PyStr "Address"];
    [PyStr "ClusterDiscoveryEndpoint"; PyStr "Port"];
    [PyStr "ClusterDiscoveryEndpoint"; PyStr "URL"];
    [PyStr "SubnetGroup"];
    [PyStr "SecurityGroups"; PyInt 0; PyStr "SecurityGroupIdentifier"];
    [PyStr "IamRoleArn"];
    [PyStr "ParameterGroup"; PyStr "ParameterGroupName"] ].

(** The subscript path to the EBS attach time of an instance (source line 86). *)
Definition ebs_attach_time_path : list pyval :=
  [PyStr "BlockDeviceMappings"; PyInt 0; PyStr "Ebs"; PyStr "AttachTime"].

(** Neither a finding nor a scan. *)
Definition no_scan_no_yield (o : op) : Prop :=
  match o with Yield _ | NmapTcpScan _ _ => False | _ => True end.

(** What [o] must satisfy when it is a [yield]. *)
Definition yields_only (P : pyval -> Prop) (o : op) : Prop :=
  match o with Yield f => P f | _ => True end.

(** A property of every run of a program, as a condition on the events of
    the run and on its result: whatever the outside answers. *)
Fixpoint always {A} (p : prog A) (post : list event -> A -> Prop) : Prop :=
  match p with
  | Ret a => post [] a
  | Do o k => forall r, always (k r) (fun tr a => post ((o, r) :: tr) a)
  end.

(** Every operation a program can perform satisfies [Q]. *)
Inductive all_ops {A} (Q : op -> Prop) : prog A -> Prop :=
| all_ops_Ret a : all_ops Q (Ret a)
| all_ops_Do o k : Q o -> (forall r, all_ops Q (k r)) -> all_ops Q (Do o k).

(** Two programs perform the same operations up to [f], continue alike on
    every answer and return the same result. *)
Inductive prog_sim {A} (f : op -> op) : prog A -> prog A -> Prop :=
| prog_sim_Ret a : prog_sim f (Ret a) (Ret a)
| prog_sim_Do o1 o2 k1 k2 :
    f o1 = f o2 ->
    (forall r, prog_sim f (k1 r) (k2 r)) ->
    prog_sim f (Do o1 k1) (Do o2 k2).

(** Forget the credentials a client carries. *)
Definition erase_credentials (o : op) : op :=
  match o with
  | ApiCall c m kw => ApiCall (Client (service c) None) m kw
  | GetPaginator c n => GetPaginator (Client (service c) None) n
  | _ => o
  end.

Definition erase_event_credentials (ev : event) : event :=
  (erase_credentials (fst ev), snd ev).

(** The outside does not look at the credentials of a request. *)
Definition ignores_credentials {W} (h : handler W) : Prop :=
  forall w o, h w (erase_credentials o) = h w o.

(** The fixed order of the provisioning steps of the playbook. *)
Definition provisioning_steps : list string :=
  [ "create_log_group"; "describe_log_groups"; "create_policy";
    "create_role"; "attach_role_policy"; "create_flow_logs" ].

(** A request for a listing: what the accessors of the cache memoise. *)
Definition is_fetch (ev : event) : bool :=
  match fst ev with Paginate _ _ | ApiCall _ _ _ => true | _ => false end.

Definition answered_ok (ev : event) : bool :=
  match snd ev with Ok _ => true | Raise _ => false end.

(** The calls of a run to [method]. *)
Definition calls_to (method : string) (tr : list event) : list event :=
  List.filter (fun ev => match op_method (fst ev) with
                         | Some m => String.eqb m method
                         | None => false
                         end) tr.

(** When a provisioning step's call is answered by an exception [e], the
    run raises [e], and that call is its last one: only the print of [e]
    follows. *)
Definition stops_at_failure {A S} (tr : list event) (res : result A * S) : Prop :=
  forall c m kw e, In (ApiCall c m kw, Raise e) tr -> In m provisioning_steps ->
    fst res = Raise e /\
    exists pre r, tr = pre ++ [(ApiCall c m kw, Raise e); (PrintExn e, r)].

(** Fail-stop: when the pipeline raises [e], the API calls of the run are the
    first steps of the fixed sequence, in order and nothing else, all but the
    last were answered, and [e] was printed last; and the pipeline stops at
    the first step whose call is answered by an exception. *)
Definition fail_stop (tr : list event) (res : result unit * unit) : Prop :=
  (forall e, fst res = Raise e ->
     exists n r, (n < 6)%nat /\
       api_methods tr = take (S n) provisioning_steps /\
       Forall (fun ev => answered_ok ev = true) (take n (api_calls tr)) /\
       last tr = Some (PrintExn e, r)) /\
  stops_at_failure tr res.

(** Who makes the API calls of a run: the provisioning steps go through
    [logs], [iam] or [ec2], the report through [securityhub], and there is no
    other call. *)
Definition calls_from (logs iam ec2 securityhub : client) (tr : list event) : Prop :=
  forall c m kw r, In (ApiCall c m kw, r) tr ->
    (In m provisioning_steps /\ (c = logs \/ c = iam \/ c = ec2)) \/
    (m = "update_findings" /\ c = securityhub).

(** The first operation of the run creates the log group, and when that is
    refused the pipeline prints the refusal, raises it and does nothing else. *)
Definition creates_first (logs : client) (vpcId : string)
    (tr : list event) (res : result unit * unit) : Prop :=
  exists r rest,
    tr = (ApiCall logs "create_log_group"
            [("logGroupName", PyStr ("VPCFlowLogs/" +:+ vpcId))], r) :: rest /\
    forall e, r = Raise e -> fst res = Raise e /\ exists r', rest = [(PrintExn e, r')].

(** The request that archives a finding, with a note that names the log
    group (source lines 140-144). *)
Definition archive_request (securityhub : client)
    (findingId logGroupName lambdaFunctionName : string) : op :=
  ApiCall securityhub "update_findings"
    [("Filters", PyDict [("Id", PyList [PyDict [("Value", PyStr findingId);
                                                ("Comparison", PyStr "EQUALS")]])]);
     ("Note", PyDict [("Text", PyStr ("A new CloudWatch logs group and IAM role was created for the VPC and flow logs are enabled and being sent to " +:+ logGroupName +:+ " and the finding was archived."));
                      ("UpdatedBy", PyStr lambdaFunctionName)]);
     ("RecordState", PyStr "ARCHIVED")].

(** Reporting: once [create_flow_logs] has been answered, the pipeline
    returns normally, whatever the answer to the one [update_findings] request
    it makes, whose note names the log group that [describe_log_groups]
    reported; an exception answered to that request is printed.  When the
    pipeline raises, no [update_findings] request has been made. *)
Definition reports_success `{RT : Runtime} (securityhub : client)
    (lambdaFunctionName findingId : string)
    (tr : list event) (res : result unit * unit) : Prop :=
  (forall c kw v, In (ApiCall c "create_flow_logs" kw, Ok v) tr ->
     fst res = Ok tt /\
     exists response name r,
       (exists c' kw', In (ApiCall c' "describe_log_groups" kw', Ok response) tr) /\
       py_path response [PyStr "logGroups"; PyInt 0; PyStr "logGroupName"] = Ok name /\
       calls_to "update_findings" tr =
         [(archive_request securityhub findingId (py_str name) lambdaFunctionName, r)] /\
       (forall e, r = Raise e -> exists r', In (PrintExn e, r') tr)) /\
  (forall e, fst res = Raise e -> calls_to "update_findings" tr = []).

(** The provisioning calls of a run are made under the ambient identity, and
    no role is assumed. *)
Definition local_identity (tr : list event) : Prop :=
  forall c m kw r, In (ApiCall c m kw, r) tr ->
    m <> "assume_role" /\ (In m provisioning_steps -> credentials c = None).

(** The run starts by assuming the role XA-ElectricEye-Response of the
    account [findingOwner], and every provisioning call that follows is made
    by a client built with the three credentials of the answer. *)
Definition assumed_identity (sts : client) (findingOwner : string) (tr : list event) : Prop :=
  exists r rest,
    tr = (ApiCall sts "assume_role"
            [("RoleArn", PyStr ("arn:aws:iam::" +:+ findingOwner +:+ ":role/XA-ElectricEye-Response"));
             ("RoleSessionName", PyStr "x_acct_sechub")], r) :: rest /\
    forall c m kw r', In (ApiCall c m kw, r') rest ->
      m <> "assume_role" /\
      (In m provisioning_steps ->
       exists member accessKey secretKey sessionToken,
         r = Ok member /\
         py_path member [PyStr "Credentials"; PyStr "AccessKeyId"] = Ok accessKey /\
         py_path member [PyStr "Credentials"; PyStr "SecretAccessKey"] = Ok secretKey /\
         py_path member [PyStr "Credentials"; PyStr "SessionToken"] = Ok sessionToken /\
         credentials c = Some (accessKey, secretKey, sessionToken)).

Definition nonempty_str (v : pyval) : Prop := exists s, v = PyStr s /\ s <> "".

(** STS answers [assume_role] with three non-empty credentials. *)
Definition sts_contract {W} (h : handler W) : Prop :=
  forall w c kw member, fst (h w (ApiCall c "assume_role" kw)) = Ok member ->
    exists accessKey secretKey sessionToken,
      py_path member [PyStr "Credentials"; PyStr "AccessKeyId"] = Ok accessKey /\
      py_path member [PyStr "Credentials"; PyStr "SecretAccessKey"] = Ok secretKey /\
      py_path member [PyStr "Credentials"; PyStr "SessionToken"] = Ok sessionToken /\
      nonempty_str accessKey /\ nonempty_str secretKey /\ nonempty_str sessionToken.

(** Every provisioning call of the run carries three non-empty credentials. *)
Definition scoped_credentials (tr : list event) : Prop :=
  forall c m kw r, In (ApiCall c m kw, r) tr -> In m provisioning_steps ->
    exists accessKey secretKey sessionToken,
      credentials c = Some (accessKey, secretKey, sessionToken) /\
      nonempty_str accessKey /\ nonempty_str secretKey /\ nonempty_str sessionToken.

(** The methods that look an artifact up instead of creating it. *)
Definition lookup_methods : list string :=
  [ "describe_log_groups"; "get_policy"; "get_role"; "list_policies"; "list_roles" ].

(** A run that checks for existing artifacts before it creates anything. *)
Definition looks_up_before_creating (tr : list event) : Prop :=
  match api_methods tr with
  | m :: _ => In m lookup_methods
  | [] => True
  end.


(** *** Vocabulary of the further properties *)

(** Two calls of an accessor of the cache, one after the other. *)
Definition twice {S A} (m : M S A) : M S (A * A) :=
  first <- m ;; second <- m ;; ret (first, second).

(** What the loops of [ec2_paginate] read of a reservation and of a page of
    [describe_instances], whatever else these records hold: the instances
    under the key Instances, and the reservations under the key
    Reservations. *)
Definition reservation_holds (r : pyval) (instances : list pyval) : Prop :=
  exists v, py_getitem r (PyStr "Instances") = Ok v /\ py_iter v = Ok instances.

Definition page_holds (page : pyval) (reservations : list (list pyval)) : Prop :=
  exists v rs,
    py_getitem page (PyStr "Reservations") = Ok v /\ py_iter v = Ok rs /\
    Forall2 reservation_holds rs reservations.

(** The behaviour of an accessor of the cache that memoises under [key]:
    at most one request; no other key is written; an exception leaves the
    cache as it was; a payload that is true is returned again by every later
    call, without any operation; and a cache that holds a true payload is
    answered from, without any operation. *)
Definition memoises (key : string) (acc : M (gmap string pyval) pyval)
    (cache : gmap string pyval) (tr : list event)
    (res : result pyval * gmap string pyval) : Prop :=
  (length (List.filter is_fetch tr) <= 1)%nat /\
  (forall k, k <> key -> snd res !! k = cache !! k) /\
  (forall e, fst res = Raise e -> snd res = cache) /\
  (forall v, fst res = Ok v -> truthy v = true ->
     acc (snd res) = Ret (Ok v, snd res)) /\
  (truthy (cache_get cache key) = true ->
     tr = [] /\ res = (Ok (cache_get cache key), cache)).

(** The arguments of the scans of [scan_host] (source line 64). *)
Definition nmap_args : string :=
  "-Pn -p 21,22,23,25,80,110,139,445,3389,1433,3306,2049,2375,1521,5432,5601,8182,8080,8089,10250,6379,9092,27017,5672,4040".

(** The filter of the listing of instances (source line 41). *)
Definition running_filter : list (string * pyval) :=
  [("Filters", PyList [PyDict [("Name", PyStr "instance-state-name");
                               ("Values", PyList [PyStr "running"])]])].

(** The operations of an audit: the three listings, through the clients of
    the modules, scans with the fixed arguments, the clock, prints and
    findings.  None of them changes anything in the account. *)
Definition read_only (o : op) : Prop :=
  match o with
  | ApiCall c m kw =>
      (c = boto3_client "dax" /\ m = "describe_clusters" /\ kw = []) \/
      (c = boto3_client "elbv2" /\ m = "describe_load_balancers" /\ kw = [])
  | GetPaginator c operation => c = boto3_client "ec2" /\ operation = "describe_instances"
  | Paginate _ kw => kw = running_filter
  | NmapTcpScan _ args => args = nmap_args
  | UtcNow | Print _ | Yield _ => True
  | PrintExn _ | Sleep _ => False
  end.

(** The fields every finding starts with: schema version, product ARN and
    account of the run, the three timestamps equal to [time], confidence 99,
    the product name, and a resource in the partition and region of the run
    whose Id is the generator of the finding. *)
Definition canonical_header (awsAccountId awsRegion awsPartition : string)
    (time : pyval) (f : pyval) : Prop :=
  get_path f ["SchemaVersion"] = Some (PyStr "2018-10-08") /\
  get_path f ["ProductArn"] =
    Some (PyStr ("arn:" +:+ awsPartition +:+ ":securityhub:" +:+ awsRegion +:+ ":" +:+
                 awsAccountId +:+ ":product/" +:+ awsAccountId +:+ "/default")) /\
  get_path f ["AwsAccountId"] = Some (PyStr awsAccountId) /\
  get_path f ["FirstObservedAt"] = Some time /\
  get_path f ["CreatedAt"] = Some time /\
  get_path f ["UpdatedAt"] = Some time /\
  get_path f ["Confidence"] = Some (PyInt 99) /\
  get_path f ["ProductFields"; "Product Name"] = Some (PyStr "ElectricEye") /\
  py_path f [PyStr "Resources"; PyInt 0; PyStr "Partition"] = Ok (PyStr awsPartition) /\
  py_path f [PyStr "Resources"; PyInt 0; PyStr "Region"] = Ok (PyStr awsRegion) /\
  (exists arn, get_path f ["GeneratorId"] = Some arn /\
               py_path f [PyStr "Resources"; PyInt 0; PyStr "Id"] = Ok arn).

(** The top-level fields in which the finding of the failing branch and the
    finding of the passing branch of a check may differ. *)
Definition verdict_fields : list string :=
  [ "Severity"; "Description"; "Compliance"; "Workflow"; "RecordState" ].

(** Two findings have the same fields in the same order, agree on every
    field outside [verdict_fields], and list the same related requirements. *)
Definition same_but_verdict (f1 f2 : pyval) : Prop :=
  exists d1 d2, f1 = PyDict d1 /\ f2 = PyDict d2 /\
    map fst d1 = map fst d2 /\
    (forall k, ~ In k verdict_fields -> assoc k d1 = assoc k d2) /\
    get_path f1 ["Compliance"; "RelatedRequirements"] =
    get_path f2 ["Compliance"; "RelatedRequirements"].

(** The findings built before the first failure, and that failure. *)
Fixpoint yields_until_error (rs : list (result pyval)) : list pyval :=
  match rs with
  | Ok f :: rs' => f :: yields_until_error rs'
  | _ => []
  end.

Fixpoint first_error (rs : list (result pyval)) : result unit :=
  match rs with
  | [] => Ok tt
  | Ok _ :: rs' => first_error rs'
  | Raise e :: _ => Raise e
  end.

(** The listing a check works on: the payload of the cache when it is true,
    else the first answer to a request [method] of the run. *)
Definition listing_seen (key method : string) (cache : gmap string pyval)
    (tr : list event) : option pyval :=
  if truthy (cache_get cache key) then Some (cache_get cache key)
  else match calls_to method tr with
       | (_, Ok v) :: _ => Some v
       | _ => None
       end.

(** A lower-case ASCII letter. *)
Definition is_lower (c : ascii) : bool :=
  let n := nat_of_ascii c in ((97 <=? n) && (n <=? 122))%nat.

(** A string of ASCII characters. *)
Definition is_ascii_str (s : string) : bool :=
  forallb (fun c => (nat_of_ascii c <? 128)%nat) (list_ascii_of_string s).

(** The letters a-z replaced by A-Z, every other character kept. *)
Definition upper_ascii (c : ascii) : ascii :=
  let n := nat_of_ascii c in
  if ((97 <=? n) && (n <=? 122))%nat then ascii_of_nat (n - 32) else c.

Fixpoint ascii_upper (s : string) : string :=
  match s with
  | EmptyString => EmptyString
  | String c s' => String (upper_ascii c) (ascii_upper s')
  end.

(** What is known of [s.upper()]: on a string of ASCII characters it
    replaces the letters a-z by A-Z.  Nothing is said of other strings. *)
Definition upper_contract `{RT : Runtime} : Prop :=
  forall s, is_ascii_str s = true -> str_upper s = ascii_upper s.

(** What a scan of the EC2 check must satisfy: its target is the value of
    the PublicIpAddress of the instance, which is not [None], and its
    arguments are the fixed ones. *)
Definition ec2_scan_target (i : pyval) (o : op) : Prop :=
  match o with
  | NmapTcpScan host args =>
      py_getitem i (PyStr "PublicIpAddress") = Ok host /\ host <> PyNone /\ args = nmap_args
  | _ => True
  end.

(** What a scan of the ELBv2 check must satisfy: its target is the DNS name
    of a load balancer that is internet-facing and of type application. *)
Definition elbv2_scan_target `{RT : Runtime} (lb : pyval) (o : op) : Prop :=
  match o with
  | NmapTcpScan host args =>
      exists dns scheme type,
        py_getitem lb (PyStr "DNSName") = Ok dns /\ host = PyStr (py_str dns) /\
        py_getitem lb (PyStr "Scheme") = Ok scheme /\ py_str scheme = "internet-facing" /\
        py_getitem lb (PyStr "Type") = Ok type /\ py_str type = "application" /\
        args = nmap_args
  | _ => True
  end.

Definition is_scan (o : op) : bool :=
  match o with NmapTcpScan _ _ => true | _ => false end.

(** How a failed scan ends the work on one resource: a [KeyError] is
    swallowed, the resource gets no finding and the loop goes on; any other
    exception is raised, and the resource gets no finding either. *)
Definition scan_failure_handled {S} (tr : list event) (res : result unit * S) : Prop :=
  forall host args e, In (NmapTcpScan host args, Raise e) tr ->
    yielded tr = [] /\
    fst res = (if is_KeyError e then Ok tt else Raise e).

(** The API methods that the playbook calls, by service. *)
Definition playbook_methods (svc : string) : list string :=
  if String.eqb svc "sts" then ["get_caller_identity"; "assume_role"]
  else if String.eqb svc "logs" then ["create_log_group"; "describe_log_groups"]
  else if String.eqb svc "iam" then ["create_policy"; "create_role"; "attach_role_policy"]
  else if String.eqb svc "ec2" then ["create_flow_logs"]
  else if String.eqb svc "securityhub" then ["update_findings"]
  else [].

(** What the playbook does to the outside: calls of these methods, prints, and
    pauses of five seconds. *)
Definition playbook_op (o : op) : Prop :=
  match o with
  | ApiCall c m _ => In m (playbook_methods (service c))
  | Print _ | PrintExn _ => True
  | Sleep seconds => seconds = 5
  | _ => False
  end.

Section Requests.
Context `{RT : Runtime}.

(** [str(v[k1][k2]...)] *)
Definition str_at (v : pyval) (path : list pyval) : result string :=
  let? x := py_path v path in Ok (py_str x).

(** The policy that lets the flow logs write to the log group of ARN
    [logGroupArn], and the trust policy of the role (source lines 73-98). *)
Definition cwl_policy_document (logGroupArn : string) : pyval :=
  PyDict [("Version", PyStr "2012-10-17");
          ("Statement", PyList [PyDict [
             ("Action", PyList [PyStr "logs:CreateLogGroup";
                                PyStr "logs:CreateLogStream";
                                PyStr "logs:PutLogEvents";
                                PyStr "logs:DescribeLogGroups";
                                PyStr "logs:DescribeLogStreams"]);
             ("Effect", PyStr "Allow");
             ("Resource", PyStr (logGroupArn +:+ "*"))]])].

Definition trust_policy_document : pyval :=
  PyDict [("Version", PyStr "2012-10-17");
          ("Statement", PyList [PyDict [
             ("Sid", PyStr "");
             ("Effect", PyStr "Allow");
             ("Principal", PyDict [("Service", PyStr "vpc-flow-logs.amazonaws.com")]);
             ("Action", PyStr "sts:AssumeRole")]])].

Definition describe_request (logs : client) (vpcId : string) : op :=
  ApiCall logs "describe_log_groups"
    [("logGroupNamePrefix", PyStr ("VPCFlowLogs/" +:+ vpcId))].

(** Every artifact of a run is named after [vpcId]. *)
Definition named_after (vpcId : string) (tr : list event) : Prop :=
  forall c m kw r, In (ApiCall c m kw, r) tr ->
    (m = "create_log_group" ->
       kw = [("logGroupName", PyStr ("VPCFlowLogs/" +:+ vpcId))]) /\
    (m = "describe_log_groups" ->
       kw = [("logGroupNamePrefix", PyStr ("VPCFlowLogs/" +:+ vpcId))]) /\
    (m = "create_policy" ->
       exists document,
         kw = [("PolicyName", PyStr ("VPCFlowLogsPolicy-" +:+ vpcId));
               ("PolicyDocument", document);
               ("Description", PyStr ("Allows " +:+ vpcId +:+ " to publish logs to CloudWatch"))]) /\
    (m = "create_role" ->
       kw = [("RoleName", PyStr ("VPCFlowLogsRole-" +:+ vpcId));
             ("AssumeRolePolicyDocument", PyStr (json_dumps trust_policy_document));
             ("Description", PyStr ("Allows " +:+ vpcId +:+ " to publish logs to CloudWatch"))]) /\
    (m = "create_flow_logs" ->
       exists role name,
         kw = [("DryRun", PyBool false);
               ("DeliverLogsPermissionArn", role);
               ("LogGroupName", name);
               ("ResourceIds", PyList [PyStr vpcId]);
               ("ResourceType", PyStr "VPC");
               ("TrafficType", PyStr "REJECT");
               ("LogDestinationType", PyStr "cloud-watch-logs");
               ("MaxAggregationInterval", PyInt 60)]).

(** The requests of a run carry what earlier requests of the same run were
    answered: the policy is written for the ARN of the described log group,
    the policy and the role attached to each other are those that were
    created, and the flow logs are delivered to the described log group under
    the created role. *)
Definition requests_follow_answers (logs iam ec2 : client) (vpcId : string)
    (tr : list event) : Prop :=
  forall c m kw r, In (ApiCall c m kw, r) tr ->
    (m = "create_policy" ->
       exists described arn,
         In (describe_request logs vpcId, Ok described) tr /\
         str_at described [PyStr "logGroups"; PyInt 0; PyStr "arn"] = Ok arn /\
         c = iam /\
         assoc "PolicyDocument" kw = Some (PyStr (json_dumps (cwl_policy_document arn)))) /\
    (m = "attach_role_policy" ->
       exists kwp policy kwr role policyArn roleName,
         In (ApiCall iam "create_policy" kwp, Ok policy) tr /\
         In (ApiCall iam "create_role" kwr, Ok role) tr /\
         str_at policy [PyStr "Policy"; PyStr "Arn"] = Ok policyArn /\
         str_at role [PyStr "Role"; PyStr "RoleName"] = Ok roleName /\
         c = iam /\
         kw = [("RoleName", PyStr roleName); ("PolicyArn", PyStr policyArn)]) /\
    (m = "create_flow_logs" ->
       exists described kwr role name roleArn,
         In (describe_request logs vpcId, Ok described) tr /\
         In (ApiCall iam "create_role" kwr, Ok role) tr /\
         str_at described [PyStr "logGroups"; PyInt 0; PyStr "logGroupName"] = Ok name /\
         str_at role [PyStr "Role"; PyStr "Arn"] = Ok roleArn /\
         c = ec2 /\
         assoc "DeliverLogsPermissionArn" kw = Some (PyStr roleArn) /\
         assoc "LogGroupName" kw = Some (PyStr name)).
End Requests.

(** [old in s] *)
Fixpoint occurs (old s : string) : bool :=
  is_prefix old s ||
  match s with
  | EmptyString => false
  | String _ s' => occurs old s'
  end.

(** The ARN of the VPC [vpc] of [account] in [region]. *)
Definition vpc_arn (region account vpc : string) : string :=
  "arn:aws:ec2:" +:+ region +:+ ":" +:+ account +:+ ":vpc/" +:+ vpc.

(** [enumerate(l)], counting from [i]. *)
Fixpoint enumerate_from {A} (i : Z) (l : list A) : list (Z * A) :=
  match l with
  | [] => []
  | x :: l' => (i, x) :: enumerate_from (i + 1) l'
  end.

(** The results of building one finding for each port of a scan. *)
Definition port_findings (build : Z -> pyval -> result pyval) (ports : list pyval)
    : list (result pyval) :=
  map (fun ip => build (fst ip) (snd ip)) (enumerate_from 0 ports).

(** Any operation but the request that asks STS who the caller is. *)
Definition not_identity_call (o : op) : Prop :=
  op_method o <> Some "get_caller_identity".

(** *** Vocabulary of the runs against a given outside *)

(** The [k]-th of [findings] is related by [R] to the [k]-th of [resources],
    for every [k] below the number of findings. *)
Definition in_step {A} (R : A -> pyval -> Prop) (resources : list A)
    (findings : list pyval) : Prop :=
  Forall2 R (take (length findings) resources) findings.

(** The listing a DAX check works on, against the outside [h] in the state
    [w]: the payload of the cache when it is true, else what
    [describe_clusters] is answered, once the clock has been read. *)
Definition dax_listing {W} (h : handler W) (w : W) (cache : gmap string pyval)
    : result pyval :=
  if truthy (cache_get cache "describe_clusters")
  then Ok (cache_get cache "describe_clusters")
  else fst (h (snd (h w UtcNow)) (ApiCall DAX.dax "describe_clusters" [])).

(** The outside answers the clock with [time] and lets the check list
    [clusters]. *)
Definition dax_run_sees {W} (h : handler W) (w : W) (cache : gmap string pyval)
    (time : pyval) (clusters : list pyval) : Prop :=
  fst (h w UtcNow) = Ok time /\
  exists listing,
    dax_listing h w cache = Ok listing /\
    py_getitem listing (PyStr "Clusters") = Ok (PyList clusters).

(** The finding has the status fields of the verdict of [guard] on the
    resource. *)
Definition verdict_of (guard : pyval -> result bool) (x f : pyval) : Prop :=
  exists failing, guard x = Ok failing /\ status_of_verdict failing f.

(** The finding has the Id that [id] gives for the resource. *)
Definition id_of (id : pyval -> result string) (x f : pyval) : Prop :=
  exists s, id x = Ok s /\ get_path f ["Id"] = Some (PyStr s).

(** The findings at position [k] of two lists have the same Id. *)
Definition same_id_at (k : nat) (findings1 findings2 : list pyval) : Prop :=
  forall f1 f2, findings1 !! k = Some f1 -> findings2 !! k = Some f2 ->
    get_path f1 ["Id"] = get_path f2 ["Id"].

(** The scanner answers the scan of [host] in the state [w] with a result
    that holds [ports] under [key]. *)
Definition scan_answered {W} (h : handler W) (w : W) (host scanner key : pyval)
    (ports : list pyval) : Prop :=
  fst (h w (NmapTcpScan host nmap_args)) = Ok scanner /\
  scanner <> PyNone /\
  py_path scanner [key; PyStr "ports"] = Ok (PyList ports).

Section Resources.
Context `{RT : Runtime}.

(** The Ids of the findings of the two DAX checks for a cluster. *)
Definition at_rest_finding_id (cluster : pyval) : result string :=
  let? arn := py_getitem cluster (PyStr "ClusterArn") in
  Ok (py_str arn +:+ "/dax-encryption-at-rest-check").

Definition in_transit_finding_id (cluster : pyval) : result string :=
  let? arn := py_getitem cluster (PyStr "ClusterArn") in
  Ok (py_str arn +:+ "/dax-encryption-in-transit-check").

(** The verdict of the attack-surface checks on a scanned port: failing when
    the port is open (source lines 122 and 292). *)
Definition port_verdict (port : pyval) : result bool :=
  let? state := py_getitem port (PyStr "state") in
  Ok (String.eqb (py_str state) "open").

(** The service name of a scanned port, from its number and its record. *)
Definition scanned_service (port : pyval) : result string :=
  let? portid := py_getitem port (PyStr "portid") in
  let? portNumber := py_int portid in
  EC2ASM.port_service_name port portNumber.

(** The ARN of an instance (source line 80). *)
Definition instance_arn (awsPartition awsRegion awsAccountId instanceId : string) : string :=
  "arn:" +:+ awsPartition +:+ ":ec2:" +:+ awsRegion +:+ ":" +:+ awsAccountId +:+
  ":instance/" +:+ instanceId.

(** The Ids of the findings of the attack-surface checks for a port of an
    instance and of a load balancer. *)
Definition ec2_finding_id (awsPartition awsRegion awsAccountId instanceId : string)
    (port : pyval) : result string :=
  let? serviceName := scanned_service port in
  Ok (instance_arn awsPartition awsRegion awsAccountId instanceId +:+
      "/attack-surface-ec2-open-" +:+ serviceName +:+ "-check").

Definition elbv2_finding_id (elbv2Arn : string) (port : pyval) : result string :=
  let? serviceName := scanned_service port in
  Ok (elbv2Arn +:+ "/attack-surface-elbv2-open-" +:+ serviceName +:+ "-check").

(** What the EC2 check reads of an instance before it looks at its public
    address. *)
Definition ec2_instance_described (i : pyval)
    (instanceId instanceType instanceImage subnetId vpcId launchedAt : string) : Prop :=
  str_at i [PyStr "InstanceId"] = Ok instanceId /\
  str_at i [PyStr "InstanceType"] = Ok instanceType /\
  str_at i [PyStr "ImageId"] = Ok instanceImage /\
  str_at i [PyStr "SubnetId"] = Ok subnetId /\
  str_at i [PyStr "VpcId"] = Ok vpcId /\
  EC2ASM.instance_launched_at i = Ok launchedAt.

(** What it reads of an instance that it scans. *)
Definition ec2_instance_reads (i : pyval)
    (instanceId instanceType instanceImage subnetId vpcId launchedAt : string)
    (hostIp : pyval) : Prop :=
  ec2_instance_described i instanceId instanceType instanceImage subnetId vpcId launchedAt /\
  py_getitem i (PyStr "PublicIpAddress") = Ok hostIp /\
  hostIp <> PyNone.

(** The finding of a port of that instance. *)
Definition ec2_port_finding (iso8601Time : pyval) (awsAccountId awsRegion awsPartition
    instanceId instanceType instanceImage subnetId vpcId launchedAt : string)
    : Z -> pyval -> result pyval :=
  EC2ASM.ec2_attack_surface_open_tcp_port_check_port iso8601Time
    awsAccountId awsRegion awsPartition instanceId
    (instance_arn awsPartition awsRegion awsAccountId instanceId)
    instanceType instanceImage subnetId vpcId launchedAt.

(** What the ELBv2 check reads of a load balancer that it scans. *)
Definition elbv2_lb_reads (lb : pyval)
    (elbv2Arn elbv2Name elbv2DnsName elbv2LbType elbv2Scheme elbv2VpcId
     elbv2IpAddressType : string) : Prop :=
  str_at lb [PyStr "LoadBalancerArn"] = Ok elbv2Arn /\
  str_at lb [PyStr "LoadBalancerName"] = Ok elbv2Name /\
  str_at lb [PyStr "DNSName"] = Ok elbv2DnsName /\
  str_at lb [PyStr "Type"] = Ok elbv2LbType /\
  str_at lb [PyStr "Scheme"] = Ok elbv2Scheme /\
  str_at lb [PyStr "VpcId"] = Ok elbv2VpcId /\
  str_at lb [PyStr "IpAddressType"] = Ok elbv2IpAddressType /\
  elbv2Scheme = "internet-facing" /\
  elbv2LbType = "application".

End Resources.

(** What [dax_encryption_at_rest_check] makes of the status of the
    encryption of a cluster: failing unless it is the string ENABLING. *)
Definition at_rest_outcome (cluster f : pyval) : Prop :=
  exists sse status,
    py_getitem cluster (PyStr "SSEDescription") = Ok sse /\
    py_getitem sse (PyStr "Status") = Ok status /\
    (status <> PyStr "ENABLING" -> failing_status f) /\
    (status = PyStr "ENABLING" -> passing_status f) /\
    (status = PyStr "ENABLED" -> failing_status f).

(** Everything the two DAX checks read of a cluster, as subscript paths. *)
Definition at_rest_read_paths : list (list pyval) :=
  [PyStr "ClusterName"] :: [PyStr "ClusterArn"] ::
  [PyStr "SSEDescription"; PyStr "Status"] :: dax_evidence_paths.

Definition in_transit_read_paths : list (list pyval) :=
  [PyStr "ClusterName"] :: [PyStr "ClusterArn"] ::
  [PyStr "ClusterEndpointEncryptionType"] :: dax_evidence_paths.

(** A check that stops at a cluster: it raises, and has yielded fewer
    findings than there are clusters. *)
Definition aborts_before_end {S} (clusters : list pyval) (tr : list event)
    (res : result unit * S) : Prop :=
  (exists e, fst res = Raise e) /\ (length (yielded tr) < length clusters)%nat.

(** *** Vocabulary of the runs of the playbook *)

(** A property of every run of a program in which each answer of the
    outside satisfies [ok]. *)
Fixpoint always_when {A} (ok : event -> Prop) (p : prog A)
    (post : list event -> A -> Prop) : Prop :=
  match p with
  | Ret a => post [] a
  | Do o k => forall r, ok (o, r) -> always_when ok (k r) (fun tr a => post ((o, r) :: tr) a)
  end.

(** The request that assumes the role of the playbook in the account
    [findingOwner] (source line 40). *)
Definition assume_role_request (sts : client) (findingOwner : string) : op :=
  ApiCall sts "assume_role"
    [("RoleArn", PyStr ("arn:aws:iam::" +:+ findingOwner +:+ ":role/XA-ElectricEye-Response"));
     ("RoleSessionName", PyStr "x_acct_sechub")].

Section Provisioning.
Context `{RT : Runtime}.

(** An answer that lets the pipeline go on: a provisioning request is
    answered with a value, in which the pipeline finds what it reads: the
    ARN and the name of the first log group, the ARN of the policy, the name
    and the ARN of the role. *)
Definition accepted (ev : event) : Prop :=
  match ev with
  | (ApiCall _ m _, r) =>
      In m provisioning_steps ->
      exists v, r = Ok v /\
        (m = "describe_log_groups" ->
           exists arn name,
             py_path v [PyStr "logGroups"; PyInt 0; PyStr "arn"] = Ok arn /\
             py_path v [PyStr "logGroups"; PyInt 0; PyStr "logGroupName"] = Ok name) /\
        (m = "create_policy" ->
           exists arn, py_path v [PyStr "Policy"; PyStr "Arn"] = Ok arn) /\
        (m = "create_role" ->
           exists name arn,
             py_path v [PyStr "Role"; PyStr "RoleName"] = Ok name /\
             py_path v [PyStr "Role"; PyStr "Arn"] = Ok arn)
  | _ => True
  end.

(** An outside that accepts every provisioning request. *)
Definition accepts_provisioning {W} (h : handler W) : Prop :=
  forall w o, accepted (o, fst (h w o)).

(** A run of the pipeline that returns normally has made the six
    provisioning requests, in order and all answered, and then the one
    request that archives the finding, with a note that names the log group
    that [describe_log_groups] reported. *)
Definition completes (securityhub : client) (lambdaFunctionName findingId : string)
    (tr : list event) (res : result unit * unit) : Prop :=
  fst res = Ok tt ->
  api_methods tr = provisioning_steps ++ ["update_findings"] /\
  Forall (fun ev => answered_ok ev = true) (take 6 (api_calls tr)) /\
  exists response name r,
    (exists c kw, In (ApiCall c "describe_log_groups" kw, Ok response) tr) /\
    py_path response [PyStr "logGroups"; PyInt 0; PyStr "logGroupName"] = Ok name /\
    calls_to "update_findings" tr =
      [(archive_request securityhub findingId (py_str name) lambdaFunctionName, r)].

End Provisioning.

End Spec.
Export Spec.

(** ** Concrete inputs *)

Module Examples.

Fixpoint digits_value (s : string) (acc : Z) : result Z :=
  match s with
  | EmptyString => Ok acc
  | String c s' =>
      let n := Z.of_nat (nat_of_ascii c) in
      if (48 <=? n) && (n <=? 57) then digits_value s' (10 * acc + (n - 48))
      else Raise ValueError
  end.

(** A runtime to evaluate the programs with: [int()] reads unsigned decimal
    numerals, [upper()] replaces the letters a-z only, the other functions
    are placeholders. *)
Definition example_runtime : Runtime := {|
  container_repr := fun _ => "<container>";
  int_of_str := fun s => match s with EmptyString => Raise ValueError | _ => digits_value s 0 end;
  json_dumps := fun _ => "<json>";
  parse_isoformat := fun s => Ok s;
  str_upper := ascii_upper
|}.

(** A DAX cluster as [describe_clusters] reports it, with encryption at rest
    in the given state. *)
Definition dax_cluster (sseStatus : string) : pyval :=
  PyDict [("ClusterName", PyStr "orders");
          ("ClusterArn", PyStr "arn:aws:dax:us-east-1:111111111111:cache/orders");
          ("TotalNodes", PyInt 3);
          ("NodeType", PyStr "dax.r4.large");
          ("Status", PyStr "available");
          ("ClusterDiscoveryEndpoint",
             PyDict [("Address", PyStr "orders.abc123.dax-clusters.us-east-1.amazonaws.com");
                     ("Port", PyInt 8111);
                     ("URL", PyStr "dax://orders.abc123.dax-clusters.us-east-1.amazonaws.com")]);
          ("SubnetGroup", PyStr "default");
          ("SecurityGroups",
             PyList [PyDict [("SecurityGroupIdentifier", PyStr "sg-0a1b2c3d");
                             ("Status", PyStr "active")]]);
          ("IamRoleArn", PyStr "arn:aws:iam::111111111111:role/DAXServiceRole");
          ("ParameterGroup", PyDict [("ParameterGroupName", PyStr "default.dax1.0")]);
          ("SSEDescription", PyDict [("Status", PyStr sseStatus)]);
          ("ClusterEndpointEncryptionType", PyStr "TLS")].

(** A cluster that is still being created: it has no discovery endpoint yet. *)
Definition dax_cluster_creating : pyval :=
  PyDict [("ClusterName", PyStr "orders");
          ("ClusterArn", PyStr "arn:aws:dax:us-east-1:111111111111:cache/orders");
          ("TotalNodes", PyInt 3);
          ("NodeType", PyStr "dax.r4.large");
          ("Status", PyStr "creating");
          ("SubnetGroup", PyStr "default");
          ("SecurityGroups",
             PyList [PyDict [("SecurityGroupIdentifier", PyStr "sg-0a1b2c3d");
                             ("Status", PyStr "active")]]);
          ("IamRoleArn", PyStr "arn:aws:iam::111111111111:role/DAXServiceRole");
          ("ParameterGroup", PyDict [("ParameterGroupName", PyStr "default.dax1.0")]);
          ("SSEDescription", PyDict [("Status", PyStr "ENABLING")]);
          ("ClusterEndpointEncryptionType", PyStr "TLS")].

(** An account whose [describe_clusters] reports [clusters]; the clock
    stands still. *)
Definition aws_reporting_clusters (clusters : list pyval) : handler unit :=
  fun w o =>
    match o with
    | ApiCall _ method _ =>
        if String.eqb method "describe_clusters"
        then (Ok (PyDict [("Clusters", PyList clusters);
                          ("ResponseMetadata", PyDict [("HTTPStatusCode", PyInt 200)])]), w)
        else (Raise (ClientError "UnknownOperation"), w)
    | UtcNow => (Ok (PyStr "2021-03-01T12:00:00+00:00"), w)
    | _ => (Ok PyNone, w)
    end.

(** An account in which the API method [method] is refused with the error
    [code] and every other request succeeds.  The three artifacts of the
    playbook are reported under the names the playbook gives them for the
    VPC [vpc-0a1b2c3d]. *)
Definition aws_refusing (method code : string) : handler unit :=
  fun w o =>
    match o with
    | ApiCall _ m _ =>
        if String.eqb m method then (Raise (ClientError code), w)
        else if String.eqb m "get_caller_identity" then
          (Ok (PyDict [("Account", PyStr "999999999999")]), w)
        else if String.eqb m "assume_role" then
          (Ok (PyDict [("Credentials",
                        PyDict [("AccessKeyId", PyStr "ASIAEXAMPLE");
                                ("SecretAccessKey", PyStr "secret");
                                ("SessionToken", PyStr "token")])]), w)
        else if String.eqb m "describe_log_groups" then
          (Ok (PyDict [("logGroups",
                        PyList [PyDict [("arn", PyStr "arn:aws:logs:us-east-1:111111111111:log-group:VPCFlowLogs/vpc-0a1b2c3d:");
                                        ("logGroupName", PyStr "VPCFlowLogs/vpc-0a1b2c3d")]])]), w)
        else if String.eqb m "create_policy" then
          (Ok (PyDict [("Policy",
                        PyDict [("Arn", PyStr "arn:aws:iam::111111111111:policy/VPCFlowLogsPolicy-vpc-0a1b2c3d")])]), w)
        else if String.eqb m "create_role" then
          (Ok (PyDict [("Role",
                        PyDict [("RoleName", PyStr "VPCFlowLogsRole-vpc-0a1b2c3d");
                                ("Arn", PyStr "arn:aws:iam::111111111111:role/VPCFlowLogsRole-vpc-0a1b2c3d")])]), w)
        else (Ok (PyDict [("ResponseMetadata", PyDict [("HTTPStatusCode", PyInt 200)])]), w)
    | _ => (Ok PyNone, w)
    end.

(** An account in which the log group, the policy and the role of the
    playbook exist already: creating any of them again is refused. *)
Definition aws_already_remediated : handler unit :=
  fun w o =>
    match o with
    | ApiCall _ m _ =>
        if String.eqb m "create_log_group"
        then (Raise (ClientError "ResourceAlreadyExistsException"), w)
        else if String.eqb m "create_policy" || String.eqb m "create_role"
        then (Raise (ClientError "EntityAlreadyExists"), w)
        else aws_refusing "" "" w o
    | _ => (Ok PyNone, w)
    end.

(** An account that reports no running instance the first time its
    instances are listed, and one instance from then on; the state counts the
    listings. *)
Definition aws_instances_appear : handler nat :=
  fun n o =>
    match o with
    | GetPaginator _ _ => (Ok (PyObj "Paginator"), n)
    | Paginate _ _ =>
        (Ok (PyList [PyDict [("Reservations",
               match n with
               | O => PyList []
               | S _ => PyList [PyDict [("Instances",
                                   PyList [PyDict [("InstanceId", PyStr "i-0abc")]])]]
               end)]]), S n)
    | _ => (Ok PyNone, n)
    end.

(** An account with one running instance that has a public address, on
    which nmap finds port 22 open and port 8089 filtered. *)
Definition aws_one_public_instance : handler unit :=
  fun w o =>
    match o with
    | GetPaginator _ _ => (Ok (PyObj "Paginator"), w)
    | Paginate _ _ =>
        (Ok (PyList [PyDict [("Reservations", PyList [PyDict [("Instances", PyList [
               PyDict [("InstanceId", PyStr "i-0abc");
                       ("InstanceType", PyStr "t3.micro");
                       ("ImageId", PyStr "ami-1234");
                       ("SubnetId", PyStr "subnet-1");
                       ("VpcId", PyStr "vpc-0a1b2c3d");
                       ("BlockDeviceMappings", PyList [PyDict [("DeviceName", PyStr "/dev/xvda")]]);
                       ("LaunchTime", PyDatetime "2021-02-01 08:00:00+00:00");
                       ("PublicIpAddress", PyStr "203.0.113.7")]])]])]]), w)
    | NmapTcpScan _ _ =>
        (Ok (PyDict [("203.0.113.7",
               PyDict [("ports", PyList [
                  PyDict [("portid", PyStr "22"); ("state", PyStr "open"); ("reason", PyStr "syn-ack");
                          ("service", PyDict [("name", PyStr "ssh")])];
                  PyDict [("portid", PyStr "8089"); ("state", PyStr "filtered"); ("reason", PyStr "no-response");
                          ("service", PyDict [("name", PyStr "unknown")])]])])]), w)
    | UtcNow => (Ok (PyStr "2021-03-01T12:00:00+00:00"), w)
    | _ => (Ok PyNone, w)
    end.

(** The Security Hub event for one finding about one VPC of [account]. *)
Definition vpc_finding_event (account : string) : pyval :=
  PyDict [("detail", PyDict [("findings", PyList [
     PyDict [("Id", PyStr "finding-1");
             ("AwsAccountId", PyStr account);
             ("Resources", PyList [PyDict [
                ("Type", PyStr "AwsEc2Vpc");
                ("Id", PyStr ("arn:aws:ec2:us-east-1:" +:+ account +:+ ":vpc/vpc-0a1b2c3d"))]])]])])].

(** The environment of the Lambda function. *)
Definition lambda_environ : gmap string string :=
  <["AWS_REGION" := "us-east-1"]> (<["AWS_LAMBDA_FUNCTION_NAME" := "responder"]> ∅).

(** The value of a result, for inputs on which the computation succeeds. *)
Definition value_of (r : result pyval) : pyval :=
  match r with Ok v => v | Raise _ => PyNone end.

(** *** Inputs of the further properties *)

(** The instance of [aws_one_public_instance]. *)
Definition public_instance : pyval :=
  PyDict [("InstanceId", PyStr "i-0abc");
          ("InstanceType", PyStr "t3.micro");
          ("ImageId", PyStr "ami-1234");
          ("SubnetId", PyStr "subnet-1");
          ("VpcId", PyStr "vpc-0a1b2c3d");
          ("BlockDeviceMappings", PyList [PyDict [("DeviceName", PyStr "/dev/xvda")]]);
          ("LaunchTime", PyDatetime "2021-02-01 08:00:00+00:00");
          ("PublicIpAddress", PyStr "203.0.113.7")].

(** The same account, with a scanner that raises [e] on every scan. *)
Definition aws_scanner_raises (e : exn) : handler unit :=
  fun w o =>
    match o with
    | NmapTcpScan _ _ => (Raise e, w)
    | _ => aws_one_public_instance w o
    end.

(** A port as nmap reports it. *)
Definition scanned_port (portid state reason serviceName : string) : pyval :=
  PyDict [("portid", PyStr portid); ("state", PyStr state); ("reason", PyStr reason);
          ("service", PyDict [("name", PyStr serviceName)])].

(** The ports that nmap reports in [aws_one_public_instance]. *)
Definition scanned_ports : list pyval :=
  [ scanned_port "22" "open" "syn-ack" "ssh";
    scanned_port "8089" "filtered" "no-response" "unknown" ].

(** An instance without block devices. *)
Definition instance_store_instance : pyval :=
  PyDict [("InstanceId", PyStr "i-0def");
          ("InstanceType", PyStr "i3.large");
          ("ImageId", PyStr "ami-1234");
          ("SubnetId", PyStr "subnet-1");
          ("VpcId", PyStr "vpc-0a1b2c3d");
          ("BlockDeviceMappings", PyList []);
          ("LaunchTime", PyDatetime "2021-02-01 08:00:00+00:00");
          ("PublicIpAddress", PyStr "203.0.113.8")].

(** Two pages of [describe_instances] as the service returns them. *)
Definition instance_pages : list pyval :=
  [ PyDict [("Reservations",
             PyList [PyDict [("Groups", PyList []);
                             ("Instances", PyList [public_instance]);
                             ("OwnerId", PyStr "111111111111");
                             ("ReservationId", PyStr "r-0a1")];
                     PyDict [("Groups", PyList []);
                             ("Instances", PyList []);
                             ("OwnerId", PyStr "111111111111");
                             ("ReservationId", PyStr "r-0a2")]]);
            ("NextToken", PyStr "t1");
            ("ResponseMetadata", PyDict [("HTTPStatusCode", PyInt 200)])];
    PyDict [("Reservations",
             PyList [PyDict [("Groups", PyList []);
                             ("Instances", PyList [instance_store_instance; public_instance]);
                             ("OwnerId", PyStr "111111111111");
                             ("ReservationId", PyStr "r-0a3")]]);
            ("ResponseMetadata", PyDict [("HTTPStatusCode", PyInt 200)])] ].

(** An account whose paginator answers with [pages]. *)
Definition aws_paging (pages : list pyval) : handler unit :=
  fun w o =>
    match o with
    | GetPaginator _ _ => (Ok (PyObj "Paginator"), w)
    | Paginate _ _ => (Ok (PyList pages), w)
    | _ => (Ok PyNone, w)
    end.

(** What [aws_reporting_clusters] answers to [describe_clusters]. *)
Definition clusters_listing (clusters : list pyval) : pyval :=
  PyDict [("Clusters", PyList clusters);
          ("ResponseMetadata", PyDict [("HTTPStatusCode", PyInt 200)])].

End Examples.
Export Examples.

(** ** General facts *)

(** Unfold the monad of the programs. *)
Ltac mred :=
  cbn [bind get put ret raise lift perform perform_ print print_exn time_sleep
       yield try_except try_except_KeyError pbind fst snd cache_setitem always rbind].

Section Facts.
Context `{RT : Runtime}.

Lemma run_pbind {W A B} (h : handler W) (p : prog A) (f : A -> prog B) (w : W) :
  run h (pbind p f) w =
  let x := run h p w in
  let y := run h (f (outcome x)) (world_after x) in
  (outcome y, world_after y, trace x ++ trace y).
Proof.
  revert w. induction p as [a | o k IH]; intros w; cbn.
  - unfold outcome, world_after, trace. cbn.
    by destruct (run h (f a) w) as [[??]?].
  - rewrite IH. reflexivity.
Qed.

Lemma always_run {W A} (h : handler W) (p : prog A) (post : list event -> A -> Prop) (w : W) :
  always p post -> post (trace (run h p w)) (outcome (run h p w)).
Proof.
  revert post w. induction p as [a | o k IH]; intros post w Hp; simpl in *.
  - exact Hp.
  - apply (IH (fst (h w o)) (fun tr a => post ((o, fst (h w o)) :: tr) a)), Hp.
Qed.

Lemma always_mono {A} (p : prog A) (post post' : list event -> A -> Prop) :
  (forall tr a, post tr a -> post' tr a) -> always p post -> always p post'.
Proof.
  revert post post'. induction p as [a | o k IH]; intros post post' Himp Hp; simpl in *.
  - by apply Himp.
  - intros r. eapply IH; [|apply Hp]. intros tr a. apply Himp.
Qed.

Lemma always_pbind {A B} (p : prog A) (f : A -> prog B) (post : list event -> B -> Prop) :
  always p (fun tr a => always (f a) (fun tr' b => post (tr ++ tr') b)) ->
  always (pbind p f) post.
Proof.
  revert post. induction p as [a | o k IH]; intros post Hp; simpl in *.
  - exact Hp.
  - intros r. apply IH. apply Hp.
Qed.

Lemma all_ops_always {A} (Q : op -> Prop) (p : prog A) :
  all_ops Q p -> always p (fun tr _ => Forall (fun ev => Q (fst ev)) tr).
Proof.
  induction 1 as [a | o k HQ _ IH]; simpl.
  - constructor.
  - intros r. eapply always_mono; [|apply IH]. intros tr a Htr. by constructor.
Qed.

Lemma all_ops_pbind {A B} (Q : op -> Prop) (p : prog A) (f : A -> prog B) :
  all_ops Q p -> (forall a, all_ops Q (f a)) -> all_ops Q (pbind p f).
Proof. induction 1; simpl; [done | constructor; auto]. Qed.

Lemma py_eqb_str (s : string) (v : pyval) : py_eqb v (PyStr s) = true <-> v = PyStr s.
Proof.
  destruct v; simpl; rewrite ?String.eqb_eq; split; intros H;
    try discriminate; congruence.
Qed.

Lemma py_eqb_str_l (s : string) (v : pyval) : py_eqb (PyStr s) v = true <-> v = PyStr s.
Proof.
  destruct v; simpl; rewrite ?String.eqb_eq; split; intros H;
    try discriminate; congruence.
Qed.

End Facts.

(** ** The findings of the checks *)

(** Invert a successful chain of [let?]. *)
Ltac rinv H :=
  repeat match type of H with
  | rbind ?r _ = Ok _ => let E := fresh "E" in destruct r eqn:E; simpl in H; [|discriminate H]
  | (if ?b then _ else _) = Ok _ => let E := fresh "E" in destruct b eqn:E
  | Ok _ = Ok _ => injection H as H
  end.

Section Findings.
Context `{RT : Runtime}.

Lemma dax_at_rest_status iso a r p cluster f :
  DAX.dax_encryption_at_rest_check_cluster iso a r p cluster = Ok f ->
  exists failing, DAX.dax_encryption_at_rest_check_guard cluster = Ok failing /\
                  status_of_verdict failing f.
Proof.
  unfold DAX.dax_encryption_at_rest_check_cluster. intros H.
  destruct (py_getitem cluster (PyStr "ClusterName")) as [name|] eqn:E1; [simpl in H|discriminate].
  destruct (py_getitem cluster (PyStr "ClusterArn")) as [arn|] eqn:E2; [simpl in H|discriminate].
  destruct (DAX.dax_encryption_at_rest_check_guard cluster) as [failing|] eqn:E3; [simpl in H|discriminate].
  exists failing. split; [done|].
  destruct failing; simpl;
    [unfold DAX.dax_encryption_at_rest_check_failing in H
    |unfold DAX.dax_encryption_at_rest_check_passing in H];
    rinv H; subst f; reflexivity.
Qed.

Lemma dax_in_transit_status iso a r p cluster f :
  DAX.dax_encryption_in_transit_check_cluster iso a r p cluster = Ok f ->
  exists failing, DAX.dax_encryption_in_transit_check_guard cluster = Ok failing /\
                  status_of_verdict failing f.
Proof.
  unfold DAX.dax_encryption_in_transit_check_cluster. intros H.
  destruct (py_getitem cluster (PyStr "ClusterName")) as [name|] eqn:E1; [simpl in H|discriminate].
  destruct (py_getitem cluster (PyStr "ClusterArn")) as [arn|] eqn:E2; [simpl in H|discriminate].
  destruct (DAX.dax_encryption_in_transit_check_guard cluster) as [failing|] eqn:E3; [simpl in H|discriminate].
  exists failing. split; [done|].
  destruct failing; simpl;
    [unfold DAX.dax_encryption_in_transit_check_failing in H
    |unfold DAX.dax_encryption_in_transit_check_passing in H];
    rinv H; subst f; reflexivity.
Qed.

Lemma ec2_port_status iso a r p iid iarn ity iim sub vpc launched index port f :
  EC2ASM.ec2_attack_surface_open_tcp_port_check_port
    iso a r p iid iarn ity iim sub vpc launched index port = Ok f ->
  exists state, py_getitem port (PyStr "state") = Ok state /\
                status_of_verdict (String.eqb (py_str state) "open") f.
Proof.
  unfold EC2ASM.ec2_attack_surface_open_tcp_port_check_port. intros H.
  destruct (py_getitem port (PyStr "portid")) as [portid|]; [simpl in H|discriminate].
  destruct (py_int portid) as [portNumber|]; [simpl in H|discriminate].
  destruct (EC2ASM.port_service_name port portNumber) as [serviceName|]; [simpl in H|discriminate].
  destruct (py_getitem port (PyStr "reason")) as [reason|]; [simpl in H|discriminate].
  destruct (py_getitem port (PyStr "state")) as [state|]; [simpl in H|discriminate].
  exists state. split; [done|].
  destruct (String.eqb (py_str state) "open"); simpl;
    [unfold EC2ASM.ec2_attack_surface_open_tcp_port_check_failing in H
    |unfold EC2ASM.ec2_attack_surface_open_tcp_port_check_passing in H];
    rinv H; subst f; reflexivity.
Qed.

Lemma elbv2_port_status iso a r p arn name dns ty scheme vpc ipt index port f :
  EC2ASM.elbv2_attack_surface_open_tcp_port_check_port
    iso a r p arn name dns ty scheme vpc ipt index port = Ok f ->
  exists state, py_getitem port (PyStr "state") = Ok state /\
                status_of_verdict (String.eqb (py_str state) "open") f.
Proof.
  unfold EC2ASM.elbv2_attack_surface_open_tcp_port_check_port. intros H.
  destruct (py_getitem port (PyStr "portid")) as [portid|]; [simpl in H|discriminate].
  destruct (py_int portid) as [portNumber|]; [simpl in H|discriminate].
  destruct (EC2ASM.port_service_name port portNumber) as [serviceName|]; [simpl in H|discriminate].
  destruct (py_getitem port (PyStr "reason")) as [reason|]; [simpl in H|discriminate].
  destruct (py_getitem port (PyStr "state")) as [state|]; [simpl in H|discriminate].
  exists state. split; [done|].
  destruct (String.eqb (py_str state) "open"); simpl;
    [unfold EC2ASM.elbv2_attack_surface_open_tcp_port_check_failing in H
    |unfold EC2ASM.elbv2_attack_surface_open_tcp_port_check_passing in H];
    rinv H; subst f; reflexivity.
Qed.

Lemma status_of_verdict_cases failing f :
  status_of_verdict failing f -> passing_status f \/ failing_status f.
Proof. destruct failing; simpl; auto. Qed.

(** *** Operations of the programs *)

Lemma all_ops_ret {S A} Q (a : A) (s : S) : all_ops Q (ret a s).
Proof. constructor. Qed.

Lemma all_ops_raise {S A} Q e (s : S) : all_ops Q (raise (A:=A) e s).
Proof. constructor. Qed.

Lemma all_ops_lift {S A} Q (r : result A) (s : S) : all_ops Q (lift r s).
Proof. constructor. Qed.

Lemma all_ops_get {S} Q (s : S) : all_ops Q (get s).
Proof. constructor. Qed.

Lemma all_ops_put {S} Q (s' s : S) : all_ops Q (put s' s).
Proof. constructor. Qed.

Lemma all_ops_perform {S} (Q : op -> Prop) o (s : S) : Q o -> all_ops Q (perform o s).
Proof. intros HQ. constructor; [done|]. intros r. constructor. Qed.

Lemma all_ops_perform_ {S} (Q : op -> Prop) o (s : S) : Q o -> all_ops Q (perform_ o s).
Proof. intros HQ. constructor; [done|]. intros r. constructor. Qed.

Lemma all_ops_bind {S A B} Q (m : M S A) (f : A -> M S B) (s : S) :
  all_ops Q (m s) -> (forall a s', all_ops Q (f a s')) -> all_ops Q (bind m f s).
Proof.
  intros Hm Hf. unfold bind. apply all_ops_pbind; [done|].
  intros [[a|e] s']; simpl; [apply Hf | constructor].
Qed.

Lemma all_ops_lift_bind {S A B} Q (r : result A) (f : A -> M S B) (s : S) :
  (forall a, r = Ok a -> all_ops Q (f a s)) -> all_ops Q (bind (lift r) f s).
Proof. intros Hf. destruct r as [a|e]; simpl; [by apply Hf | constructor]. Qed.

Lemma all_ops_try_except {S A} Q (m : M S A) (h : exn -> M S A) (s : S) :
  all_ops Q (m s) -> (forall e s', all_ops Q (h e s')) -> all_ops Q (try_except m h s).
Proof.
  intros Hm Hh. unfold try_except. apply all_ops_pbind; [done|].
  intros [[a|e] s']; simpl; [constructor | apply Hh].
Qed.

Lemma all_ops_for_each {S A} Q (l : list A) (body : A -> M S unit) :
  (forall x s, all_ops Q (body x s)) -> forall s, all_ops Q (for_each l body s).
Proof.
  intros Hb. induction l as [|x l IH]; intros s; simpl.
  - constructor.
  - apply all_ops_bind; [apply Hb | intros _ s'; apply IH].
Qed.

Lemma all_ops_for_enumerate {S A} Q (l : list A) (body : Z -> A -> M S unit) :
  (forall i x s, all_ops Q (body i x s)) -> forall i s, all_ops Q (for_enumerate i l body s).
Proof.
  intros Hb. induction l as [|x l IH]; intros i s; simpl.
  - constructor.
  - apply all_ops_bind; [apply Hb | intros _ s'; apply IH].
Qed.

Lemma yielded_Forall (P : pyval -> Prop) (tr : list event) :
  Forall (fun ev => yields_only P (fst ev)) tr -> Forall P (yielded tr).
Proof.
  induction 1 as [|[o r] tr Ho _ IH]; simpl; [constructor|].
  destruct o; simpl in *; auto.
Qed.

(** Break a program into its operations. *)
Ltac ops_step :=
  lazymatch goal with
  | |- all_ops _ (ret _ _) => apply all_ops_ret
  | |- all_ops _ (raise _ _) => apply all_ops_raise
  | |- all_ops _ (lift _ _) => apply all_ops_lift
  | |- all_ops _ (get _) => apply all_ops_get
  | |- all_ops _ (put _ _) => apply all_ops_put
  | |- all_ops _ (perform _ _) => apply all_ops_perform; exact I
  | |- all_ops _ (print _ _) => apply all_ops_perform_; exact I
  | |- all_ops _ (bind (lift _) _ _) => apply all_ops_lift_bind; intros ? ?
  | |- all_ops _ (bind _ _ _) => apply all_ops_bind; [|intros ? ?]
  | |- all_ops _ (try_except _ _ _) => apply all_ops_try_except; [|intros ? ?]
  | |- all_ops _ (if ?b then _ else _) => destruct b
  | |- all_ops _ ((if ?b then _ else _) _) => destruct b
  | |- all_ops _ (match ?x with Some _ => _ | None => _ end _) => destruct x
  | |- all_ops _ ((let _ := _ in _) _) => cbv zeta
  | |- all_ops _ (let _ := _ in _) => cbv zeta
  end.
Ltac ops := repeat (cbv beta; ops_step).

Lemma describe_clusters_ops P cache :
  all_ops (yields_only P) (DAX.describe_clusters cache).
Proof. unfold DAX.describe_clusters, cache_setitem. ops. Qed.

Lemma ec2_paginate_ops P cache :
  all_ops (yields_only P) (EC2ASM.ec2_paginate cache).
Proof. unfold EC2ASM.ec2_paginate, cache_setitem. ops. Qed.

Lemma describe_load_balancers_ops P cache :
  all_ops (yields_only P) (EC2ASM.describe_load_balancers cache).
Proof. unfold EC2ASM.describe_load_balancers, cache_setitem. ops. Qed.

Lemma scan_host_ops {S} P host name (s : S) :
  all_ops (yields_only P) (EC2ASM.scan_host host name s).
Proof. unfold EC2ASM.scan_host, try_except_KeyError. ops. Qed.

Lemma registered_checks_ops service check a r p cache :
  In (service, check) registered_checks ->
  all_ops (yields_only well_formed_status) (check a r p cache).
Proof.
  unfold registered_checks. simpl.
  intros [H|[H|[H|[H|[]]]]]; injection H as _ <-.
  - unfold DAX.dax_encryption_at_rest_check. ops.
    + apply describe_clusters_ops.
    + apply all_ops_for_each. intros cluster s. ops.
      apply all_ops_perform_. simpl.
      match goal with H : _ = Ok _ |- _ => apply dax_at_rest_status in H as (fl & _ & Hs) end.
      by eapply status_of_verdict_cases.
  - unfold DAX.dax_encryption_in_transit_check. ops.
    + apply describe_clusters_ops.
    + apply all_ops_for_each. intros cluster s. ops.
      apply all_ops_perform_. simpl.
      match goal with H : _ = Ok _ |- _ => apply dax_in_transit_status in H as (fl & _ & Hs) end.
      by eapply status_of_verdict_cases.
  - unfold EC2ASM.ec2_attack_surface_open_tcp_port_check. ops.
    + apply ec2_paginate_ops.
    + apply all_ops_for_each. intros i s.
      unfold EC2ASM.ec2_attack_surface_open_tcp_port_check_instance. ops.
      * apply scan_host_ops.
      * apply all_ops_for_enumerate. intros index port s1. ops.
        apply all_ops_perform_. simpl.
        match goal with H : _ = Ok _ |- _ => apply ec2_port_status in H as (st & _ & Hs) end.
        by eapply status_of_verdict_cases.
  - unfold EC2ASM.elbv2_attack_surface_open_tcp_port_check. ops.
    + apply describe_load_balancers_ops.
    + apply all_ops_for_each. intros lb s.
      unfold EC2ASM.elbv2_attack_surface_open_tcp_port_check_lb. ops.
      * apply scan_host_ops.
      * apply all_ops_for_enumerate. intros index port s1. ops.
        apply all_ops_perform_. simpl.
        match goal with H : _ = Ok _ |- _ => apply elbv2_port_status in H as (st & _ & Hs) end.
        by eapply status_of_verdict_cases.
Qed.

End Findings.

(** ** Finding identifiers and evidence *)

Section Evidence.
Context `{RT : Runtime}.

Lemma dax_at_rest_id iso a r p cluster f :
  DAX.dax_encryption_at_rest_check_cluster iso a r p cluster = Ok f ->
  exists arn, py_getitem cluster (PyStr "ClusterArn") = Ok arn /\
              get_path f ["Id"] = Some (PyStr (py_str arn +:+ "/dax-encryption-at-rest-check")).
Proof.
  unfold DAX.dax_encryption_at_rest_check_cluster. intros H.
  destruct (py_getitem cluster (PyStr "ClusterName")) as [name|] eqn:E1; [simpl in H|discriminate].
  destruct (py_getitem cluster (PyStr "ClusterArn")) as [arn|] eqn:E2; [simpl in H|discriminate].
  destruct (DAX.dax_encryption_at_rest_check_guard cluster) as [failing|] eqn:E3; [simpl in H|discriminate].
  exists arn. split; [done|].
  destruct failing;
    [unfold DAX.dax_encryption_at_rest_check_failing in H
    |unfold DAX.dax_encryption_at_rest_check_passing in H];
    rinv H; subst f; reflexivity.
Qed.

Lemma dax_in_transit_id iso a r p cluster f :
  DAX.dax_encryption_in_transit_check_cluster iso a r p cluster = Ok f ->
  exists arn, py_getitem cluster (PyStr "ClusterArn") = Ok arn /\
              get_path f ["Id"] = Some (PyStr (py_str arn +:+ "/dax-encryption-in-transit-check")).
Proof.
  unfold DAX.dax_encryption_in_transit_check_cluster. intros H.
  destruct (py_getitem cluster (PyStr "ClusterName")) as [name|] eqn:E1; [simpl in H|discriminate].
  destruct (py_getitem cluster (PyStr "ClusterArn")) as [arn|] eqn:E2; [simpl in H|discriminate].
  destruct (DAX.dax_encryption_in_transit_check_guard cluster) as [failing|] eqn:E3; [simpl in H|discriminate].
  exists arn. split; [done|].
  destruct failing;
    [unfold DAX.dax_encryption_in_transit_check_failing in H
    |unfold DAX.dax_encryption_in_transit_check_passing in H];
    rinv H; subst f; reflexivity.
Qed.

Lemma ec2_port_id iso a r p iid iarn ity iim sub vpc launched index port f :
  EC2ASM.ec2_attack_surface_open_tcp_port_check_port
    iso a r p iid iarn ity iim sub vpc launched index port = Ok f ->
  exists portid portNumber serviceName,
    py_getitem port (PyStr "portid") = Ok portid /\
    py_int portid = Ok portNumber /\
    EC2ASM.port_service_name port portNumber = Ok serviceName /\
    get_path f ["Id"] =
      Some (PyStr (iarn +:+ "/attack-surface-ec2-open-" +:+ serviceName +:+ "-check")).
Proof.
  unfold EC2ASM.ec2_attack_surface_open_tcp_port_check_port. intros H.
  destruct (py_getitem port (PyStr "portid")) as [portid|] eqn:E1; [simpl in H|discriminate].
  destruct (py_int portid) as [portNumber|] eqn:E2; [simpl in H|discriminate].
  destruct (EC2ASM.port_service_name port portNumber) as [serviceName|] eqn:E3; [simpl in H|discriminate].
  destruct (py_getitem port (PyStr "reason")) as [reason|]; [simpl in H|discriminate].
  destruct (py_getitem port (PyStr "state")) as [state|]; [simpl in H|discriminate].
  exists portid, portNumber, serviceName. repeat split; try done.
  destruct (String.eqb (py_str state) "open");
    [unfold EC2ASM.ec2_attack_surface_open_tcp_port_check_failing in H
    |unfold EC2ASM.ec2_attack_surface_open_tcp_port_check_passing in H];
    rinv H; subst f; reflexivity.
Qed.

Lemma elbv2_port_id iso a r p arn name dns ty scheme vpc ipt index port f :
  EC2ASM.elbv2_attack_surface_open_tcp_port_check_port
    iso a r p arn name dns ty scheme vpc ipt index port = Ok f ->
  exists portid portNumber serviceName,
    py_getitem port (PyStr "portid") = Ok portid /\
    py_int portid = Ok portNumber /\
    EC2ASM.port_service_name port portNumber = Ok serviceName /\
    get_path f ["Id"] =
      Some (PyStr (arn +:+ "/attack-surface-elbv2-open-" +:+ serviceName +:+ "-check")).
Proof.
  unfold EC2ASM.elbv2_attack_surface_open_tcp_port_check_port. intros H.
  destruct (py_getitem port (PyStr "portid")) as [portid|] eqn:E1; [simpl in H|discriminate].
  destruct (py_int portid) as [portNumber|] eqn:E2; [simpl in H|discriminate].
  destruct (EC2ASM.port_service_name port portNumber) as [serviceName|] eqn:E3; [simpl in H|discriminate].
  destruct (py_getitem port (PyStr "reason")) as [reason|]; [simpl in H|discriminate].
  destruct (py_getitem port (PyStr "state")) as [state|]; [simpl in H|discriminate].
  exists portid, portNumber, serviceName. repeat split; try done.
  destruct (String.eqb (py_str state) "open");
    [unfold EC2ASM.elbv2_attack_surface_open_tcp_port_check_failing in H
    |unfold EC2ASM.elbv2_attack_surface_open_tcp_port_check_passing in H];
    rinv H; subst f; reflexivity.
Qed.

(** A cluster that yields a finding has every evidence attribute. *)
Lemma dax_at_rest_evidence iso a r p cluster f path :
  DAX.dax_encryption_at_rest_check_cluster iso a r p cluster = Ok f ->
  In path dax_evidence_paths ->
  exists v, py_path cluster path = Ok v.
Proof.
  unfold DAX.dax_encryption_at_rest_check_cluster. intros H Hin.
  destruct (py_getitem cluster (PyStr "ClusterName")) as [name|] eqn:E1; [simpl in H|discriminate].
  destruct (py_getitem cluster (PyStr "ClusterArn")) as [arn|] eqn:E2; [simpl in H|discriminate].
  destruct (DAX.dax_encryption_at_rest_check_guard cluster) as [failing|] eqn:E3; [simpl in H|discriminate].
  destruct failing;
    [unfold DAX.dax_encryption_at_rest_check_failing in H
    |unfold DAX.dax_encryption_at_rest_check_passing in H];
    rinv H; clear H;
    simpl in Hin; repeat (destruct Hin as [<-|Hin]; [simpl;
      repeat match goal with E : py_getitem _ _ = Ok _ |- _ => rewrite E; clear E; simpl end;
      eauto|]); destruct Hin.
Qed.

Lemma dax_in_transit_evidence iso a r p cluster f path :
  DAX.dax_encryption_in_transit_check_cluster iso a r p cluster = Ok f ->
  In path dax_evidence_paths ->
  exists v, py_path cluster path = Ok v.
Proof.
  unfold DAX.dax_encryption_in_transit_check_cluster. intros H Hin.
  destruct (py_getitem cluster (PyStr "ClusterName")) as [name|] eqn:E1; [simpl in H|discriminate].
  destruct (py_getitem cluster (PyStr "ClusterArn")) as [arn|] eqn:E2; [simpl in H|discriminate].
  destruct (DAX.dax_encryption_in_transit_check_guard cluster) as [failing|] eqn:E3; [simpl in H|discriminate].
  destruct failing;
    [unfold DAX.dax_encryption_in_transit_check_failing in H
    |unfold DAX.dax_encryption_in_transit_check_passing in H];
    rinv H; clear H;
    simpl in Hin; repeat (destruct Hin as [<-|Hin]; [simpl;
      repeat match goal with E : py_getitem _ _ = Ok _ |- _ => rewrite E; clear E; simpl end;
      eauto|]); destruct Hin.
Qed.

End Evidence.

(** ** The accessors of the cache *)

Section Cache.
Context `{RT : Runtime}.

Lemma cache_get_insert (cache : gmap string pyval) key v :
  cache_get (<[key := v]> cache) key = v.
Proof. unfold cache_get. by rewrite lookup_insert_eq. Qed.

Lemma cache_getitem_insert (cache : gmap string pyval) key v :
  cache_getitem (<[key := v]> cache) key = Ok v.
Proof. unfold cache_getitem. by rewrite lookup_insert_eq. Qed.

(** A call of an accessor makes at most one request, and once it has returned
    a payload that Python takes for true, every later call on the resulting
    cache returns that payload without any operation. *)
Lemma describe_clusters_memo cache :
  always (DAX.describe_clusters cache) (fun tr res =>
    length (api_calls tr) <= 1 /\
    forall v, fst res = Ok v -> truthy v = true ->
      DAX.describe_clusters (snd res) = Ret (Ok v, snd res))%nat.
Proof.
  unfold DAX.describe_clusters at 1. mred.
  destruct (truthy (cache_get cache "describe_clusters")) eqn:Ht; mred.
  - split; [simpl; lia|]. intros v [= <-] _. unfold DAX.describe_clusters. mred. by rewrite Ht.
  - intros [v|e]; mred.
    + rewrite cache_getitem_insert. split; [simpl; lia|].
      intros v' Heq Hv. injection Heq as <-. unfold DAX.describe_clusters. mred.
      rewrite cache_get_insert. by rewrite Hv.
    + split; [simpl; lia|]. intros v [=].
Qed.

Lemma describe_load_balancers_memo cache :
  always (EC2ASM.describe_load_balancers cache) (fun tr res =>
    length (api_calls tr) <= 1 /\
    forall v, fst res = Ok v -> truthy v = true ->
      EC2ASM.describe_load_balancers (snd res) = Ret (Ok v, snd res))%nat.
Proof.
  unfold EC2ASM.describe_load_balancers at 1. mred.
  destruct (truthy (cache_get cache "describe_load_balancers")) eqn:Ht; mred.
  - split; [simpl; lia|]. intros v [= <-] _. unfold EC2ASM.describe_load_balancers. mred. by rewrite Ht.
  - intros [v|e]; mred.
    + rewrite cache_getitem_insert. split; [simpl; lia|].
      intros v' Heq Hv. injection Heq as <-. unfold EC2ASM.describe_load_balancers. mred.
      rewrite cache_get_insert. by rewrite Hv.
    + split; [simpl; lia|]. intros v [=].
Qed.

Lemma ec2_paginate_memo cache :
  always (EC2ASM.ec2_paginate cache) (fun tr res =>
    length (List.filter is_fetch tr) <= 1 /\
    forall v, fst res = Ok v -> truthy v = true ->
      EC2ASM.ec2_paginate (snd res) = Ret (Ok v, snd res))%nat.
Proof.
  unfold EC2ASM.ec2_paginate at 1. mred.
  destruct (truthy (cache_get cache "instances")) eqn:Ht; mred.
  - split; [simpl; lia|]. intros v [= <-] _. unfold EC2ASM.ec2_paginate. mred. by rewrite Ht.
  - intros [paginator|e]; mred; [|split; [simpl; lia|intros v [=]]].
    destruct (truthy paginator); mred; [|split; [simpl; lia|intros v ? Hv; by simplify_eq/=]].
    intros [pages|e]; mred; [|split; [simpl; lia|intros v [=]]].
    destruct (py_iter pages) as [pl|e]; mred; [|split; [simpl; lia|intros v [=]]].
    destruct (EC2ASM.collect_instances pl []) as [il|e]; mred; [|split; [simpl; lia|intros v [=]]].
    rewrite cache_getitem_insert. split; [simpl; lia|].
    intros v' Heq Hv. injection Heq as <-. unfold EC2ASM.ec2_paginate. mred.
    rewrite cache_get_insert. by rewrite Hv.
Qed.
End Cache.

(** C1, at an account without running instances.  [ec2_paginate] tests the
    cached payload for truth, and the empty list of instances it has stored
    is false: the second call on the same cache lists the instances again,
    and the two callers see different payloads once an instance has started in
    between.  This evaluates the code where it departs from the claim that a
    key is fetched at most once in a run. *)
Theorem C1_empty_listing_is_fetched_again :
  let x := run aws_instances_appear
             ((first <- EC2ASM.ec2_paginate ;;
               second <- EC2ASM.ec2_paginate ;;
               ret (first, second)) ∅) 0%nat in
  length (List.filter is_fetch (trace x)) = 2%nat /\
  fst (outcome x) = Ok (PyList [], PyList [PyDict [("InstanceId", PyStr "i-0abc")]]).
Proof. vm_compute. split; reflexivity. Qed.

(** ** The playbook *)

(** Follow a program along every answer of the outside. *)
Ltac walk :=
  mred;
  lazymatch goal with
  | |- forall r : result pyval, _ => let r := fresh "r" in intros r; walk
  | |- context [match ?x with Ok _ => _ | Raise _ => _ end] =>
      lazymatch x with
      | context [match _ with _ => _ end] => fail
      | _ => destruct x eqn:?; walk
      end
  | |- _ => idtac
  end.

(** Go through the events of a run. *)
Ltac each_event Hin tac :=
  simpl in Hin;
  repeat (destruct Hin as [Hin|Hin];
          [try discriminate Hin; inversion Hin; subst; clear Hin; tac|]);
  try (destruct Hin).

Ltac fail_stop_leaf :=
  split;
  [ intros ? Hres; simpl in Hres;
    first
      [ discriminate Hres
      | injection Hres as <-;
        let fin := (eexists; split; [lia|]; split; [reflexivity|];
                    split; [repeat constructor | reflexivity]) in
        first [ exists 0%nat; fin | exists 1%nat; fin | exists 2%nat; fin
              | exists 3%nat; fin | exists 4%nat; fin | exists 5%nat; fin ] ]
  | intros ? ? ? ? Hin Hm;
    each_event Hin ltac:(first
      [ split; [reflexivity|];
        lazymatch goal with |- exists pre r, ?tr = _ =>
          exists (take (length tr - 2) tr); eexists; reflexivity end
      | exfalso; simpl in Hm; intuition discriminate ]) ].

Ltac calls_from_leaf :=
  intros ? ? ? ? Hin;
  each_event Hin ltac:(first [ left; split; [simpl; tauto | tauto] | right; split; reflexivity ]).

Ltac creates_first_leaf :=
  eexists _, _; split; [reflexivity|];
  intros ? He; first [ discriminate He | injection He as <-; split; [reflexivity | eexists; reflexivity] ].

Section PlaybookFacts.
Context `{RT : Runtime}.

Lemma log_group_name_inv response (s : string) :
  (let? groups := py_getitem response (PyStr "logGroups") in
   let? first := py_getitem groups (PyInt 0) in
   let? name := py_getitem first (PyStr "logGroupName") in
   Ok (py_str name)) = Ok s ->
  exists name, py_path response [PyStr "logGroups"; PyInt 0; PyStr "logGroupName"] = Ok name /\
               s = py_str name.
Proof.
  intros H. cbn [py_path].
  destruct (py_getitem response (PyStr "logGroups")) as [g|]; [cbn [rbind] in *|discriminate].
  destruct (py_getitem g (PyInt 0)) as [f|]; [cbn [rbind] in *|discriminate].
  destruct (py_getitem f (PyStr "logGroupName")) as [n|]; [cbn [rbind] in *|discriminate].
  injection H as <-. eauto.
Qed.

Ltac reports_found :=
  split; [reflexivity|];
  let name := fresh "name" in
  let Hname := fresh "Hname" in
  match goal with H : rbind _ _ = Ok _ |- _ =>
    destruct (log_group_name_inv _ _ H) as (name & Hname & ->);
    eexists _, name, _; split; [eexists _, _; simpl; tauto|];
    split; [exact Hname|]; split; [reflexivity|];
    intros ? He; first [ discriminate He | injection He as <-; eexists; simpl; tauto ]
  end.

Ltac reports_leaf :=
  split;
  [ intros ? ? ? Hin; each_event Hin reports_found
  | intros ? Hres; simpl in Hres; first [ discriminate Hres | reflexivity ] ].

Lemma pipeline_behaviour logs iam ec2 securityhub fn findingId vpcId :
  always (Playbook.same_account_pipeline logs iam ec2 securityhub fn findingId vpcId tt)
    (fun tr res =>
       fail_stop tr res /\
       reports_success securityhub fn findingId tr res /\
       calls_from logs iam ec2 securityhub tr /\
       creates_first logs vpcId tr res).
Proof.
  unfold Playbook.same_account_pipeline.
  walk.
  all: split; [unfold fail_stop, stops_at_failure; fail_stop_leaf|].
  all: split; [|split; [unfold calls_from; calls_from_leaf | unfold creates_first; creates_first_leaf]].
  all: unfold reports_success.
  all: reports_leaf.
Qed.
End PlaybookFacts.

Section PlaybookBranches.
Context `{RT : Runtime}.

Lemma pipelines_equal :
  Playbook.cross_account_pipeline = Playbook.same_account_pipeline.
Proof. reflexivity. Qed.

Lemma rbind_Ok {A} (r : result A) : rbind r Ok = r.
Proof. by destruct r. Qed.

Lemma credential_path member (key : string) v :
  (let? creds := py_getitem member (PyStr "Credentials") in py_getitem creds (PyStr key)) = Ok v ->
  py_path member [PyStr "Credentials"; PyStr key] = Ok v.
Proof.
  intros H. cbn [py_path].
  destruct (py_getitem member (PyStr "Credentials")) as [creds|]; [cbn [rbind] in *|discriminate].
  by rewrite rbind_Ok.
Qed.

Lemma credential_path_inv member (key : string) v :
  py_path member [PyStr "Credentials"; PyStr key] = Ok v ->
  (let? creds := py_getitem member (PyStr "Credentials") in py_getitem creds (PyStr key)) = Ok v.
Proof.
  cbn [py_path]. intros H.
  destruct (py_getitem member (PyStr "Credentials")) as [creds|]; [cbn [rbind] in *|discriminate].
  by rewrite rbind_Ok in H.
Qed.

Lemma stops_at_failure_cons {A S} ev tr (res : result A * S) :
  (forall c m kw e, ev = (ApiCall c m kw, Raise e) -> ~ In m provisioning_steps) ->
  stops_at_failure tr res -> stops_at_failure (ev :: tr) res.
Proof.
  intros Hev Htr c m kw e [->|Hin] Hm.
  - by destruct (Hev c m kw e eq_refl).
  - destruct (Htr c m kw e Hin Hm) as (Hres & pre & r & ->).
    split; [done|]. by exists (ev :: pre), r.
Qed.

Lemma stops_at_failure_nil {A S} (res : result A * S) : stops_at_failure [] res.
Proof. intros c m kw e []. Qed.

(** Sequencing: a run that returned normally met no failure, so a failure of
    what follows is the failure of the whole. *)
Lemma stops_at_failure_app {A B S} tr tr' (a : A) (s : S) (res : result B * S) :
  stops_at_failure tr (Ok a, s) ->
  stops_at_failure tr' res -> stops_at_failure (tr ++ tr') res.
Proof.
  intros Htr Htr' c m kw e Hin Hm.
  apply in_app_or in Hin as [Hin|Hin].
  - destruct (Htr c m kw e Hin Hm) as [Hres _]. discriminate.
  - destruct (Htr' c m kw e Hin Hm) as (Hres & pre & r & ->).
    split; [done|]. exists (tr ++ pre), r. by rewrite <- app_assoc.
Qed.

Lemma same_account_branch_behaviour securityhub fn findingId vpcId :
  always (Playbook.same_account_branch securityhub fn findingId vpcId tt)
    (fun tr res => local_identity tr /\ stops_at_failure tr res).
Proof.
  unfold Playbook.same_account_branch. cbv zeta.
  eapply always_mono; [|apply pipeline_behaviour].
  intros tr res ((_ & Hstop) & _ & Hfrom & _). split; [|done].
  intros c m kw r Hin.
  destruct (Hfrom c m kw r Hin) as [[Hm Hc]|[-> ->]].
  - split.
    + intros ->. simpl in Hm. intuition discriminate.
    + intros _. by destruct Hc as [->|[->| ->]].
  - split; [discriminate|]. simpl. intuition discriminate.
Qed.

Lemma cross_account_branch_behaviour sts securityhub fn findingId findingOwner vpcId :
  always (Playbook.cross_account_branch sts securityhub fn findingId findingOwner vpcId tt)
    (fun tr res => assumed_identity sts findingOwner tr /\ stops_at_failure tr res).
Proof.
  unfold Playbook.cross_account_branch. mred. intros r.
  assert (forall tr (res : result unit * unit), stops_at_failure tr res ->
            stops_at_failure
              ((ApiCall sts "assume_role"
                  [("RoleArn", PyStr ("arn:aws:iam::" +:+ findingOwner +:+ ":role/XA-ElectricEye-Response"));
                   ("RoleSessionName", PyStr "x_acct_sechub")], r) :: tr) res) as Hcons.
  { intros tr res. apply stops_at_failure_cons.
    intros c m kw e [= _ <- _ _]. simpl. intuition discriminate. }
  assert (forall res : result unit * unit,
            assumed_identity sts findingOwner
              [(ApiCall sts "assume_role"
                  [("RoleArn", PyStr ("arn:aws:iam::" +:+ findingOwner +:+ ":role/XA-ElectricEye-Response"));
                   ("RoleSessionName", PyStr "x_acct_sechub")], r)] /\
            stops_at_failure
              [(ApiCall sts "assume_role"
                  [("RoleArn", PyStr ("arn:aws:iam::" +:+ findingOwner +:+ ":role/XA-ElectricEye-Response"));
                   ("RoleSessionName", PyStr "x_acct_sechub")], r)] res) as Hstop.
  { intros res. split; [|apply Hcons, stops_at_failure_nil].
    eexists _, []. split; [reflexivity|]. intros c m kw r' []. }
  destruct r as [member|e]; mred; [|apply Hstop].
  destruct (let? creds := py_getitem member (PyStr "Credentials") in
            py_getitem creds (PyStr "AccessKeyId")) as [accessKey|] eqn:E1; mred; [|apply Hstop].
  destruct (let? creds := py_getitem member (PyStr "Credentials") in
            py_getitem creds (PyStr "SecretAccessKey")) as [secretKey|] eqn:E2; mred; [|apply Hstop].
  destruct (let? creds := py_getitem member (PyStr "Credentials") in
            py_getitem creds (PyStr "SessionToken")) as [sessionToken|] eqn:E3; mred; [|apply Hstop].
  rewrite pipelines_equal.
  eapply always_mono; [|apply pipeline_behaviour].
  intros tr res ((_ & Hstop') & _ & Hfrom & _). split; [|by apply Hcons].
  eexists _, tr. split; [reflexivity|].
  intros c m kw r Hin.
  destruct (Hfrom c m kw r Hin) as [[Hm Hc]|[-> ->]].
  - split.
    + intros ->. simpl in Hm. intuition discriminate.
    + intros _. exists member, accessKey, secretKey, sessionToken.
      split; [done|]. do 3 (split; [by apply credential_path|]).
      by destruct Hc as [->|[->| ->]].
  - split; [discriminate|]. simpl. intuition discriminate.
Qed.


Lemma remediate_resource_behaviour sts securityhub awsRegion fn master findingId findingOwner resources :
  always (Playbook.remediate_resource sts securityhub awsRegion fn master
            findingId findingOwner resources tt)
    (fun tr res =>
       (master = PyStr findingOwner -> local_identity tr) /\
       (master <> PyStr findingOwner -> tr = [] \/ assumed_identity sts findingOwner tr) /\
       stops_at_failure tr res).
Proof.
  unfold Playbook.remediate_resource. mred.
  destruct (let? x := py_getitem resources (PyStr "Id") in Ok (py_str x)) as [resourceId|e]; mred.
  2: { split; [intros _ c m kw r []|]. split; [by left|]. apply stops_at_failure_nil. }
  unfold py_ne. destruct (py_eqb (PyStr findingOwner) master) eqn:E; cbn [negb].
  - apply py_eqb_str_l in E.
    eapply always_mono; [|apply same_account_branch_behaviour].
    intros tr res [Hid Hstop]. split; [done|]. split; [done|done].
  - assert (master <> PyStr findingOwner) as Hne.
    { intros ->. simpl in E. by rewrite String.eqb_refl in E. }
    eapply always_mono; [|apply cross_account_branch_behaviour].
    intros tr res [Hid Hstop]. split; [done|]. split; [by right|done].
Qed.

Lemma always_bind_stops {A B} (m : M unit A) (f : A -> M unit B) s :
  always (m s) stops_at_failure ->
  (forall a s', always (f a s') stops_at_failure) ->
  always (bind m f s) stops_at_failure.
Proof.
  intros Hm Hf. unfold bind. apply always_pbind.
  eapply always_mono; [|exact Hm]. intros tr [[a|e] s'] Htr; cbn [fst snd always].
  - eapply always_mono; [|apply Hf]. intros tr' res Htr'.
    by eapply stops_at_failure_app.
  - rewrite app_nil_r. intros c m0 kw e0 Hin Hm0.
    destruct (Htr c m0 kw e0 Hin Hm0) as [Hres Hpre]. split; [|done].
    simpl in *. congruence.
Qed.

Lemma always_lift_stops {A} (r : result A) (s : unit) :
  always (lift r s) stops_at_failure.
Proof. apply stops_at_failure_nil. Qed.

Lemma always_for_each_stops {A} (l : list A) (body : A -> M unit unit) :
  (forall x s, always (body x s) stops_at_failure) ->
  forall s, always (for_each l body s) stops_at_failure.
Proof.
  intros Hb. induction l as [|x l IH]; intros s; cbn [for_each].
  - apply stops_at_failure_nil.
  - apply always_bind_stops; [apply Hb | intros _ s'; apply IH].
Qed.

Lemma lambda_handler_stops environ event :
  always (Playbook.lambda_handler environ event tt) stops_at_failure.
Proof.
  unfold Playbook.lambda_handler. cbv zeta.
  do 2 (apply always_bind_stops; [apply always_lift_stops | intros ? ?]).
  apply always_bind_stops.
  { cbn [perform always]. intros r. apply stops_at_failure_cons; [|apply stops_at_failure_nil].
    intros c m kw e [= _ <- _ _]. simpl. intuition discriminate. }
  intros identity ?.
  do 3 (apply always_bind_stops; [apply always_lift_stops | intros ? ?]).
  apply always_for_each_stops. intros findings ?.
  do 3 (apply always_bind_stops; [apply always_lift_stops | intros ? ?]).
  apply always_for_each_stops. intros resources [].
  eapply always_mono; [|apply remediate_resource_behaviour].
  by intros tr res (_ & _ & Hstop).
Qed.

Lemma trace_head {W A} (h : handler W) (p : prog A) (w : W) o r rest :
  trace (run h p w) = (o, r) :: rest -> r = fst (h w o).
Proof. destruct p as [a|o' k]; simpl; [discriminate|]. by intros [= -> -> _]. Qed.

Lemma prog_sim_run {W A} (h : handler W) (p q : prog A) (w : W) :
  ignores_credentials h ->
  prog_sim erase_credentials p q ->
  outcome (run h p w) = outcome (run h q w) /\
  map erase_event_credentials (trace (run h p w)) =
  map erase_event_credentials (trace (run h q w)).
Proof.
  intros Hh Hsim. revert w.
  induction Hsim as [a | o1 o2 k1 k2 Ho _ IH]; intros w; [done|].
  assert (h w o1 = h w o2) as Heq.
  { rewrite <- (Hh w o1), <- (Hh w o2). by rewrite Ho. }
  cbn [run]. unfold outcome, trace in *. cbn [fst snd map].
  rewrite Heq. destruct (IH (fst (h w o2)) (snd (h w o2))) as [IH1 IH2].
  split; [done|]. unfold erase_event_credentials at 1 3. cbn [fst snd].
  by rewrite Ho, IH2.
Qed.

(** Follow two programs side by side. *)
Ltac sim_walk :=
  mred;
  lazymatch goal with
  | |- prog_sim _ (Ret _) (Ret _) => constructor
  | |- prog_sim _ (Do _ _) (Do _ _) =>
      apply prog_sim_Do; [reflexivity | let r := fresh "r" in intros r; sim_walk]
  | |- context [match ?x with Ok _ => _ | Raise _ => _ end] =>
      lazymatch x with
      | context [match _ with _ => _ end] => fail
      | _ => destruct x eqn:?; sim_walk
      end
  | |- _ => apply prog_sim_Ret
  end.

Lemma pipelines_similar accessKey secretKey sessionToken securityhub fn findingId vpcId :
  prog_sim erase_credentials
    (Playbook.cross_account_pipeline
       (boto3_client_with "logs" accessKey secretKey sessionToken)
       (boto3_client_with "iam" accessKey secretKey sessionToken)
       (boto3_client_with "ec2" accessKey secretKey sessionToken)
       securityhub fn findingId vpcId tt)
    (Playbook.same_account_pipeline
       (boto3_client "logs") (boto3_client "iam") (boto3_client "ec2")
       securityhub fn findingId vpcId tt).
Proof.
  unfold Playbook.cross_account_pipeline, Playbook.same_account_pipeline.
  sim_walk.
Qed.

End PlaybookBranches.

(** ** Claims about the playbook *)

Section PlaybookClaims.
Context `{RT : Runtime}.

(** C3. Whatever AWS answers, both copies of the remediation pipeline are
    fail-stop.  When the pipeline raises [e], its API calls are exactly the
    first steps of the sequence create_log_group, describe_log_groups,
    create_policy, create_role, attach_role_policy, create_flow_logs, in
    that order: no later step has run and no other call, so nothing undoes
    the earlier steps, which had all been answered; and [e] is printed, then
    raised.  When the call of a step is answered by an exception, this
    exception is what the pipeline raises, and that call is the last one of
    the run.  The same holds for the whole of [lambda_handler]: the exception
    leaves the loops over the findings and their resources and reaches the
    caller. *)
Theorem C3_fail_stop {W} (h : handler W) (w : W) :
  (forall logs iam ec2 securityhub fn findingId vpcId,
     let x := run h (Playbook.cross_account_pipeline logs iam ec2 securityhub
                       fn findingId vpcId tt) w in
     fail_stop (trace x) (outcome x)) /\
  (forall logs iam ec2 securityhub fn findingId vpcId,
     let x := run h (Playbook.same_account_pipeline logs iam ec2 securityhub
                       fn findingId vpcId tt) w in
     fail_stop (trace x) (outcome x)) /\
  (forall environ event,
     let x := run h (Playbook.lambda_handler environ event tt) w in
     stops_at_failure (trace x) (outcome x)).
Proof.
  split; [|split].
  - intros logs iam ec2 securityhub fn findingId vpcId x. subst x.
    rewrite pipelines_equal. apply always_run.
    eapply always_mono; [|apply pipeline_behaviour]. by intros tr res (H & _).
  - intros logs iam ec2 securityhub fn findingId vpcId x. subst x.
    apply always_run.
    eapply always_mono; [|apply pipeline_behaviour]. by intros tr res (H & _).
  - intros environ event x. subst x. apply always_run, lambda_handler_stops.
Qed.

(** C8, as amended.  Neither copy of the pipeline looks for existing
    artifacts: whatever AWS answers, its first operation is the request to
    create the log group [VPCFlowLogs/<vpcId>].  When that request is refused,
    as it is when the log group exists, the pipeline prints the exception of
    the provider, raises it, and performs nothing else: no policy and no role
    is created. *)
Theorem C8_creates_without_lookup {W} (h : handler W) (w : W)
    logs iam ec2 securityhub fn findingId vpcId :
  let x := run h (Playbook.cross_account_pipeline logs iam ec2 securityhub
                    fn findingId vpcId tt) w in
  let y := run h (Playbook.same_account_pipeline logs iam ec2 securityhub
                    fn findingId vpcId tt) w in
  creates_first logs vpcId (trace x) (outcome x) /\
  creates_first logs vpcId (trace y) (outcome y).
Proof.
  intros x y. subst x y. rewrite pipelines_equal.
  assert (forall p : prog (result unit * unit),
            always p (fun tr res => creates_first logs vpcId tr res) ->
            creates_first logs vpcId (trace (run h p w)) (outcome (run h p w)))
    as Hrun by (intros p; apply always_run).
  split; apply Hrun; (eapply always_mono; [|apply pipeline_behaviour]);
    by intros tr res (_ & _ & _ & H).
Qed.

(** C9. The provisioning steps of the cross-account branch, run with clients
    built from assumed credentials, and those of the same-account branch, run
    with clients of the ambient identity, are the same program up to the
    credentials of the clients: operation by operation they make the same
    request with the same arguments, continue alike on every answer, and
    return the same result.  So against an AWS that does not look at the
    credentials, the two runs have the same outcome and the same events.  The
    cross-account branch as a whole is the [assume_role] request followed,
    once it is answered with the three credentials, by a program equal to the
    same-account branch up to credentials. *)
Theorem C9_branches_equivalent accessKey secretKey sessionToken securityhub fn findingId vpcId :
  let cross :=
    Playbook.cross_account_pipeline
      (boto3_client_with "logs" accessKey secretKey sessionToken)
      (boto3_client_with "iam" accessKey secretKey sessionToken)
      (boto3_client_with "ec2" accessKey secretKey sessionToken)
      securityhub fn findingId vpcId tt in
  let same :=
    Playbook.same_account_pipeline
      (boto3_client "logs") (boto3_client "iam") (boto3_client "ec2")
      securityhub fn findingId vpcId tt in
  prog_sim erase_credentials cross same /\
  (forall W (h : handler W) (w : W),
     ignores_credentials h ->
     outcome (run h cross w) = outcome (run h same w) /\
     map erase_event_credentials (trace (run h cross w)) =
     map erase_event_credentials (trace (run h same w))) /\
  (forall sts findingOwner member,
     py_path member [PyStr "Credentials"; PyStr "AccessKeyId"] = Ok accessKey ->
     py_path member [PyStr "Credentials"; PyStr "SecretAccessKey"] = Ok secretKey ->
     py_path member [PyStr "Credentials"; PyStr "SessionToken"] = Ok sessionToken ->
     exists k,
       Playbook.cross_account_branch sts securityhub fn findingId findingOwner vpcId tt =
         Do (ApiCall sts "assume_role"
               [("RoleArn", PyStr ("arn:aws:iam::" +:+ findingOwner +:+ ":role/XA-ElectricEye-Response"));
                ("RoleSessionName", PyStr "x_acct_sechub")]) k /\
       prog_sim erase_credentials (k (Ok member))
         (Playbook.same_account_branch securityhub fn findingId vpcId tt)).
Proof.
  intros cross same.
  assert (prog_sim erase_credentials cross same) as Hsim by apply pipelines_similar.
  split; [done|]. split; [intros W h w Hh; by apply prog_sim_run|].
  intros sts findingOwner member Hak Hsk Htok.
  eexists. split; [reflexivity|]. mred.
  rewrite (credential_path_inv _ _ _ Hak). mred.
  rewrite (credential_path_inv _ _ _ Hsk). mred.
  rewrite (credential_path_inv _ _ _ Htok). mred.
  exact Hsim.
Qed.

End PlaybookClaims.

(** ** The claims at concrete inputs *)

(** [str.replace] on the identifier of a VPC and on a few other strings. *)
Example str_replace_examples :
  str_replace "arn:aws:ec2:us-east-1:111111111111:vpc/vpc-0a1b2c3d"
              "arn:aws:ec2:us-east-1:111111111111:vpc/" "" = "vpc-0a1b2c3d" /\
  str_replace "a.b.c" "." "--" = "a--b--c" /\
  str_replace "aaa" "aa" "b" = "ba" /\
  str_replace "vpc-1" "arn" "" = "vpc-1".
Proof. repeat split. Qed.

(** A run of the EC2 check: one finding for each scanned port. *)
Example ec2_check_example :
  let x := run aws_one_public_instance
             (EC2ASM.ec2_attack_surface_open_tcp_port_check (RT:=example_runtime)
                "111111111111" "us-east-1" "aws" ∅) tt in
  fst (outcome x) = Ok tt /\
  map (fun f => (get_path f ["Id"], get_path f ["Title"], get_path f ["Compliance"; "Status"],
                 get_path f ["RecordState"]))
      (yielded (trace x)) =
  [ (Some (PyStr "arn:aws:ec2:us-east-1:111111111111:instance/i-0abc/attack-surface-ec2-open-SSH-check"),
     Some (PyStr "[AttackSurface.EC2.1] EC2 Instances should not be publicly reachable on SSH"),
     Some (PyStr "FAILED"), Some (PyStr "ACTIVE"));
    (Some (PyStr "arn:aws:ec2:us-east-1:111111111111:instance/i-0abc/attack-surface-ec2-open-SPLUNKD-check"),
     Some (PyStr "[AttackSurface.EC2.2] EC2 Instances should not be publicly reachable on SPLUNKD"),
     Some (PyStr "PASSED"), Some (PyStr "ARCHIVED")) ].
Proof. vm_compute. split; reflexivity. Qed.

(** The calls of the playbook for a finding of another account and for a
    finding of the account of the caller. *)
Example lambda_handler_cross_account_example :
  let x := run (aws_refusing "" "")
             (Playbook.lambda_handler (RT:=example_runtime) lambda_environ
                (vpc_finding_event "111111111111") tt) tt in
  fst (outcome x) = Ok tt /\
  api_methods (trace x) =
    [ "get_caller_identity"; "assume_role"; "create_log_group"; "describe_log_groups";
      "create_policy"; "create_role"; "attach_role_policy"; "create_flow_logs";
      "update_findings" ].
Proof. vm_compute. split; reflexivity. Qed.

Example lambda_handler_same_account_example :
  let x := run (aws_refusing "" "")
             (Playbook.lambda_handler (RT:=example_runtime) lambda_environ
                (vpc_finding_event "999999999999") tt) tt in
  fst (outcome x) = Ok tt /\
  api_methods (trace x) =
    [ "get_caller_identity"; "create_log_group"; "describe_log_groups";
      "create_policy"; "create_role"; "attach_role_policy"; "create_flow_logs";
      "update_findings" ].
Proof. vm_compute. split; reflexivity. Qed.

(** The pipeline against an account that refuses [create_policy]. *)
Lemma C3_witness :
  let x := run (aws_refusing "create_policy" "AccessDenied")
             (Playbook.same_account_pipeline (RT:=example_runtime)
                (boto3_client "logs") (boto3_client "iam") (boto3_client "ec2")
                (boto3_client "securityhub") "responder" "finding-1" "vpc-0a1b2c3d" tt) tt in
  let failed :=
    (ApiCall (boto3_client "iam") "create_policy"
       [("PolicyName", PyStr "VPCFlowLogsPolicy-vpc-0a1b2c3d");
        ("PolicyDocument", PyStr "<json>");
        ("Description", PyStr "Allows vpc-0a1b2c3d to publish logs to CloudWatch")],
     Raise (ClientError "AccessDenied")) in
  In failed (trace x) /\
  In "create_policy" provisioning_steps /\
  fst (outcome x) = Raise (ClientError "AccessDenied") /\
  exists pre r, trace x = pre ++ [failed; (PrintExn (ClientError "AccessDenied"), r)].
Proof.
  intros x failed.
  assert (In failed (trace x)) as Hin.
  { vm_compute. do 4 right. left. reflexivity. }
  assert (In "create_policy" provisioning_steps) as Hm.
  { simpl. tauto. }
  split; [exact Hin|]. split; [exact Hm|].
  exact (proj2 (proj1 (proj2 (C3_fail_stop (RT:=example_runtime)
                                (aws_refusing "create_policy" "AccessDenied") tt))
                  (boto3_client "logs") (boto3_client "iam") (boto3_client "ec2")
                  (boto3_client "securityhub") "responder" "finding-1" "vpc-0a1b2c3d")
           _ _ _ _ Hin Hm).
Defined.

(** The example account honours the contract of STS. *)
Lemma aws_refusing_sts_contract method code :
  method <> "assume_role" -> sts_contract (aws_refusing method code).
Proof.
  intros Hne w c kw member. cbn [aws_refusing fst].
  destruct (String.eqb "assume_role" method) eqn:E.
  { apply String.eqb_eq in E. congruence. }
  simpl. intros [= <-].
  exists (PyStr "ASIAEXAMPLE"), (PyStr "secret"), (PyStr "token").
  repeat split; try reflexivity; eexists; (split; [reflexivity|discriminate]).
Defined.

(** Run against an account in which the log group, the policy and the role
    exist already, the playbook makes no lookup: its only API call is the
    attempt to create the log group again, and what it raises is the
    refusal of the provider. *)
Lemma C8_counterexample :
  let x := run aws_already_remediated
             (Playbook.same_account_branch (RT:=example_runtime)
                (boto3_client "securityhub") "responder" "finding-1" "vpc-0a1b2c3d" tt) tt in
  ~ looks_up_before_creating (trace x) /\
  api_methods (trace x) = ["create_log_group"] /\
  fst (outcome x) = Raise (ClientError "ResourceAlreadyExistsException").
Proof.
  intros x. split; [|split; vm_compute; reflexivity].
  unfold looks_up_before_creating.
  replace (api_methods (trace x)) with ["create_log_group"] by (vm_compute; reflexivity).
  simpl. intuition discriminate.
Qed.

(** The pipeline against an account that has been remediated before. *)
Lemma C8_witness :
  let x := run aws_already_remediated
             (Playbook.same_account_pipeline (RT:=example_runtime)
                (boto3_client "logs") (boto3_client "iam") (boto3_client "ec2")
                (boto3_client "securityhub") "responder" "finding-1" "vpc-0a1b2c3d" tt) tt in
  creates_first (boto3_client "logs") "vpc-0a1b2c3d" (trace x) (outcome x) /\
  trace x =
    [(ApiCall (boto3_client "logs") "create_log_group"
        [("logGroupName", PyStr "VPCFlowLogs/vpc-0a1b2c3d")],
      Raise (ClientError "ResourceAlreadyExistsException"));
     (PrintExn (ClientError "ResourceAlreadyExistsException"), Ok PyNone)].
Proof.
  intros x. split; [|vm_compute; reflexivity].
  exact (proj2 (C8_creates_without_lookup (RT:=example_runtime) aws_already_remediated tt
                  (boto3_client "logs") (boto3_client "iam") (boto3_client "ec2")
                  (boto3_client "securityhub") "responder" "finding-1" "vpc-0a1b2c3d")).
Defined.

(** The example account does not look at credentials. *)
Lemma aws_refusing_ignores_credentials method code :
  ignores_credentials (aws_refusing method code).
Proof. intros w o. by destruct o. Defined.

(** The two pipelines against an account that accepts every request. *)
Lemma C9_witness :
  let cross :=
    Playbook.cross_account_pipeline (RT:=example_runtime)
      (boto3_client_with "logs" (PyStr "ASIAEXAMPLE") (PyStr "secret") (PyStr "token"))
      (boto3_client_with "iam" (PyStr "ASIAEXAMPLE") (PyStr "secret") (PyStr "token"))
      (boto3_client_with "ec2" (PyStr "ASIAEXAMPLE") (PyStr "secret") (PyStr "token"))
      (boto3_client "securityhub") "responder" "finding-1" "vpc-0a1b2c3d" tt in
  let same :=
    Playbook.same_account_pipeline (RT:=example_runtime)
      (boto3_client "logs") (boto3_client "iam") (boto3_client "ec2")
      (boto3_client "securityhub") "responder" "finding-1" "vpc-0a1b2c3d" tt in
  ignores_credentials (aws_refusing "" "") /\
  outcome (run (aws_refusing "" "") cross tt) = outcome (run (aws_refusing "" "") same tt) /\
  map erase_event_credentials (trace (run (aws_refusing "" "") cross tt)) =
  map erase_event_credentials (trace (run (aws_refusing "" "") same tt)).
Proof.
  intros cross same.
  split; [apply aws_refusing_ignores_credentials|].
  exact (proj1 (proj2 (C9_branches_equivalent (RT:=example_runtime)
                         (PyStr "ASIAEXAMPLE") (PyStr "secret") (PyStr "token")
                         (boto3_client "securityhub") "responder" "finding-1" "vpc-0a1b2c3d"))
           unit (aws_refusing "" "") tt (aws_refusing_ignores_credentials "" "")).
Defined.

(** * Further properties of the code *)

(** ** Further properties: the cache *)

Section CacheMore.
Context `{RT : Runtime}.

Lemma always_True {A} (p : prog A) : always p (fun _ _ => True).
Proof. induction p as [a|o k IH]; simpl; auto. Qed.

Lemma memoises_fail key acc cache tr e :
  (length (List.filter is_fetch tr) <= 1)%nat ->
  truthy (cache_get cache key) = false ->
  memoises key acc cache tr (Raise e, cache).
Proof.
  intros Hlen Ht. split; [done|]. split; [done|]. split; [done|].
  split; [intros v [=]|]. rewrite Ht. discriminate.
Qed.

Lemma memoises_hit key (acc : M (gmap string pyval) pyval) cache :
  truthy (cache_get cache key) = true ->
  acc cache = Ret (Ok (cache_get cache key), cache) ->
  memoises key acc cache [] (Ok (cache_get cache key), cache).
Proof.
  intros Ht Hacc. split; [simpl; lia|]. split; [done|]. split; [done|].
  split; [|done]. by intros v [= <-] _.
Qed.

Lemma memoises_store key (acc : M (gmap string pyval) pyval) cache tr v :
  (length (List.filter is_fetch tr) <= 1)%nat ->
  truthy (cache_get cache key) = false ->
  (truthy v = true -> acc (<[key := v]> cache) = Ret (Ok v, <[key := v]> cache)) ->
  memoises key acc cache tr (Ok v, <[key := v]> cache).
Proof.
  intros Hlen Ht Hacc. split; [done|].
  split; [intros k Hk; cbn [snd]; by rewrite lookup_insert_ne|].
  split; [discriminate|]. split; [by intros v' [= <-]|].
  rewrite Ht. discriminate.
Qed.

Lemma describe_clusters_memoises cache :
  always (DAX.describe_clusters cache)
    (memoises "describe_clusters" DAX.describe_clusters cache).
Proof.
  unfold DAX.describe_clusters at 1. mred.
  destruct (truthy (cache_get cache "describe_clusters")) eqn:Ht; mred.
  - apply memoises_hit; [done|]. unfold DAX.describe_clusters. mred. by rewrite Ht.
  - intros [v|e]; mred; [|apply memoises_fail; [simpl; lia|done]].
    rewrite cache_getitem_insert. apply memoises_store; [simpl; lia|done|].
    intros Hv. unfold DAX.describe_clusters. mred.
    rewrite cache_get_insert. by rewrite Hv.
Qed.

Lemma describe_load_balancers_memoises cache :
  always (EC2ASM.describe_load_balancers cache)
    (memoises "describe_load_balancers" EC2ASM.describe_load_balancers cache).
Proof.
  unfold EC2ASM.describe_load_balancers at 1. mred.
  destruct (truthy (cache_get cache "describe_load_balancers")) eqn:Ht; mred.
  - apply memoises_hit; [done|]. unfold EC2ASM.describe_load_balancers. mred. by rewrite Ht.
  - intros [v|e]; mred; [|apply memoises_fail; [simpl; lia|done]].
    rewrite cache_getitem_insert. apply memoises_store; [simpl; lia|done|].
    intros Hv. unfold EC2ASM.describe_load_balancers. mred.
    rewrite cache_get_insert. by rewrite Hv.
Qed.

Lemma ec2_paginate_memoises cache :
  always (EC2ASM.ec2_paginate cache)
    (memoises "instances" EC2ASM.ec2_paginate cache).
Proof.
  unfold EC2ASM.ec2_paginate at 1. mred.
  destruct (truthy (cache_get cache "instances")) eqn:Ht; mred.
  - apply memoises_hit; [done|]. unfold EC2ASM.ec2_paginate. mred. by rewrite Ht.
  - intros [paginator|e]; mred; [|apply memoises_fail; [simpl; lia|done]].
    destruct (truthy paginator); mred.
    2: { split; [simpl; lia|]. split; [done|]. split; [done|].
         split; [intros v [= <-] Hv; discriminate|]. rewrite Ht. discriminate. }
    intros [pages|e]; mred; [|apply memoises_fail; [simpl; lia|done]].
    destruct (py_iter pages) as [pl|e]; mred; [|apply memoises_fail; [simpl; lia|done]].
    destruct (EC2ASM.collect_instances pl []) as [il|e]; mred;
      [|apply memoises_fail; [simpl; lia|done]].
    rewrite cache_getitem_insert. apply memoises_store; [simpl; lia|done|].
    intros Hv. unfold EC2ASM.ec2_paginate. mred.
    rewrite cache_get_insert. by rewrite Hv.
Qed.

(** Two calls in a row, from what one call does. *)
Lemma twice_memoised key (acc : M (gmap string pyval) pyval) cache :
  (forall c, always (acc c) (memoises key acc c)) ->
  always (twice acc cache) (fun tr res =>
    forall v1 v2, fst res = Ok (v1, v2) -> truthy v1 = true ->
      v2 = v1 /\ (length (List.filter is_fetch tr) <= 1)%nat).
Proof.
  intros Hacc. unfold twice, bind. apply always_pbind.
  eapply always_mono; [|apply Hacc].
  intros tr [[v|e] c'] (Hlen & _ & _ & Hmemo & _); cbn [fst snd] in *.
  - apply always_pbind. destruct (truthy v) eqn:Hv.
    + rewrite (Hmemo v eq_refl Hv). cbn [always fst snd ret].
      intros v1 v2 [= <- <-] _. rewrite !app_nil_r. done.
    + eapply always_mono; [|apply always_True].
      intros tr' [[v'|e'] c''] _; cbn [always fst snd ret].
      * intros v1 v2 [= <- <-] Hv1. congruence.
      * intros v1 v2 [=].
  - cbn [always]. intros v1 v2 [=].
Qed.

Lemma rfor_append (l acc : list pyval) :
  EC2ASM.rfor l acc (fun i acc => Ok (acc ++ [i])) = Ok (acc ++ l).
Proof.
  revert acc. induction l as [|i l IH]; intros acc; cbn [EC2ASM.rfor rbind].
  - by rewrite app_nil_r.
  - rewrite IH. by rewrite <- app_assoc.
Qed.

Lemma collect_reservations (rs : list pyval) (reservations : list (list pyval))
    (acc : list pyval) :
  Forall2 reservation_holds rs reservations ->
  EC2ASM.rfor rs acc (fun r instanceList =>
    let? instances := py_getitem r (PyStr "Instances") in
    let? instances := py_iter instances in
    EC2ASM.rfor instances instanceList (fun i instanceList => Ok (instanceList ++ [i])))
  = Ok (acc ++ concat reservations).
Proof.
  intros H. revert acc. induction H as [|r instances rs reservations (v & Hv & Hiter) _ IH];
    intros acc; cbn [EC2ASM.rfor rbind concat].
  - by rewrite app_nil_r.
  - rewrite Hv. cbn [rbind]. rewrite Hiter. cbn [rbind].
    rewrite rfor_append. cbn [rbind]. rewrite IH. by rewrite <- app_assoc.
Qed.

Lemma collect_instances_pages (pages : list pyval) (contents : list (list (list pyval)))
    (acc : list pyval) :
  Forall2 page_holds pages contents ->
  EC2ASM.collect_instances pages acc = Ok (acc ++ concat (concat contents)).
Proof.
  unfold EC2ASM.collect_instances.
  intros H. revert acc.
  induction H as [|page reservations pages contents (v & rs & Hv & Hiter & Hrs) _ IH];
    intros acc; cbn [EC2ASM.rfor rbind concat].
  - by rewrite app_nil_r.
  - rewrite Hv. cbn [rbind]. rewrite Hiter. cbn [rbind].
    rewrite (collect_reservations _ _ _ Hrs). cbn [rbind].
    rewrite IH. by rewrite concat_app, <- app_assoc.
Qed.

Lemma ec2_paginate_flattens cache :
  always (EC2ASM.ec2_paginate cache) (fun tr res =>
    forall paginator kwargs answer pages contents,
      In (Paginate paginator kwargs, Ok answer) tr ->
      py_iter answer = Ok pages ->
      Forall2 page_holds pages contents ->
      res = (Ok (PyList (concat (concat contents))),
             <["instances" := PyList (concat (concat contents))]> cache)).
Proof.
  unfold EC2ASM.ec2_paginate. mred.
  destruct (truthy (cache_get cache "instances")); mred; [by intros ? ? ? ? ? []|].
  intros [paginator|e]; mred; [|intros ? ? ? ? ? [[=]|[]]].
  destruct (truthy paginator); mred; [|intros ? ? ? ? ? [[=]|[]]].
  intros [pages|e]; mred; [|intros ? ? ? ? ? [[=]|[[=]|[]]]].
  destruct (py_iter pages) as [pl|e] eqn:Hiter; mred.
  2: { intros pg kw ans ps contents [[=]|[[= _ _ ->]|[]]] Hans.
       rewrite Hiter in Hans. discriminate. }
  destruct (EC2ASM.collect_instances pl []) as [il|e] eqn:Hcollect; mred.
  - rewrite cache_getitem_insert.
    intros pg kw ans ps contents [[=]|[[= _ _ ->]|[]]] Hans Hpages.
    rewrite Hiter in Hans. injection Hans as <-.
    rewrite (collect_instances_pages _ _ _ Hpages) in Hcollect. by injection Hcollect as <-.
  - intros pg kw ans ps contents [[=]|[[= _ _ ->]|[]]] Hans Hpages.
    rewrite Hiter in Hans. injection Hans as <-.
    rewrite (collect_instances_pages _ _ _ Hpages) in Hcollect. discriminate.
Qed.

(** X1.  A call of an accessor on a cache that was filled by an earlier call: when
    the payload of the first call is true, the second call returns the same
    payload and the two calls together made at most one request. *)
Theorem X1_accessors_fetch_once {W} (h : handler W) (w : W) cache :
  (forall v1 v2,
     let x := run h (twice DAX.describe_clusters cache) w in
     fst (outcome x) = Ok (v1, v2) -> truthy v1 = true ->
     v2 = v1 /\ (length (List.filter is_fetch (trace x)) <= 1)%nat) /\
  (forall v1 v2,
     let x := run h (twice EC2ASM.describe_load_balancers cache) w in
     fst (outcome x) = Ok (v1, v2) -> truthy v1 = true ->
     v2 = v1 /\ (length (List.filter is_fetch (trace x)) <= 1)%nat) /\
  (forall v1 v2,
     let x := run h (twice EC2ASM.ec2_paginate cache) w in
     fst (outcome x) = Ok (v1, v2) -> truthy v1 = true ->
     v2 = v1 /\ (length (List.filter is_fetch (trace x)) <= 1)%nat).
Proof.
  assert (forall key acc, (forall c, always (acc c) (memoises key acc c)) ->
            forall v1 v2, let x := run h (twice acc cache) w in
              fst (outcome x) = Ok (v1, v2) -> truthy v1 = true ->
              v2 = v1 /\ (length (List.filter is_fetch (trace x)) <= 1)%nat) as Hgen.
  { intros key acc Hacc v1 v2 x. subst x. revert v1 v2.
    apply (always_run h _ (fun tr res => forall v1 v2, fst res = Ok (v1, v2) ->
             truthy v1 = true ->
             v2 = v1 /\ (length (List.filter is_fetch tr) <= 1)%nat)).
    by apply (twice_memoised key). }
  split; [|split].
  - apply (Hgen "describe_clusters"), describe_clusters_memoises.
  - apply (Hgen "describe_load_balancers"), describe_load_balancers_memoises.
  - apply (Hgen "instances"), ec2_paginate_memoises.
Qed.

(** X2.  An accessor writes no key of the cache but its own, leaves the cache as
    it was when it raises, and performs no operation when the cache holds a
    payload that is true under its key. *)
Theorem X2_accessors_keep_cache {W} (h : handler W) (w : W) cache :
  let own (key : string) (acc : M (gmap string pyval) pyval) :=
    let x := run h (acc cache) w in
    (forall k, k <> key -> snd (outcome x) !! k = cache !! k) /\
    (forall e, fst (outcome x) = Raise e -> snd (outcome x) = cache) /\
    (truthy (cache_get cache key) = true ->
       trace x = [] /\ outcome x = (Ok (cache_get cache key), cache)) in
  own "describe_clusters" DAX.describe_clusters /\
  own "describe_load_balancers" EC2ASM.describe_load_balancers /\
  own "instances" EC2ASM.ec2_paginate.
Proof.
  assert (forall key acc, always (acc cache) (memoises key acc cache) ->
            let x := run h (acc cache) w in
            (forall k, k <> key -> snd (outcome x) !! k = cache !! k) /\
            (forall e, fst (outcome x) = Raise e -> snd (outcome x) = cache) /\
            (truthy (cache_get cache key) = true ->
               trace x = [] /\ outcome x = (Ok (cache_get cache key), cache))) as Hgen.
  { intros key acc Hacc x. subst x.
    apply (always_run h _ (fun tr res =>
             (forall k, k <> key -> snd res !! k = cache !! k) /\
             (forall e, fst res = Raise e -> snd res = cache) /\
             (truthy (cache_get cache key) = true ->
                tr = [] /\ res = (Ok (cache_get cache key), cache)))).
    eapply always_mono; [|exact Hacc]. by intros tr res (_ & ? & ? & _ & ?). }
  intros own. subst own. cbv beta. split; [|split].
  - apply Hgen, describe_clusters_memoises.
  - apply Hgen, describe_load_balancers_memoises.
  - apply Hgen, ec2_paginate_memoises.
Qed.

(** X3.  When the paginator of [ec2_paginate] is answered with pages in each
    of which the reservations can be read, and in each reservation the
    instances, whatever else the pages and the reservations hold: the
    payload is the list of the instances of all the reservations of all the
    pages, in the order of the listing, and it is what the cache holds
    afterwards. *)
Theorem X3_ec2_paginate_payload {W} (h : handler W) (w : W) cache
    paginator kwargs answer pages contents :
  let x := run h (EC2ASM.ec2_paginate cache) w in
  In (Paginate paginator kwargs, Ok answer) (trace x) ->
  py_iter answer = Ok pages ->
  Forall2 page_holds pages contents ->
  outcome x = (Ok (PyList (concat (concat contents))),
               <["instances" := PyList (concat (concat contents))]> cache).
Proof.
  intros x. subst x. revert paginator kwargs answer pages contents.
  apply (always_run h _ (fun tr res => forall paginator kwargs answer pages contents,
           In (Paginate paginator kwargs, Ok answer) tr ->
           py_iter answer = Ok pages ->
           Forall2 page_holds pages contents ->
           res = (Ok (PyList (concat (concat contents))),
                  <["instances" := PyList (concat (concat contents))]> cache))).
  apply ec2_paginate_flattens.
Qed.

End CacheMore.

(** ** Further properties: the findings *)

(** Break a program into its operations, proving each with [tac]. *)
Ltac ops_by tac :=
  repeat (cbv beta;
    lazymatch goal with
    | |- all_ops _ (ret _ _) => apply all_ops_ret
    | |- all_ops _ (raise _ _) => apply all_ops_raise
    | |- all_ops _ (lift _ _) => apply all_ops_lift
    | |- all_ops _ (get _) => apply all_ops_get
    | |- all_ops _ (put _ _) => apply all_ops_put
    | |- all_ops _ (perform _ _) => apply all_ops_perform; tac
    | |- all_ops _ (print _ _) => apply all_ops_perform_; tac
    | |- all_ops _ (print_exn _ _) => apply all_ops_perform_; tac
    | |- all_ops _ (time_sleep _ _) => apply all_ops_perform_; tac
    | |- all_ops _ (yield _ _) => apply all_ops_perform_; tac
    | |- all_ops _ (bind (lift _) _ _) => apply all_ops_lift_bind; intros ? ?
    | |- all_ops _ (bind _ _ _) => apply all_ops_bind; [|intros ? ?]
    | |- all_ops _ (try_except _ _ _) => apply all_ops_try_except; [|intros ? ?]
    | |- all_ops _ (for_each _ _ _) => apply all_ops_for_each; intros ? ?
    | |- all_ops _ (for_enumerate _ _ _ _) => apply all_ops_for_enumerate; intros ? ? ?
    | |- all_ops _ (if ?b then _ else _) => destruct b
    | |- all_ops _ ((if ?b then _ else _) _) => destruct b
    | |- all_ops _ (match ?x with Some _ => _ | None => _ end _) => destruct x
    | |- all_ops _ ((let _ := _ in _) _) => cbv zeta
    | |- all_ops _ (let _ := _ in _) => cbv zeta
    end).

Section FindingsMore.
Context `{RT : Runtime}.

Lemma registered_checks_read_only service check a r p cache :
  In (service, check) registered_checks ->
  all_ops read_only (check a r p cache).
Proof.
  unfold registered_checks. simpl.
  intros [H|[H|[H|[H|[]]]]]; injection H as _ <-.
  - unfold DAX.dax_encryption_at_rest_check, DAX.describe_clusters, cache_setitem.
    ops_by ltac:(simpl; auto).
  - unfold DAX.dax_encryption_in_transit_check, DAX.describe_clusters, cache_setitem.
    ops_by ltac:(simpl; auto).
  - unfold EC2ASM.ec2_attack_surface_open_tcp_port_check, EC2ASM.ec2_paginate, cache_setitem,
      EC2ASM.ec2_attack_surface_open_tcp_port_check_instance, EC2ASM.scan_host,
      try_except_KeyError.
    ops_by ltac:(simpl; auto).
  - unfold EC2ASM.elbv2_attack_surface_open_tcp_port_check, EC2ASM.describe_load_balancers,
      cache_setitem, EC2ASM.elbv2_attack_surface_open_tcp_port_check_lb, EC2ASM.scan_host,
      try_except_KeyError.
    ops_by ltac:(simpl; auto).
Qed.

(** X4.  Whatever the account answers, a registered check performs nothing but
    its listing, scans, reads of the clock, prints and findings. *)
Theorem X4_checks_are_read_only {W} (h : handler W) (w : W) service check a r p cache :
  In (service, check) registered_checks ->
  Forall (fun ev => read_only (fst ev)) (trace (run h (check a r p cache) w)).
Proof.
  intros Hin.
  apply (always_run h _ (fun tr _ => Forall (fun ev => read_only (fst ev)) tr)).
  apply all_ops_always. by eapply registered_checks_read_only.
Qed.


Lemma dax_at_rest_header iso a r p cluster f :
  DAX.dax_encryption_at_rest_check_cluster iso a r p cluster = Ok f ->
  canonical_header a r p iso f.
Proof.
  unfold DAX.dax_encryption_at_rest_check_cluster. intros H.
  destruct (py_getitem cluster (PyStr "ClusterName")) as [name|] eqn:E1; [simpl in H|discriminate].
  destruct (py_getitem cluster (PyStr "ClusterArn")) as [arn|] eqn:E2; [simpl in H|discriminate].
  destruct (DAX.dax_encryption_at_rest_check_guard cluster) as [failing|] eqn:E3; [simpl in H|discriminate].
  destruct failing;
    [unfold DAX.dax_encryption_at_rest_check_failing in H
    |unfold DAX.dax_encryption_at_rest_check_passing in H];
    rinv H; subst f; unfold canonical_header; repeat split; try reflexivity;
    eexists; split; reflexivity.
Qed.

Lemma dax_in_transit_header iso a r p cluster f :
  DAX.dax_encryption_in_transit_check_cluster iso a r p cluster = Ok f ->
  canonical_header a r p iso f.
Proof.
  unfold DAX.dax_encryption_in_transit_check_cluster. intros H.
  destruct (py_getitem cluster (PyStr "ClusterName")) as [name|] eqn:E1; [simpl in H|discriminate].
  destruct (py_getitem cluster (PyStr "ClusterArn")) as [arn|] eqn:E2; [simpl in H|discriminate].
  destruct (DAX.dax_encryption_in_transit_check_guard cluster) as [failing|] eqn:E3; [simpl in H|discriminate].
  destruct failing;
    [unfold DAX.dax_encryption_in_transit_check_failing in H
    |unfold DAX.dax_encryption_in_transit_check_passing in H];
    rinv H; subst f; unfold canonical_header; repeat split; try reflexivity;
    eexists; split; reflexivity.
Qed.

Lemma ec2_port_header iso a r p iid iarn ity iim sub vpc launched index port f :
  EC2ASM.ec2_attack_surface_open_tcp_port_check_port
    iso a r p iid iarn ity iim sub vpc launched index port = Ok f ->
  canonical_header a r p iso f.
Proof.
  unfold EC2ASM.ec2_attack_surface_open_tcp_port_check_port. intros H.
  destruct (py_getitem port (PyStr "portid")) as [portid|]; [simpl in H|discriminate].
  destruct (py_int portid) as [portNumber|]; [simpl in H|discriminate].
  destruct (EC2ASM.port_service_name port portNumber) as [serviceName|]; [simpl in H|discriminate].
  destruct (py_getitem port (PyStr "reason")) as [reason|]; [simpl in H|discriminate].
  destruct (py_getitem port (PyStr "state")) as [state|]; [simpl in H|discriminate].
  destruct (String.eqb (py_str state) "open");
    [unfold EC2ASM.ec2_attack_surface_open_tcp_port_check_failing in H
    |unfold EC2ASM.ec2_attack_surface_open_tcp_port_check_passing in H];
    rinv H; subst f; unfold canonical_header; repeat split; try reflexivity;
    eexists; split; reflexivity.
Qed.

Lemma elbv2_port_header iso a r p arn name dns ty scheme vpc ipt index port f :
  EC2ASM.elbv2_attack_surface_open_tcp_port_check_port
    iso a r p arn name dns ty scheme vpc ipt index port = Ok f ->
  canonical_header a r p iso f.
Proof.
  unfold EC2ASM.elbv2_attack_surface_open_tcp_port_check_port. intros H.
  destruct (py_getitem port (PyStr "portid")) as [portid|]; [simpl in H|discriminate].
  destruct (py_int portid) as [portNumber|]; [simpl in H|discriminate].
  destruct (EC2ASM.port_service_name port portNumber) as [serviceName|]; [simpl in H|discriminate].
  destruct (py_getitem port (PyStr "reason")) as [reason|]; [simpl in H|discriminate].
  destruct (py_getitem port (PyStr "state")) as [state|]; [simpl in H|discriminate].
  destruct (String.eqb (py_str state) "open");
    [unfold EC2ASM.elbv2_attack_surface_open_tcp_port_check_failing in H
    |unfold EC2ASM.elbv2_attack_surface_open_tcp_port_check_passing in H];
    rinv H; subst f; unfold canonical_header; repeat split; try reflexivity;
    eexists; split; reflexivity.
Qed.

Lemma registered_checks_header service check a r p cache :
  In (service, check) registered_checks ->
  always (check a r p cache) (fun tr _ =>
    forall time, head tr = Some (UtcNow, Ok time) ->
      Forall (canonical_header a r p time) (yielded tr)).
Proof.
  assert (forall (rest : pyval -> M (gmap string pyval) unit),
            (forall time s, all_ops (yields_only (canonical_header a r p time)) (rest time s)) ->
            always ((iso8601Time <- perform UtcNow ;; rest iso8601Time) cache)
              (fun tr _ => forall time, head tr = Some (UtcNow, Ok time) ->
                 Forall (canonical_header a r p time) (yielded tr))) as Hgen.
  { intros rest Hrest. mred. intros [t|e]; mred.
    - eapply always_mono; [|apply all_ops_always, (Hrest t)].
      intros tr res Hall time [= <-]. cbn [yielded]. by apply yielded_Forall.
    - intros time [=]. }
  unfold registered_checks. simpl.
  intros [H|[H|[H|[H|[]]]]]; injection H as _ <-.
  - refine (Hgen (fun iso8601Time =>
             response <- DAX.describe_clusters ;;
             clusters <- lift (py_getitem response (PyStr "Clusters")) ;;
             clusters <- lift (py_iter clusters) ;;
             for_each clusters (fun cluster =>
               finding <- lift (DAX.dax_encryption_at_rest_check_cluster iso8601Time a r p cluster) ;;
               yield finding)) _).
    intros time s. unfold DAX.describe_clusters, cache_setitem.
    ops_by ltac:(first [exact I | cbn [yields_only]; eapply dax_at_rest_header; eassumption]).
  - refine (Hgen (fun iso8601Time =>
             response <- DAX.describe_clusters ;;
             clusters <- lift (py_getitem response (PyStr "Clusters")) ;;
             clusters <- lift (py_iter clusters) ;;
             for_each clusters (fun cluster =>
               finding <- lift (DAX.dax_encryption_in_transit_check_cluster iso8601Time a r p cluster) ;;
               yield finding)) _).
    intros time s. unfold DAX.describe_clusters, cache_setitem.
    ops_by ltac:(first [exact I | cbn [yields_only]; eapply dax_in_transit_header; eassumption]).
  - refine (Hgen (fun iso8601Time =>
             instances <- EC2ASM.ec2_paginate ;;
             instances <- lift (py_iter instances) ;;
             for_each instances
               (EC2ASM.ec2_attack_surface_open_tcp_port_check_instance iso8601Time a r p)) _).
    intros time s.
    unfold EC2ASM.ec2_paginate, cache_setitem,
      EC2ASM.ec2_attack_surface_open_tcp_port_check_instance, EC2ASM.scan_host,
      try_except_KeyError.
    ops_by ltac:(first [exact I | cbn [yields_only]; eapply ec2_port_header; eassumption]).
  - refine (Hgen (fun iso8601Time =>
             response <- EC2ASM.describe_load_balancers ;;
             lbs <- lift (py_getitem response (PyStr "LoadBalancers")) ;;
             lbs <- lift (py_iter lbs) ;;
             for_each lbs
               (EC2ASM.elbv2_attack_surface_open_tcp_port_check_lb iso8601Time a r p)) _).
    intros time s.
    unfold EC2ASM.describe_load_balancers, cache_setitem,
      EC2ASM.elbv2_attack_surface_open_tcp_port_check_lb, EC2ASM.scan_host,
      try_except_KeyError.
    ops_by ltac:(first [exact I | cbn [yields_only]; eapply elbv2_port_header; eassumption]).
Qed.

(** X5.  Every finding of a run of a registered check starts with the same
    fields, and its three timestamps are the one time the check read from the
    clock, as its first operation. *)
Theorem X5_findings_share_header_and_time {W} (h : handler W) (w : W)
    service check a r p cache time :
  In (service, check) registered_checks ->
  head (trace (run h (check a r p cache) w)) = Some (UtcNow, Ok time) ->
  Forall (canonical_header a r p time) (yielded (trace (run h (check a r p cache) w))).
Proof.
  intros Hin. revert time.
  apply (always_run h _ (fun tr _ => forall time, head tr = Some (UtcNow, Ok time) ->
           Forall (canonical_header a r p time) (yielded tr))).
  by eapply registered_checks_header.
Qed.


(** Compare two findings field by field. *)
Ltac same_fields Hk :=
  intros ? Hk; cbn [assoc];
  repeat match goal with
  | |- context [String.eqb ?k ?s] =>
      destruct (String.eqb_spec k s);
      [ subst; first [ reflexivity | exfalso; apply Hk; simpl; tauto ] | ]
  end;
  reflexivity.

(** The findings of the two branches of a check, from the same inputs. *)
Ltac branches_agree H1 H2 :=
  rinv H1; cbn [rbind] in H2;
  repeat match goal with
  | E : py_getitem _ _ = Ok _ |- _ => rewrite E in H2; cbn [rbind] in H2
  | E : parse_isoformat _ = Ok _ |- _ => rewrite E in H2; cbn [rbind] in H2
  end;
  injection H2 as <-; subst;
  eexists _, _; split; [reflexivity|]; split; [reflexivity|];
  split; [reflexivity|]; split; [|reflexivity];
  let Hk := fresh "Hk" in same_fields Hk.

(** X6.  In each DAX check the finding of the failing branch and the finding of
    the passing branch, built from the same cluster, have the same fields and
    differ at most in Severity, Description, Compliance.Status, Workflow and
    RecordState; the related requirements are the same. *)
Theorem X6_dax_branches_agree cluster name arn iso a r p :
  (forall f1 f2,
     DAX.dax_encryption_at_rest_check_failing cluster name arn iso a r p = Ok f1 ->
     DAX.dax_encryption_at_rest_check_passing cluster name arn iso a r p = Ok f2 ->
     same_but_verdict f1 f2) /\
  (forall f1 f2,
     DAX.dax_encryption_in_transit_check_failing cluster name arn iso a r p = Ok f1 ->
     DAX.dax_encryption_in_transit_check_passing cluster name arn iso a r p = Ok f2 ->
     same_but_verdict f1 f2).
Proof.
  split; intros f1 f2 H1 H2.
  - unfold DAX.dax_encryption_at_rest_check_failing in H1.
    unfold DAX.dax_encryption_at_rest_check_passing in H2.
    branches_agree H1 H2.
  - unfold DAX.dax_encryption_in_transit_check_failing in H1.
    unfold DAX.dax_encryption_in_transit_check_passing in H2.
    branches_agree H1 H2.
Qed.

(** X7.  The same for the two attack-surface checks, for a scanned port. *)
Theorem X7_attack_surface_branches_agree iso a r p checkIdNumber serviceName reason portNumber :
  (forall iid iarn ity iim sub vpc launched f1 f2,
     EC2ASM.ec2_attack_surface_open_tcp_port_check_failing iso a r p
       iid iarn ity iim sub vpc launched checkIdNumber serviceName portNumber = Ok f1 ->
     EC2ASM.ec2_attack_surface_open_tcp_port_check_passing iso a r p
       iid iarn ity iim sub vpc launched checkIdNumber serviceName reason portNumber = Ok f2 ->
     same_but_verdict f1 f2) /\
  (forall arn name dns ty scheme vpc ipt f1 f2,
     EC2ASM.elbv2_attack_surface_open_tcp_port_check_failing iso a r p
       arn name dns ty scheme vpc ipt checkIdNumber serviceName portNumber = Ok f1 ->
     EC2ASM.elbv2_attack_surface_open_tcp_port_check_passing iso a r p
       arn name dns ty scheme vpc ipt checkIdNumber serviceName reason portNumber = Ok f2 ->
     same_but_verdict f1 f2).
Proof.
  split.
  - intros iid iarn ity iim sub vpc launched f1 f2 H1 H2.
    unfold EC2ASM.ec2_attack_surface_open_tcp_port_check_failing in H1.
    unfold EC2ASM.ec2_attack_surface_open_tcp_port_check_passing in H2.
    branches_agree H1 H2.
  - intros arn name dns ty scheme vpc ipt f1 f2 H1 H2.
    unfold EC2ASM.elbv2_attack_surface_open_tcp_port_check_failing in H1.
    unfold EC2ASM.elbv2_attack_surface_open_tcp_port_check_passing in H2.
    branches_agree H1 H2.
Qed.

Lemma py_eqb_None (v : pyval) : py_eqb v PyNone = true <-> v = PyNone.
Proof. destruct v; simpl; split; intros H; try discriminate; congruence. Qed.

(** X8.  [dax_encryption_in_transit_check] fails a cluster exactly when its
    ClusterEndpointEncryptionType is the string NONE. *)
Theorem X8_in_transit_fails_iff_none iso a r p cluster f :
  DAX.dax_encryption_in_transit_check_cluster iso a r p cluster = Ok f ->
  exists encryptionType,
    py_getitem cluster (PyStr "ClusterEndpointEncryptionType") = Ok encryptionType /\
    (encryptionType = PyStr "NONE" -> failing_status f) /\
    (encryptionType <> PyStr "NONE" -> passing_status f).
Proof.
  intros H. apply dax_in_transit_status in H as (failing & Hg & Hs).
  unfold DAX.dax_encryption_in_transit_check_guard in Hg.
  destruct (py_getitem cluster (PyStr "ClusterEndpointEncryptionType")) as [t|] eqn:E;
    [cbn [rbind] in Hg|discriminate].
  injection Hg as <-. exists t. split; [done|].
  destruct (py_eqb t (PyStr "NONE")) eqn:E1; cbn [status_of_verdict] in Hs.
  - apply py_eqb_str in E1. split; [done|congruence].
  - split; [|done]. intros ->. simpl in E1. discriminate.
Qed.

Lemma upper_ascii_not_lower c : is_lower (upper_ascii c) = false.
Proof. destruct c as [[] [] [] [] [] [] [] []]; reflexivity. Qed.

Lemma upper_ascii_idempotent c : upper_ascii (upper_ascii c) = upper_ascii c.
Proof. destruct c as [[] [] [] [] [] [] [] []]; reflexivity. Qed.

Lemma upper_ascii_is_ascii c :
  (nat_of_ascii c <? 128)%nat = true -> (nat_of_ascii (upper_ascii c) <? 128)%nat = true.
Proof. destruct c as [[] [] [] [] [] [] [] []]; intros H; first [exact H | reflexivity]. Qed.

Lemma ascii_upper_idempotent s : ascii_upper (ascii_upper s) = ascii_upper s.
Proof. induction s as [|c s IH]; simpl; [done|]. by rewrite upper_ascii_idempotent, IH. Qed.

Lemma ascii_upper_no_lower s :
  forallb (fun c => negb (is_lower c)) (list_ascii_of_string (ascii_upper s)) = true.
Proof. induction s as [|c s IH]; simpl; [done|]. by rewrite upper_ascii_not_lower, IH. Qed.

Lemma ascii_upper_is_ascii s : is_ascii_str s = true -> is_ascii_str (ascii_upper s) = true.
Proof.
  unfold is_ascii_str. induction s as [|c s IH]; [done|].
  cbn [list_ascii_of_string ascii_upper forallb].
  intros H. apply andb_true_iff in H as [Hc Hs].
  by rewrite (upper_ascii_is_ascii _ Hc), (IH Hs).
Qed.

(** What [upper()] gives for an ASCII name: a string without a lower-case
    letter, which [upper()] leaves as it is. *)
Lemma upper_of_ascii s :
  upper_contract -> is_ascii_str s = true ->
  str_upper (str_upper s) = str_upper s /\
  forallb (fun c => negb (is_lower c)) (list_ascii_of_string (str_upper s)) = true.
Proof.
  intros Hupper Hs. rewrite (Hupper s Hs).
  rewrite (Hupper _ (ascii_upper_is_ascii _ Hs)).
  split; [apply ascii_upper_idempotent|apply ascii_upper_no_lower].
Qed.

(** X9.  For a port whose service name, as nmap reports it, is a string of
    ASCII characters, and a runtime whose [upper()] replaces a-z by A-Z on
    such strings: the service name that goes into the Id and the title of the
    finding has no lower-case ASCII letter and is left as it is by [upper()],
    so names that differ only in the case of their letters give the same Id.
    Nothing is claimed for names with other characters. *)
Theorem X9_port_service_name_upper p portNumber serviceName :
  upper_contract ->
  (forall name, py_path p [PyStr "service"; PyStr "name"] = Ok name ->
                is_ascii_str (py_str name) = true) ->
  EC2ASM.port_service_name p portNumber = Ok serviceName ->
  str_upper serviceName = serviceName /\
  forallb (fun c => negb (is_lower c)) (list_ascii_of_string serviceName) = true.
Proof.
  intros Hupper Hascii. unfold EC2ASM.port_service_name.
  assert (forall s, is_ascii_str s = true -> ascii_upper s = s ->
            str_upper s = s /\
            forallb (fun c => negb (is_lower c)) (list_ascii_of_string s) = true) as Hfixed.
  { intros s Hs Hup. rewrite (Hupper s Hs). split; [exact Hup|].
    rewrite <- Hup. apply ascii_upper_no_lower. }
  destruct (portNumber =? 8089); [intros [= <-]; by apply Hfixed|].
  destruct (portNumber =? 10250); [intros [= <-]; by apply Hfixed|].
  destruct (portNumber =? 5672); [intros [= <-]; by apply Hfixed|].
  destruct (portNumber =? 4040); [intros [= <-]; by apply Hfixed|].
  specialize (Hascii) as Hname. cbn [py_path] in Hname.
  destruct (py_getitem p (PyStr "service")) as [service|]; [cbn [rbind] in *|discriminate].
  destruct (py_getitem service (PyStr "name")) as [name|]; [cbn [rbind] in *|discriminate].
  intros [= <-]. apply upper_of_ascii; [exact Hupper|]. by apply Hname.
Qed.

(** X10.  An instance is passed over for lack of a public address exactly when the
    PublicIpAddress key is missing or its value is [None]; in particular an
    empty string is not passed over. *)
Theorem X10_public_address_skipped_iff i :
  py_or (PyStr "") PyNone = PyNone /\
  (EC2ASM.instance_host_ip i = Ok None <->
   (exists k, py_getitem i (PyStr "PublicIpAddress") = Raise (KeyError k)) \/
   py_getitem i (PyStr "PublicIpAddress") = Ok PyNone) /\
  (py_getitem i (PyStr "PublicIpAddress") = Ok (PyStr "") ->
   EC2ASM.instance_host_ip i = Ok (Some (PyStr ""))).
Proof.
  split; [reflexivity|]. unfold EC2ASM.instance_host_ip.
  change (py_or (PyStr "") PyNone) with PyNone.
  destruct (py_getitem i (PyStr "PublicIpAddress")) as [v|e].
  - split; [|by intros [= ->]].
    destruct (py_eqb v PyNone) eqn:E.
    + apply py_eqb_None in E. subst v. split; [by right|done].
    + split; [discriminate|]. intros [[k [=]]|[= ->]]. discriminate.
  - split; [|discriminate]. destruct e; simpl; split; try discriminate;
      try (intros [[k [=]]|[=]]); eauto.
Qed.

End FindingsMore.

(** ** Further properties: the loops of the checks *)

Section LoopsMore.
Context `{RT : Runtime}.

Lemma for_each_yields {S} (build : pyval -> result pyval) (l : list pyval)
    (body : pyval -> M S unit) (s : S) :
  (forall x s', body x s' = (finding <- lift (build x) ;; yield finding) s') ->
  always (for_each l body s) (fun tr res =>
    map fst tr = map Yield (yields_until_error (map build l)) /\
    res = (first_error (map build l), s)).
Proof.
  intros Hbody. induction l as [|x l IH]; cbn [for_each map].
  - by cbn.
  - unfold bind at 1. rewrite Hbody. mred.
    destruct (build x) as [f|e]; mred; [|by cbn].
    intros r. eapply always_mono; [|exact IH].
    intros tr res [Htr ->]. cbn [map fst yields_until_error first_error]. by rewrite Htr.
Qed.

Lemma yielded_of_yields tr fs : map fst tr = map Yield fs -> yielded tr = fs.
Proof.
  revert fs. induction tr as [|[o r] tr IH]; intros [|f fs]; simpl; try done.
  intros [= -> H]. by rewrite (IH fs).
Qed.

Lemma calls_to_of_yields method tr fs : map fst tr = map Yield fs -> calls_to method tr = [].
Proof.
  revert fs. induction tr as [|[o r] tr IH]; intros [|f fs]; simpl; try done.
  intros [= -> H]. by apply (IH fs).
Qed.

(** The shape of the two DAX checks, over the function that builds the
    finding of a cluster. *)
Lemma dax_check_yields (build : pyval -> pyval -> result pyval) cache :
  always ((iso8601Time <- perform UtcNow ;;
           response <- DAX.describe_clusters ;;
           clusters <- lift (py_getitem response (PyStr "Clusters")) ;;
           clusters <- lift (py_iter clusters) ;;
           for_each clusters (fun cluster =>
             finding <- lift (build iso8601Time cluster) ;;
             yield finding)) cache)
    (fun tr res =>
       forall time listing clusters,
         head tr = Some (UtcNow, Ok time) ->
         listing_seen "describe_clusters" "describe_clusters" cache tr = Some listing ->
         py_getitem listing (PyStr "Clusters") = Ok (PyList clusters) ->
         yielded tr = yields_until_error (map (build time) clusters) /\
         fst res = first_error (map (build time) clusters)).
Proof.
  mred. intros [t|e]; mred; [|by intros ? ? ? [=]].
  unfold DAX.describe_clusters. mred. unfold listing_seen.
  destruct (truthy (cache_get cache "describe_clusters")) eqn:Ht; mred.
  - destruct (py_getitem (cache_get cache "describe_clusters") (PyStr "Clusters"))
      as [cl|e] eqn:Hcl; mred; [|intros ? ? ? _ [= <-]; congruence].
    destruct (py_iter cl) as [l|e] eqn:Hl; mred.
    2: { intros ? ? ? _ [= <-] Hc. rewrite Hc in Hcl. injection Hcl as <-. discriminate. }
    eapply always_mono; [|apply (for_each_yields (build t)); reflexivity].
    intros tr res [Htr ->] time listing clusters [= <-] [= <-] Hc.
    rewrite Hc in Hcl. injection Hcl as <-. injection Hl as <-.
    cbn [yielded fst]. by rewrite (yielded_of_yields _ _ Htr).
  - intros [v|e]; mred; [|by intros ? ? ? _ [=]].
    rewrite cache_getitem_insert. mred.
    destruct (py_getitem v (PyStr "Clusters")) as [cl|e] eqn:Hcl; mred;
      [|intros ? ? ? _ [= <-]; congruence].
    destruct (py_iter cl) as [l|e] eqn:Hl; mred.
    2: { intros ? ? ? _ [= <-] Hc. rewrite Hc in Hcl. injection Hcl as <-. discriminate. }
    eapply always_mono; [|apply (for_each_yields (build t)); reflexivity].
    intros tr res [Htr ->] time listing clusters [= <-] [= <-] Hc.
    rewrite Hc in Hcl. injection Hcl as <-. injection Hl as <-.
    cbn [yielded fst]. by rewrite (yielded_of_yields _ _ Htr).
Qed.

(** X11.  A DAX check yields one finding for each cluster of the listing, in the
    order of the listing, up to the first cluster whose finding cannot be
    built; the exception of that cluster ends the check, and the clusters
    after it get no finding. *)
Theorem X11_dax_checks_yield_in_order {W} (h : handler W) (w : W) a r p cache time listing clusters :
  let x := run h (DAX.dax_encryption_at_rest_check a r p cache) w in
  let y := run h (DAX.dax_encryption_in_transit_check a r p cache) w in
  py_getitem listing (PyStr "Clusters") = Ok (PyList clusters) ->
  (head (trace x) = Some (UtcNow, Ok time) ->
   listing_seen "describe_clusters" "describe_clusters" cache (trace x) = Some listing ->
   yielded (trace x) =
     yields_until_error (map (DAX.dax_encryption_at_rest_check_cluster time a r p) clusters) /\
   fst (outcome x) =
     first_error (map (DAX.dax_encryption_at_rest_check_cluster time a r p) clusters)) /\
  (head (trace y) = Some (UtcNow, Ok time) ->
   listing_seen "describe_clusters" "describe_clusters" cache (trace y) = Some listing ->
   yielded (trace y) =
     yields_until_error (map (DAX.dax_encryption_in_transit_check_cluster time a r p) clusters) /\
   fst (outcome y) =
     first_error (map (DAX.dax_encryption_in_transit_check_cluster time a r p) clusters)).
Proof.
  intros x y Hc. subst x y. split; intros Hhead Hseen.
  - pose proof (always_run h _ _ w
                  (dax_check_yields
                     (fun iso cluster => DAX.dax_encryption_at_rest_check_cluster iso a r p cluster)
                     cache)) as H.
    exact (H time listing clusters Hhead Hseen Hc).
  - pose proof (always_run h _ _ w
                  (dax_check_yields
                     (fun iso cluster => DAX.dax_encryption_in_transit_check_cluster iso a r p cluster)
                     cache)) as H.
    exact (H time listing clusters Hhead Hseen Hc).
Qed.

End LoopsMore.

(** ** Further properties: the scans *)

Section ScansMore.
Context `{RT : Runtime}.

Lemma instance_host_ip_Some i hostIp :
  EC2ASM.instance_host_ip i = Ok (Some hostIp) ->
  py_getitem i (PyStr "PublicIpAddress") = Ok hostIp /\ hostIp <> PyNone.
Proof.
  unfold EC2ASM.instance_host_ip. change (py_or (PyStr "") PyNone) with PyNone.
  destruct (py_getitem i (PyStr "PublicIpAddress")) as [v|e].
  - destruct (py_eqb v PyNone) eqn:E; [discriminate|]. intros [= <-]. split; [done|].
    intros ->. discriminate.
  - by destruct (is_KeyError e).
Qed.

Lemma str_field_inv (v : pyval) (key s : string) :
  (let? x := py_getitem v (PyStr key) in Ok (py_str x)) = Ok s ->
  exists x, py_getitem v (PyStr key) = Ok x /\ s = py_str x.
Proof.
  destruct (py_getitem v (PyStr key)) as [x|]; [cbn [rbind]|discriminate].
  intros [= <-]. eauto.
Qed.

(** The remainder of the work on a resource once the scan has been answered:
    findings only. *)
Lemma port_loop_ops {S} (Q : op -> Prop) (build : Z -> pyval -> result pyval)
    (ports : list pyval) (i : Z) (s : S) :
  (forall f, Q (Yield f)) ->
  all_ops Q (for_enumerate i ports (fun index p =>
               finding <- lift (build index p) ;; yield finding) s).
Proof.
  intros HQ. apply all_ops_for_enumerate. intros index p s'.
  apply all_ops_lift_bind. intros f _. apply all_ops_perform_, HQ.
Qed.

Lemma ec2_instance_scan_target {S} iso a r p i (s : S) :
  all_ops (ec2_scan_target i)
    (EC2ASM.ec2_attack_surface_open_tcp_port_check_instance iso a r p i s).
Proof.
  unfold EC2ASM.ec2_attack_surface_open_tcp_port_check_instance.
  do 7 (apply all_ops_lift_bind; intros ? ?).
  match goal with H : EC2ASM.instance_host_ip i = Ok ?x |- _ => destruct x as [hostIp|] end;
    [|apply all_ops_ret].
  match goal with H : EC2ASM.instance_host_ip i = Ok _ |- _ =>
    apply instance_host_ip_Some in H as [Hip Hnone] end.
  apply all_ops_bind.
  - unfold EC2ASM.scan_host, try_except_KeyError. apply all_ops_try_except.
    + apply all_ops_bind; [by apply all_ops_perform|]. intros results s1.
      apply all_ops_bind; [by apply all_ops_perform_|]. intros _ s2. apply all_ops_ret.
    + intros e s1. destruct (is_KeyError e); [apply all_ops_ret|apply all_ops_raise].
  - intros scanner s1. destruct (py_eqb scanner PyNone); [apply all_ops_ret|].
    do 2 (apply all_ops_lift_bind; intros ? ?). by apply port_loop_ops.
Qed.

Lemma elbv2_lb_scan_target {S} iso a r p lb (s : S) :
  all_ops (elbv2_scan_target lb)
    (EC2ASM.elbv2_attack_surface_open_tcp_port_check_lb iso a r p lb s).
Proof.
  unfold EC2ASM.elbv2_attack_surface_open_tcp_port_check_lb.
  apply all_ops_lift_bind; intros arn Harn.
  apply all_ops_lift_bind; intros name Hname.
  apply all_ops_lift_bind; intros dns Hdns.
  apply all_ops_lift_bind; intros ty Hty.
  apply all_ops_lift_bind; intros scheme Hscheme.
  apply all_ops_lift_bind; intros vpc Hvpc.
  apply all_ops_lift_bind; intros ipt Hipt.
  destruct (String.eqb scheme "internet-facing" && String.eqb ty "application") eqn:E;
    [|apply all_ops_ret].
  apply andb_true_iff in E as [E1 E2]. apply String.eqb_eq in E1, E2.
  apply str_field_inv in Hdns as (dns' & Hdns & ->).
  apply str_field_inv in Hscheme as (scheme' & Hscheme & Hs).
  apply str_field_inv in Hty as (ty' & Hty & Ht).
  apply all_ops_bind.
  - unfold EC2ASM.scan_host, try_except_KeyError. apply all_ops_try_except.
    + apply all_ops_bind.
      * apply all_ops_perform. exists dns', scheme', ty'. repeat split; congruence.
      * intros results s1.
        apply all_ops_bind; [by apply all_ops_perform_|]. intros _ s2. apply all_ops_ret.
    + intros e s1. destruct (is_KeyError e); [apply all_ops_ret|apply all_ops_raise].
  - intros scanner s1. destruct (py_eqb scanner PyNone); [apply all_ops_ret|].
    do 3 (apply all_ops_lift_bind; intros ? ?). by apply port_loop_ops.
Qed.

(** X12.  Whatever is answered, the EC2 check scans nothing but the value of the
    PublicIpAddress of an instance, which is then not [None]; and the ELBv2
    check scans nothing but the DNS name of a load balancer whose scheme is
    internet-facing and whose type is application.  The arguments of every
    scan are the fixed list of ports. *)
Theorem X12_scans_hit_public_targets_only {W} (h : handler W) (w : W) {S} iso a r p (s : S) :
  (forall i,
     Forall (fun ev => ec2_scan_target i (fst ev))
       (trace (run h (EC2ASM.ec2_attack_surface_open_tcp_port_check_instance iso a r p i s) w))) /\
  (forall lb,
     Forall (fun ev => elbv2_scan_target lb (fst ev))
       (trace (run h (EC2ASM.elbv2_attack_surface_open_tcp_port_check_lb iso a r p lb s) w))).
Proof.
  split.
  - intros i.
    apply (always_run h _ (fun tr _ => Forall (fun ev => ec2_scan_target i (fst ev)) tr)).
    apply all_ops_always, ec2_instance_scan_target.
  - intros lb.
    apply (always_run h _ (fun tr _ => Forall (fun ev => elbv2_scan_target lb (fst ev)) tr)).
    apply all_ops_always, elbv2_lb_scan_target.
Qed.

(** After the scan: the events of the loop over the ports are findings. *)
Lemma port_loop_no_scan {S} (build : Z -> pyval -> result pyval) ports (s : S)
    (post : list event -> result unit * S -> Prop) (pre : list event) :
  (forall tr res, Forall (fun ev => is_scan (fst ev) = false) tr -> post (pre ++ tr) res) ->
  always (for_enumerate 0 ports (fun index p =>
            finding <- lift (build index p) ;; yield finding) s)
    (fun tr res => post (pre ++ tr) res).
Proof.
  intros Hpost.
  eapply always_mono;
    [|apply all_ops_always, (port_loop_ops (fun o => is_scan o = false)); done].
  intros tr res Hall. apply Hpost. exact Hall.
Qed.

Lemma scan_failure_handled_ok {S} host args v o r (tr : list event) (res : result unit * S) :
  is_scan o = false ->
  Forall (fun ev => is_scan (fst ev) = false) tr ->
  scan_failure_handled ((NmapTcpScan host args, Ok v) :: (o, r) :: tr) res.
Proof.
  intros Ho Hall host' args' e [[=]|[[= -> _]|Hin]]; [discriminate|].
  rewrite List.Forall_forall in Hall. by specialize (Hall _ Hin).
Qed.

Lemma scan_then_findings_handled {S} host name (k : pyval -> M S unit) (s : S) :
  (forall scanner s', all_ops (fun o => is_scan o = false) (k scanner s')) ->
  always ((scanner <- EC2ASM.scan_host host name ;;
           if py_eqb scanner PyNone then ret tt else k scanner) s)
    scan_failure_handled.
Proof.
  intros Hk. unfold EC2ASM.scan_host, try_except_KeyError. mred.
  intros [results|e]; mred.
  - intros pr. destruct (py_eqb results PyNone); mred.
    + intros host' args' e [[=]|[[=]|[]]].
    + eapply always_mono; [|apply all_ops_always, Hk].
      intros tr res Hall. by apply scan_failure_handled_ok.
  - destruct (is_KeyError e) eqn:E; mred.
    + intros host' args' e' [[= _ _ <-]|[]]. by rewrite E.
    + intros host' args' e' [[= _ _ <-]|[]]. by rewrite E.
Qed.

Lemma ec2_instance_scan_failure {S} iso a r p i (s : S) :
  always (EC2ASM.ec2_attack_surface_open_tcp_port_check_instance iso a r p i s)
    scan_failure_handled.
Proof.
  unfold EC2ASM.ec2_attack_surface_open_tcp_port_check_instance. mred.
  repeat match goal with
  | |- always (pbind (Ret (?x, _)) _) _ =>
      destruct x eqn:?; mred; [|by intros ? ? ? []]
  | |- always (match ?x with Ok _ => _ | Raise _ => _ end) _ =>
      destruct x eqn:?; mred; [|by intros ? ? ? []]
  end.
  match goal with |- always (match ?x with Some _ => _ | None => _ end _) _ =>
    destruct x as [hostIp|]; [|by intros ? ? ? []] end.
  apply scan_then_findings_handled. intros scanner s'.
  do 2 (apply all_ops_lift_bind; intros ? ?). by apply port_loop_ops.
Qed.

Lemma elbv2_lb_scan_failure {S} iso a r p lb (s : S) :
  always (EC2ASM.elbv2_attack_surface_open_tcp_port_check_lb iso a r p lb s)
    scan_failure_handled.
Proof.
  unfold EC2ASM.elbv2_attack_surface_open_tcp_port_check_lb. mred.
  repeat match goal with
  | |- always (pbind (Ret (?x, _)) _) _ =>
      destruct x eqn:?; mred; [|by intros ? ? ? []]
  | |- always (match ?x with Ok _ => _ | Raise _ => _ end) _ =>
      destruct x eqn:?; mred; [|by intros ? ? ? []]
  end.
  match goal with |- always ((if ?b then _ else _) _) _ =>
    destruct b; [|by intros ? ? ? []] end.
  apply scan_then_findings_handled. intros scanner s'.
  do 3 (apply all_ops_lift_bind; intros ? ?). by apply port_loop_ops.
Qed.

(** X13.  When the scan of a resource raises, the resource gets no finding: a
    [KeyError] is swallowed and the work on the resource ends normally, so
    the loop of the check goes on with the next resource; any other
    exception of the scanner is raised to the caller of the check. *)
Theorem X13_failed_scan_gives_no_finding {W} (h : handler W) (w : W) {S} iso a r p (s : S)
    (resource : pyval) host args e :
  let x := run h (EC2ASM.ec2_attack_surface_open_tcp_port_check_instance
                    iso a r p resource s) w in
  let y := run h (EC2ASM.elbv2_attack_surface_open_tcp_port_check_lb
                    iso a r p resource s) w in
  (In (NmapTcpScan host args, Raise e) (trace x) ->
   yielded (trace x) = [] /\
   fst (outcome x) = (if is_KeyError e then Ok tt else Raise e)) /\
  (In (NmapTcpScan host args, Raise e) (trace y) ->
   yielded (trace y) = [] /\
   fst (outcome y) = (if is_KeyError e then Ok tt else Raise e)).
Proof.
  intros x y. subst x y. split; intros Hin.
  - exact (always_run h _ _ w (ec2_instance_scan_failure iso a r p resource s)
             host args e Hin).
  - exact (always_run h _ _ w (elbv2_lb_scan_failure iso a r p resource s)
             host args e Hin).
Qed.
End ScansMore.

(** ** Further properties: the playbook *)

Section PlaybookMore.
Context `{RT : Runtime}.

Lemma lambda_handler_ops environ event s :
  all_ops playbook_op (Playbook.lambda_handler environ event s).
Proof.
  unfold Playbook.lambda_handler, Playbook.remediate_resource,
    Playbook.cross_account_branch, Playbook.same_account_branch,
    Playbook.cross_account_pipeline, Playbook.same_account_pipeline.
  ops_by ltac:(first [exact I | reflexivity | cbn; tauto]).
Qed.

(** X16.  Whatever the event and whatever AWS answers, the playbook performs
    nothing but calls of nine API methods, each through a client of its own
    service (sts: get_caller_identity, assume_role; logs: create_log_group,
    describe_log_groups; iam: create_policy, create_role, attach_role_policy;
    ec2: create_flow_logs; securityhub: update_findings), prints, and pauses of
    five seconds.  It deletes nothing. *)
Theorem X16_playbook_calls_nine_methods {W} (h : handler W) (w : W) environ event :
  Forall (fun ev => playbook_op (fst ev))
    (trace (run h (Playbook.lambda_handler environ event tt) w)).
Proof.
  apply (always_run h _ (fun tr _ => Forall (fun ev => playbook_op (fst ev)) tr)).
  apply all_ops_always, lambda_handler_ops.
Qed.

Lemma str_at_2 v (k1 k2 : pyval) s :
  (let? a := py_getitem v k1 in
   let? b := py_getitem a k2 in
   Ok (py_str b)) = Ok s ->
  str_at v [k1; k2] = Ok s.
Proof.
  unfold str_at. cbn [py_path].
  destruct (py_getitem v k1) as [a|]; [cbn [rbind]|done].
  by destruct (py_getitem a k2).
Qed.

Lemma str_at_3 v (k1 k2 k3 : pyval) s :
  (let? a := py_getitem v k1 in
   let? b := py_getitem a k2 in
   let? c := py_getitem b k3 in
   Ok (py_str c)) = Ok s ->
  str_at v [k1; k2; k3] = Ok s.
Proof.
  unfold str_at. cbn [py_path].
  destruct (py_getitem v k1) as [a|]; [cbn [rbind]|done].
  destruct (py_getitem a k2) as [b|]; [cbn [rbind]|done].
  by destruct (py_getitem b k3).
Qed.

Ltac found := cbn [In]; repeat first [left; reflexivity | right].
Ltac read_answer := first [apply str_at_3; eassumption | apply str_at_2; eassumption].

Ltac request_leaf :=
  repeat split; intros Hm; try discriminate Hm;
  first
    [ reflexivity
    | eexists; reflexivity
    | eexists _, _; reflexivity
    | eexists _, _; split; [unfold describe_request; found|];
      split; [read_answer|]; split; reflexivity
    | eexists _, _, _, _, _, _; split; [found|]; split; [found|];
      split; [read_answer|]; split; [read_answer|]; split; reflexivity
    | eexists _, _, _, _, _; split; [unfold describe_request; found|]; split; [found|];
      split; [read_answer|]; split; [read_answer|]; repeat split ].

Lemma pipeline_requests logs iam ec2 securityhub fn findingId vpcId :
  always (Playbook.same_account_pipeline logs iam ec2 securityhub fn findingId vpcId tt)
    (fun tr _ => named_after vpcId tr /\ requests_follow_answers logs iam ec2 vpcId tr).
Proof.
  unfold Playbook.same_account_pipeline.
  walk.
  all: split; [unfold named_after | unfold requests_follow_answers].
  all: intros c m kw r' Hin; each_event Hin request_leaf.
Qed.

End PlaybookMore.

Section PlaybookNames.
Context `{RT : Runtime}.

(** X17.  In both copies of the pipeline and whatever AWS answers: the policy
    document of [create_policy] grants access to the ARN that
    [describe_log_groups] answered, followed by a star; [attach_role_policy]
    attaches the policy of the ARN that [create_policy] answered to the role of
    the name that [create_role] answered; and [create_flow_logs] delivers to
    the log group of the name that [describe_log_groups] answered, under the
    role of the ARN that [create_role] answered.  The names the pipeline
    chose itself are not used again: it goes by what AWS returned. *)
Theorem X17_requests_carry_answers {W} (h : handler W) (w : W)
    logs iam ec2 securityhub fn findingId vpcId :
  requests_follow_answers logs iam ec2 vpcId
    (trace (run h (Playbook.cross_account_pipeline logs iam ec2 securityhub
                     fn findingId vpcId tt) w)) /\
  requests_follow_answers logs iam ec2 vpcId
    (trace (run h (Playbook.same_account_pipeline logs iam ec2 securityhub
                     fn findingId vpcId tt) w)).
Proof.
  rewrite pipelines_equal.
  assert (forall p : prog (result unit * unit),
            always p (fun tr _ => requests_follow_answers logs iam ec2 vpcId tr) ->
            requests_follow_answers logs iam ec2 vpcId (trace (run h p w)))
    as Hrun by (intros p; apply (always_run h p (fun tr _ => _))).
  split; apply Hrun; (eapply always_mono; [|apply pipeline_requests]);
    by intros tr res [_ H].
Qed.

Lemma is_prefix_app old s : is_prefix old (old +:+ s) = true.
Proof. induction old as [|c old IH]; [done|]. simpl. by rewrite Ascii.eqb_refl. Qed.

Lemma str_replace_from_skip old new a s :
  str_replace_from old new (a +:+ s) (String.length a) = str_replace_from old new s 0.
Proof. induction a as [|c a IH]; [done|]. simpl. exact IH. Qed.

Lemma str_replace_prefix old s :
  old <> "" -> str_replace (old +:+ s) old "" = str_replace s old "".
Proof.
  destruct old as [|c old]; [done|]. intros _. unfold str_replace.
  change (String c old +:+ s) with (String c (old +:+ s)).
  cbn [str_replace_from].
  change (String c (old +:+ s)) with (String c old +:+ s).
  rewrite is_prefix_app. cbn [String.length]. rewrite Nat.sub_1_r. cbn [Nat.pred].
  by rewrite str_replace_from_skip.
Qed.

Lemma str_replace_absent old new s :
  occurs old s = false -> str_replace s old new = s.
Proof.
  unfold str_replace. induction s as [|c s IH]; [done|].
  cbn [occurs str_replace_from]. intros H. apply orb_false_iff in H as [-> H].
  by rewrite IH.
Qed.

Lemma vpc_arn_prefix region account vpc :
  vpc_arn region account vpc = vpc_arn region account "" +:+ vpc.
Proof.
  unfold vpc_arn.
  assert (forall a b c : string, (a +:+ b) +:+ c = a +:+ (b +:+ c)) as Hassoc.
  { intros a b c. induction a as [|x a IH]; [done|].
    change (String x ((a +:+ b) +:+ c) = String x (a +:+ (b +:+ c))). by rewrite IH. }
  by rewrite !Hassoc.
Qed.

Lemma named_after_nil vpcId : named_after vpcId [].
Proof. intros c m kw r []. Qed.

Lemma named_after_assume_role vpcId sts kw r tr :
  named_after vpcId tr -> named_after vpcId ((ApiCall sts "assume_role" kw, r) :: tr).
Proof.
  intros H c m kw' r' [Hin|Hin]; [|exact (H c m kw' r' Hin)].
  injection Hin as _ <- _ _. repeat split; intros Hm; discriminate Hm.
Qed.

Lemma remediate_resource_names sts securityhub awsRegion fn master findingId findingOwner
    resources :
  always (Playbook.remediate_resource sts securityhub awsRegion fn master
            findingId findingOwner resources tt)
    (fun tr _ =>
       forall resourceId, str_at resources [PyStr "Id"] = Ok resourceId ->
         named_after (str_replace resourceId (vpc_arn awsRegion findingOwner "") "") tr).
Proof.
  unfold Playbook.remediate_resource. mred.
  assert (forall resourceId,
            (let? x := py_getitem resources (PyStr "Id") in Ok (py_str x)) = Ok resourceId <->
            str_at resources [PyStr "Id"] = Ok resourceId) as Hid.
  { intros resourceId. unfold str_at. cbn [py_path].
    by destruct (py_getitem resources (PyStr "Id")). }
  destruct (let? x := py_getitem resources (PyStr "Id") in Ok (py_str x))
    as [resourceId|e] eqn:E; mred.
  2: { intros resourceId _. apply named_after_nil. }
  assert (forall tr, named_after
            (str_replace resourceId
               ("arn:aws:ec2:" +:+ awsRegion +:+ ":" +:+ findingOwner +:+ ":vpc/") "") tr ->
          forall resourceId', str_at resources [PyStr "Id"] = Ok resourceId' ->
            named_after (str_replace resourceId' (vpc_arn awsRegion findingOwner "") "") tr)
    as Hname.
  { intros tr Htr resourceId' H. apply Hid in H. by injection H as <-. }
  destruct (py_ne (PyStr findingOwner) master).
  - unfold Playbook.cross_account_branch. mred. intros r.
    destruct r as [member|e]; mred;
      [|intros; apply named_after_assume_role, named_after_nil].
    repeat match goal with
    | |- always (match ?x with Ok _ => _ | Raise _ => _ end) _ =>
        destruct x; mred; [|intros; apply named_after_assume_role, named_after_nil]
    | |- always (pbind (Ret (?x, _)) _) _ =>
        destruct x; mred; [|intros; apply named_after_assume_role, named_after_nil]
    end.
    rewrite pipelines_equal.
    eapply always_mono; [|apply pipeline_requests].
    intros tr res [Hnamed _]. apply Hname. by apply named_after_assume_role.
  - unfold Playbook.same_account_branch. cbv zeta.
    eapply always_mono; [|apply pipeline_requests].
    intros tr res [Hnamed _]. by apply Hname.
Qed.

(** X18.  The artifacts of a resource are named after what is left of its
    identifier once the prefix arn:aws:ec2:<region>:<owner>:vpc/ is taken out,
    with the region of the function and the owner of the finding: the log
    group VPCFlowLogs/<rest>, the policy VPCFlowLogsPolicy-<rest>, the role
    VPCFlowLogsRole-<rest>, and the flow logs are requested for the resource
    <rest>.  For the ARN of a VPC of that region and owner, the rest is the
    identifier of the VPC.  For an identifier in which the prefix does not
    occur, such as the ARN of a VPC of another region, nothing is taken out
    and the artifacts are named after, and the flow logs requested for, the
    whole identifier. *)
Theorem X18_artifacts_named_after_vpc {W} (h : handler W) (w : W)
    sts securityhub awsRegion fn masterAccountId findingId findingOwner resources resourceId :
  str_at resources [PyStr "Id"] = Ok resourceId ->
  let tr := trace (run h (Playbook.remediate_resource sts securityhub awsRegion fn
                            masterAccountId findingId findingOwner resources tt) w) in
  (forall vpc,
     resourceId = vpc_arn awsRegion findingOwner vpc ->
     occurs (vpc_arn awsRegion findingOwner "") vpc = false ->
     named_after vpc tr) /\
  (occurs (vpc_arn awsRegion findingOwner "") resourceId = false ->
   named_after resourceId tr).
Proof.
  intros Hid tr.
  assert (named_after (str_replace resourceId (vpc_arn awsRegion findingOwner "") "") tr)
    as Hnamed.
  { subst tr.
    by apply (always_run h _ (fun tr _ => forall resourceId, _ -> named_after _ tr) w
                (remediate_resource_names _ _ _ _ _ _ _ _)). }
  clearbody tr. split.
  - intros vpc -> Hvpc. rewrite vpc_arn_prefix, str_replace_prefix in Hnamed; [|done].
    by rewrite str_replace_absent in Hnamed.
  - intros Habsent. by rewrite str_replace_absent in Hnamed.
Qed.

End PlaybookNames.

Section PlaybookStart.
Context `{RT : Runtime}.

Lemma calls_to_none method (tr : list event) :
  Forall (fun ev => op_method (fst ev) <> Some method) tr -> calls_to method tr = [].
Proof.
  unfold calls_to. induction 1 as [|ev tr Hev _ IH]; [done|].
  cbn [List.filter]. rewrite IH.
  destruct (op_method (fst ev)) as [m|]; [|done].
  destruct (String.eqb_spec m method) as [->|]; [by destruct Hev|done].
Qed.

Lemma always_bind_lift {S A B} (r : result A) (f : A -> M S B) (s : S) post :
  match r with
  | Ok a => always (f a s) post
  | Raise e => post [] (Raise e, s)
  end ->
  always (bind (lift r) f s) post.
Proof. by destruct r. Qed.

Lemma always_bind_perform {S B} o (f : pyval -> M S B) (s : S) post :
  (forall r, always (bind (lift r) f s) (fun tr res => post ((o, r) :: tr) res)) ->
  always (bind (perform o) f s) post.
Proof. intros H r. exact (H r). Qed.

(** X19.  The function starts by reading its two environment variables: without
    AWS_REGION, or with it and without AWS_LAMBDA_FUNCTION_NAME, it raises the
    [KeyError] of the missing name and performs nothing.  With both, its first
    operation asks STS, under the ambient identity, who the caller is; this is
    asked once per invocation, however many findings and resources the event
    holds, and when the request is refused the exception is raised at once. *)
Theorem X19_handler_identifies_caller_once {W} (h : handler W) (w : W) environ event :
  let x := run h (Playbook.lambda_handler environ event tt) w in
  (environ !! "AWS_REGION" = None ->
     trace x = [] /\ fst (outcome x) = Raise (KeyError (PyStr "AWS_REGION"))) /\
  (is_Some (environ !! "AWS_REGION") -> environ !! "AWS_LAMBDA_FUNCTION_NAME" = None ->
     trace x = [] /\ fst (outcome x) = Raise (KeyError (PyStr "AWS_LAMBDA_FUNCTION_NAME"))) /\
  (is_Some (environ !! "AWS_REGION") -> is_Some (environ !! "AWS_LAMBDA_FUNCTION_NAME") ->
     exists r rest,
       trace x = (ApiCall (boto3_client "sts") "get_caller_identity" [], r) :: rest /\
       calls_to "get_caller_identity" rest = [] /\
       (forall e, r = Raise e -> rest = [] /\ fst (outcome x) = Raise e)).
Proof.
  intros x. subst x.
  apply (always_run h _ (fun tr res =>
    (environ !! "AWS_REGION" = None ->
       tr = [] /\ fst res = Raise (KeyError (PyStr "AWS_REGION"))) /\
    (is_Some (environ !! "AWS_REGION") -> environ !! "AWS_LAMBDA_FUNCTION_NAME" = None ->
       tr = [] /\ fst res = Raise (KeyError (PyStr "AWS_LAMBDA_FUNCTION_NAME"))) /\
    (is_Some (environ !! "AWS_REGION") -> is_Some (environ !! "AWS_LAMBDA_FUNCTION_NAME") ->
       exists r rest,
         tr = (ApiCall (boto3_client "sts") "get_caller_identity" [], r) :: rest /\
         calls_to "get_caller_identity" rest = [] /\
         (forall e, r = Raise e -> rest = [] /\ fst res = Raise e)))).
  unfold Playbook.lambda_handler, Playbook.environ_getitem. cbv zeta.
  apply always_bind_lift.
  destruct (environ !! "AWS_REGION") as [awsRegion|].
  2: { split; [done|]. split; intros [? [=]]. }
  apply always_bind_lift.
  destruct (environ !! "AWS_LAMBDA_FUNCTION_NAME") as [fn|].
  2: { split; [done|]. split; [done|]. intros _ [? [=]]. }
  apply always_bind_perform. intros r. apply always_bind_lift.
  destruct r as [identity|e].
  2: { split; [done|]. split; [done|]. intros _ _. exists (Raise e), [].
       split; [done|]. split; [done|]. by intros e' [= <-]. }
  eapply always_mono; [|apply (all_ops_always not_identity_call)].
  - intros tr res Hall. split; [done|]. split; [done|]. intros _ _.
    exists (Ok identity), tr. split; [done|]. split; [by apply calls_to_none|done].
  - unfold Playbook.remediate_resource,
      Playbook.cross_account_branch, Playbook.same_account_branch,
      Playbook.cross_account_pipeline, Playbook.same_account_pipeline.
    ops_by ltac:(unfold not_identity_call; cbn; discriminate).
Qed.
End PlaybookStart.

(** ** Further properties: the findings of a scan *)

Section PortsMore.
Context `{RT : Runtime}.

Lemma for_enumerate_yields {S} (build : Z -> pyval -> result pyval) (l : list pyval)
    (i : Z) (s : S) :
  always (for_enumerate i l (fun index p => finding <- lift (build index p) ;; yield finding) s)
    (fun tr res =>
       map fst tr =
         map Yield (yields_until_error
                      (map (fun ip => build (fst ip) (snd ip)) (enumerate_from i l))) /\
       res = (first_error (map (fun ip => build (fst ip) (snd ip)) (enumerate_from i l)), s)).
Proof.
  revert i. induction l as [|x l IH]; intros i; cbn [for_enumerate enumerate_from map].
  - by cbn.
  - unfold bind at 1. mred. cbn [fst snd].
    destruct (build i x) as [f|e]; mred; [|by cbn].
    intros r. eapply always_mono; [|exact (IH (i + 1))].
    intros tr res [Htr ->]. cbn [map fst yields_until_error first_error]. by rewrite Htr.
Qed.

Lemma yields_no_scan (tr : list event) fs host args (r : result pyval) :
  map fst tr = map Yield fs -> ~ In (NmapTcpScan host args, r) tr.
Proof.
  revert fs. induction tr as [|[o r'] tr IH]; intros [|f fs]; simpl; try done.
  - by intros _ [].
  - intros [= -> H] [[=]|Hin]. by apply (IH fs).
Qed.

Lemma str_at_1 v (k : pyval) s :
  (let? x := py_getitem v k in Ok (py_str x)) = Ok s -> str_at v [k] = Ok s.
Proof. unfold str_at. cbn [py_path]. by destruct (py_getitem v k). Qed.

Lemma py_path_2 v k1 k2 :
  py_path v [k1; k2] = (let? x := py_getitem v k1 in py_getitem x k2).
Proof.
  cbn [py_path]. destruct (py_getitem v k1) as [x|]; [cbn [rbind]|done].
  by destruct (py_getitem x k2).
Qed.

Lemma ec2_instance_ports iso a r p i {S} (s : S) :
  always (EC2ASM.ec2_attack_surface_open_tcp_port_check_instance iso a r p i s)
    (fun tr res => forall host args scanner ports,
       In (NmapTcpScan host args, Ok scanner) tr ->
       scanner <> PyNone ->
       py_path scanner [host; PyStr "ports"] = Ok (PyList ports) ->
       exists instanceId instanceType instanceImage subnetId vpcId launchedAt,
         str_at i [PyStr "InstanceId"] = Ok instanceId /\
         str_at i [PyStr "InstanceType"] = Ok instanceType /\
         str_at i [PyStr "ImageId"] = Ok instanceImage /\
         str_at i [PyStr "SubnetId"] = Ok subnetId /\
         str_at i [PyStr "VpcId"] = Ok vpcId /\
         EC2ASM.instance_launched_at i = Ok launchedAt /\
         let build :=
           EC2ASM.ec2_attack_surface_open_tcp_port_check_port iso a r p instanceId
             ("arn:" +:+ p +:+ ":ec2:" +:+ r +:+ ":" +:+ a +:+ ":instance/" +:+ instanceId)
             instanceType instanceImage subnetId vpcId launchedAt in
         yielded tr = yields_until_error (port_findings build ports) /\
         fst res = first_error (port_findings build ports)).
Proof.
  unfold EC2ASM.ec2_attack_surface_open_tcp_port_check_instance. mred.
  repeat match goal with
  | |- always (pbind (Ret (?x, _)) _) _ =>
      destruct x eqn:?; mred; [|by intros ? ? ? ? []]
  | |- always (match ?x with Ok _ => _ | Raise _ => _ end) _ =>
      destruct x eqn:?; mred; [|by intros ? ? ? ? []]
  end.
  match goal with |- always (match ?x with Some _ => _ | None => _ end _) _ =>
    destruct x as [hostIp|]; [|by intros ? ? ? ? []] end.
  unfold EC2ASM.scan_host, try_except_KeyError. mred.
  intros [results|e]; mred.
  2: { destruct (is_KeyError e); mred; by intros ? ? ? ? [[=]|[]]. }
  intros pr. destruct (py_eqb results PyNone) eqn:Enone; mred.
  { intros host args scanner ports [[= <- _ <-]|[[=]|[]]] Hne.
    apply py_eqb_None in Enone. done. }
  destruct (let? x := py_getitem results hostIp in py_getitem x (PyStr "ports"))
    as [ps|e] eqn:Eports; mred.
  2: { intros host args scanner ports [[= <- _ <-]|[[=]|[]]] _ Hpath.
       rewrite py_path_2, Eports in Hpath. discriminate. }
  destruct (py_iter ps) as [l|e] eqn:Eiter; mred.
  2: { intros host args scanner ports [[= <- _ <-]|[[=]|[]]] _ Hpath.
       rewrite py_path_2, Eports in Hpath. injection Hpath as ->. discriminate. }
  eapply always_mono; [|apply for_enumerate_yields].
  intros tr res [Htr ->] host args scanner ports Hin _ Hpath.
  destruct Hin as [[= <- _ <-]|[[=]|Hin]]; [|by destruct (yields_no_scan _ _ _ _ _ Htr Hin)].
  rewrite py_path_2, Eports in Hpath. injection Hpath as ->. injection Eiter as <-.
  exists a0, a1, a2, a3, a4, a5.
  do 5 (split; [by apply str_at_1|]). split; [done|].
  cbv zeta. cbn [yielded fst]. by rewrite (yielded_of_yields _ _ Htr).
Qed.

Lemma elbv2_lb_ports iso a r p lb {S} (s : S) :
  always (EC2ASM.elbv2_attack_surface_open_tcp_port_check_lb iso a r p lb s)
    (fun tr res => forall host args scanner key ports,
       In (NmapTcpScan host args, Ok scanner) tr ->
       scanner <> PyNone ->
       EC2ASM.first_key scanner = Ok key ->
       py_path scanner [key; PyStr "ports"] = Ok (PyList ports) ->
       exists arn name dns type scheme vpcId ipType,
         str_at lb [PyStr "LoadBalancerArn"] = Ok arn /\
         str_at lb [PyStr "LoadBalancerName"] = Ok name /\
         str_at lb [PyStr "DNSName"] = Ok dns /\
         str_at lb [PyStr "Type"] = Ok type /\
         str_at lb [PyStr "Scheme"] = Ok scheme /\
         str_at lb [PyStr "VpcId"] = Ok vpcId /\
         str_at lb [PyStr "IpAddressType"] = Ok ipType /\
         let build :=
           EC2ASM.elbv2_attack_surface_open_tcp_port_check_port iso a r p
             arn name dns type scheme vpcId ipType in
         yielded tr = yields_until_error (port_findings build ports) /\
         fst res = first_error (port_findings build ports)).
Proof.
  unfold EC2ASM.elbv2_attack_surface_open_tcp_port_check_lb. mred.
  repeat match goal with
  | |- always (pbind (Ret (?x, _)) _) _ =>
      destruct x eqn:?; mred; [|by intros ? ? ? ? ? []]
  | |- always (match ?x with Ok _ => _ | Raise _ => _ end) _ =>
      destruct x eqn:?; mred; [|by intros ? ? ? ? ? []]
  end.
  match goal with |- always ((if ?b then _ else _) _) _ =>
    destruct b; [|by intros ? ? ? ? ? []] end.
  unfold EC2ASM.scan_host, try_except_KeyError. mred.
  intros [results|e]; mred.
  2: { destruct (is_KeyError e); mred; by intros ? ? ? ? ? [[=]|[]]. }
  intros pr. destruct (py_eqb results PyNone) eqn:Enone; mred.
  { intros host args scanner key ports [[= <- _ <-]|[[=]|[]]] Hne.
    apply py_eqb_None in Enone. done. }
  destruct (EC2ASM.first_key results) as [hostIp|e] eqn:Ekey; mred.
  2: { intros host args scanner key ports [[= <- _ <-]|[[=]|[]]] _ Hkey. congruence. }
  destruct (let? x := py_getitem results hostIp in py_getitem x (PyStr "ports"))
    as [ps|e] eqn:Eports; mred.
  2: { intros host args scanner key ports [[= <- _ <-]|[[=]|[]]] _ Hkey Hpath.
       rewrite Ekey in Hkey. injection Hkey as <-.
       rewrite py_path_2, Eports in Hpath. discriminate. }
  destruct (py_iter ps) as [l|e] eqn:Eiter; mred.
  2: { intros host args scanner key ports [[= <- _ <-]|[[=]|[]]] _ Hkey Hpath.
       rewrite Ekey in Hkey. injection Hkey as <-.
       rewrite py_path_2, Eports in Hpath. injection Hpath as ->. discriminate. }
  eapply always_mono; [|apply for_enumerate_yields].
  intros tr res [Htr ->] host args scanner key ports Hin _ Hkey Hpath.
  destruct Hin as [[= <- _ <-]|[[=]|Hin]]; [|by destruct (yields_no_scan _ _ _ _ _ Htr Hin)].
  rewrite Ekey in Hkey. injection Hkey as <-.
  rewrite py_path_2, Eports in Hpath. injection Hpath as ->. injection Eiter as <-.
  exists a0, a1, a2, a3, a4, a5, a6.
  do 7 (split; [by apply str_at_1|]).
  cbv zeta. cbn [yielded fst]. by rewrite (yielded_of_yields _ _ Htr).
Qed.

(** X14.  Once the scan of a resource is answered with a result, the resource gets
    one finding for each port of the result, in the order of the result, up
    to the first port whose finding cannot be built; the exception of that
    port ends the work on the resource.  The findings are built from the
    fields of the resource, and the number in the title of the finding of a
    port is its position in the result, counted from one.  The ports are
    read under the scanned address for an instance, and under the first key
    of the result for a load balancer. *)
Theorem X14_findings_follow_ports {W} (h : handler W) (w : W) {S} iso a r p (s : S)
    (resource : pyval) host args scanner ports :
  let x := run h (EC2ASM.ec2_attack_surface_open_tcp_port_check_instance
                    iso a r p resource s) w in
  let y := run h (EC2ASM.elbv2_attack_surface_open_tcp_port_check_lb
                    iso a r p resource s) w in
  scanner <> PyNone ->
  (In (NmapTcpScan host args, Ok scanner) (trace x) ->
   py_path scanner [host; PyStr "ports"] = Ok (PyList ports) ->
   exists instanceId instanceType instanceImage subnetId vpcId launchedAt,
     str_at resource [PyStr "InstanceId"] = Ok instanceId /\
     str_at resource [PyStr "InstanceType"] = Ok instanceType /\
     str_at resource [PyStr "ImageId"] = Ok instanceImage /\
     str_at resource [PyStr "SubnetId"] = Ok subnetId /\
     str_at resource [PyStr "VpcId"] = Ok vpcId /\
     EC2ASM.instance_launched_at resource = Ok launchedAt /\
     let build :=
       EC2ASM.ec2_attack_surface_open_tcp_port_check_port iso a r p instanceId
         ("arn:" +:+ p +:+ ":ec2:" +:+ r +:+ ":" +:+ a +:+ ":instance/" +:+ instanceId)
         instanceType instanceImage subnetId vpcId launchedAt in
     yielded (trace x) = yields_until_error (port_findings build ports) /\
     fst (outcome x) = first_error (port_findings build ports)) /\
  (forall key,
     In (NmapTcpScan host args, Ok scanner) (trace y) ->
     EC2ASM.first_key scanner = Ok key ->
     py_path scanner [key; PyStr "ports"] = Ok (PyList ports) ->
     exists arn name dns type scheme vpcId ipType,
       str_at resource [PyStr "LoadBalancerArn"] = Ok arn /\
       str_at resource [PyStr "LoadBalancerName"] = Ok name /\
       str_at resource [PyStr "DNSName"] = Ok dns /\
       str_at resource [PyStr "Type"] = Ok type /\
       str_at resource [PyStr "Scheme"] = Ok scheme /\
       str_at resource [PyStr "VpcId"] = Ok vpcId /\
       str_at resource [PyStr "IpAddressType"] = Ok ipType /\
       let build :=
         EC2ASM.elbv2_attack_surface_open_tcp_port_check_port iso a r p
           arn name dns type scheme vpcId ipType in
       yielded (trace y) = yields_until_error (port_findings build ports) /\
       fst (outcome y) = first_error (port_findings build ports)).
Proof.
  intros x y Hne. subst x y. split.
  - intros Hin Hpath.
    exact (always_run h _ _ w (ec2_instance_ports iso a r p resource s)
             host args scanner ports Hin Hne Hpath).
  - intros key Hin Hkey Hpath.
    exact (always_run h _ _ w (elbv2_lb_ports iso a r p resource s)
             host args scanner key ports Hin Hne Hkey Hpath).
Qed.

Lemma str_field_raises d (k : string) e :
  (let? x := py_getitem (PyDict d) (PyStr k) in Ok (py_str x)) = Raise e ->
  e = KeyError (PyStr k).
Proof. cbn [py_getitem]. destruct (assoc k d); [discriminate|by intros [= <-]]. Qed.

(** X15.  An instance whose list of block devices is empty ends the check: reading
    the attach time of the first device raises [IndexError], which the
    [except KeyError] of the launch time does not catch.  The instance is not
    scanned and gets no finding, and the exception leaves the loop over the
    instances. *)
Theorem X15_instance_without_block_device_aborts {W} (h : handler W) (w : W) {S}
    iso a r p (s : S) i :
  py_getitem i (PyStr "BlockDeviceMappings") = Ok (PyList []) ->
  let x := run h (EC2ASM.ec2_attack_surface_open_tcp_port_check_instance iso a r p i s) w in
  EC2ASM.instance_launched_at i = Raise IndexError /\
  trace x = [] /\
  exists e, outcome x = (Raise e, s) /\
    (e = IndexError \/ exists k, e = KeyError k).
Proof.
  intros Hempty x. subst x.
  assert (EC2ASM.instance_launched_at i = Raise IndexError) as Hlaunch.
  { unfold EC2ASM.instance_launched_at. by rewrite Hempty. }
  split; [exact Hlaunch|].
  apply (always_run h _ (fun tr res => tr = [] /\ exists e, res = (Raise e, s) /\
           (e = IndexError \/ exists k, e = KeyError k))).
  assert (exists d, i = PyDict d) as [d ->].
  { destruct i; try discriminate. eauto. }
  unfold EC2ASM.ec2_attack_surface_open_tcp_port_check_instance. mred.
  rewrite Hlaunch.
  repeat match goal with
  | |- always (pbind (Ret (?x, _)) _) _ =>
      destruct x eqn:?; mred;
      [|split; [done|]; eexists; split; [reflexivity|];
        right; eexists; by eapply str_field_raises]
  | |- always (match ?x with Ok _ => _ | Raise _ => _ end) _ =>
      destruct x eqn:?; mred;
      [|split; [done|]; eexists; split; [reflexivity|];
        right; eexists; by eapply str_field_raises]
  end.
  split; [done|]. exists IndexError. split; [done|by left].
Qed.
End PortsMore.

(** ** The further properties at concrete inputs *)

(** Two calls of [describe_clusters] on an empty cache: one request. *)
Lemma X1_witness :
  let x := run (aws_reporting_clusters [dax_cluster "ENABLED"])
             (twice DAX.describe_clusters ∅) tt in
  let listing := clusters_listing [dax_cluster "ENABLED"] in
  fst (outcome x) = Ok (listing, listing) /\
  truthy listing = true /\
  (length (List.filter is_fetch (trace x)) <= 1)%nat.
Proof.
  intros x listing.
  assert (fst (outcome x) = Ok (listing, listing)) as Hout by reflexivity.
  assert (truthy listing = true) as Htrue by reflexivity.
  split; [exact Hout|]. split; [exact Htrue|].
  exact (proj2 (proj1 (X1_accessors_fetch_once
                         (aws_reporting_clusters [dax_cluster "ENABLED"]) tt ∅)
                  listing listing Hout Htrue)).
Defined.

(** [describe_clusters] on a cache that holds a listing. *)
Lemma X2_witness :
  let cache : gmap string pyval :=
    <["describe_clusters" := clusters_listing [dax_cluster "ENABLED"]]> ∅ in
  let x := run (aws_reporting_clusters []) (DAX.describe_clusters cache) tt in
  truthy (cache_get cache "describe_clusters") = true /\
  trace x = [] /\
  outcome x = (Ok (cache_get cache "describe_clusters"), cache).
Proof.
  intros cache x.
  assert (truthy (cache_get cache "describe_clusters") = true) as Htrue by reflexivity.
  split; [exact Htrue|].
  pose proof (X2_accessors_keep_cache (aws_reporting_clusters []) tt cache) as H.
  cbv zeta in H. destruct H as ((_ & _ & H) & _).
  exact (H Htrue).
Defined.

(** Two pages as [describe_instances] returns them, with the metadata of
    the response and of the reservations: three instances. *)
Lemma X3_witness :
  let x := run (aws_paging instance_pages) (EC2ASM.ec2_paginate ∅) tt in
  let contents := [[[public_instance]; []]; [[instance_store_instance; public_instance]]] in
  In (Paginate (PyObj "Paginator") running_filter, Ok (PyList instance_pages)) (trace x) /\
  py_iter (PyList instance_pages) = Ok instance_pages /\
  Forall2 page_holds instance_pages contents /\
  outcome x =
    (Ok (PyList [public_instance; instance_store_instance; public_instance]),
     <["instances" := PyList [public_instance; instance_store_instance; public_instance]]> ∅).
Proof.
  intros x contents.
  assert (In (Paginate (PyObj "Paginator") running_filter, Ok (PyList instance_pages))
             (trace x)) as Hin.
  { right. left. reflexivity. }
  assert (py_iter (PyList instance_pages) = Ok instance_pages) as Hiter by reflexivity.
  assert (Forall2 page_holds instance_pages contents) as Hpages.
  { assert (forall r instances,
              py_getitem r (PyStr "Instances") = Ok (PyList instances) ->
              reservation_holds r instances) as Hr.
    { intros r instances Hv. exists (PyList instances). split; [exact Hv|reflexivity]. }
    constructor; [|constructor; [|constructor]].
    - eexists _, _. split; [reflexivity|]. split; [reflexivity|].
      constructor; [apply Hr; reflexivity|].
      constructor; [apply Hr; reflexivity|constructor].
    - eexists _, _. split; [reflexivity|]. split; [reflexivity|].
      constructor; [apply Hr; reflexivity|constructor]. }
  split; [exact Hin|]. split; [exact Hiter|]. split; [exact Hpages|].
  exact (X3_ec2_paginate_payload (aws_paging instance_pages) tt ∅
           (PyObj "Paginator") running_filter (PyList instance_pages)
           instance_pages contents Hin Hiter Hpages).
Defined.

(** The EC2 check on an account with one public instance. *)
Lemma X4_witness :
  In ("ec2", EC2ASM.ec2_attack_surface_open_tcp_port_check (RT:=example_runtime))
     (registered_checks (RT:=example_runtime)) /\
  Forall (fun ev => read_only (fst ev))
    (trace (run aws_one_public_instance
              (EC2ASM.ec2_attack_surface_open_tcp_port_check (RT:=example_runtime)
                 "111111111111" "us-east-1" "aws" ∅) tt)).
Proof.
  assert (In ("ec2", EC2ASM.ec2_attack_surface_open_tcp_port_check (RT:=example_runtime))
             (registered_checks (RT:=example_runtime))) as Hin.
  { right. right. left. reflexivity. }
  split; [exact Hin|].
  exact (X4_checks_are_read_only (RT:=example_runtime) aws_one_public_instance tt
           "ec2" _ "111111111111" "us-east-1" "aws" ∅ Hin).
Defined.

(** The findings of the at-rest check on two clusters. *)
Lemma X5_witness :
  let x := run (aws_reporting_clusters [dax_cluster "DISABLED"; dax_cluster "ENABLING"])
             (DAX.dax_encryption_at_rest_check (RT:=example_runtime)
                "111111111111" "us-east-1" "aws" ∅) tt in
  In ("dax", DAX.dax_encryption_at_rest_check (RT:=example_runtime))
     (registered_checks (RT:=example_runtime)) /\
  head (trace x) = Some (UtcNow, Ok (PyStr "2021-03-01T12:00:00+00:00")) /\
  length (yielded (trace x)) = 2%nat /\
  Forall (canonical_header "111111111111" "us-east-1" "aws"
            (PyStr "2021-03-01T12:00:00+00:00")) (yielded (trace x)).
Proof.
  intros x.
  assert (In ("dax", DAX.dax_encryption_at_rest_check (RT:=example_runtime))
             (registered_checks (RT:=example_runtime))) as Hin.
  { left. reflexivity. }
  assert (head (trace x) = Some (UtcNow, Ok (PyStr "2021-03-01T12:00:00+00:00")))
    as Hhead by reflexivity.
  split; [exact Hin|]. split; [exact Hhead|]. split; [reflexivity|].
  exact (X5_findings_share_header_and_time (RT:=example_runtime)
           (aws_reporting_clusters [dax_cluster "DISABLED"; dax_cluster "ENABLING"]) tt
           "dax" _ "111111111111" "us-east-1" "aws" ∅ _ Hin Hhead).
Defined.

(** The two findings of the at-rest check for one cluster. *)
Lemma X6_witness :
  let failing := DAX.dax_encryption_at_rest_check_failing (RT:=example_runtime)
                   (dax_cluster "DISABLED") "orders"
                   "arn:aws:dax:us-east-1:111111111111:cache/orders"
                   (PyStr "2021-03-01T12:00:00+00:00") "111111111111" "us-east-1" "aws" in
  let passing := DAX.dax_encryption_at_rest_check_passing (RT:=example_runtime)
                   (dax_cluster "DISABLED") "orders"
                   "arn:aws:dax:us-east-1:111111111111:cache/orders"
                   (PyStr "2021-03-01T12:00:00+00:00") "111111111111" "us-east-1" "aws" in
  failing = Ok (value_of failing) /\
  passing = Ok (value_of passing) /\
  same_but_verdict (value_of failing) (value_of passing).
Proof.
  intros failing passing.
  assert (failing = Ok (value_of failing)) as H1 by reflexivity.
  assert (passing = Ok (value_of passing)) as H2 by reflexivity.
  split; [exact H1|]. split; [exact H2|].
  exact (proj1 (X6_dax_branches_agree (RT:=example_runtime) _ _ _ _ _ _ _) _ _ H1 H2).
Defined.

(** The two findings of the EC2 check for port 22 of one instance. *)
Lemma X7_witness :
  let failing := EC2ASM.ec2_attack_surface_open_tcp_port_check_failing
                   (RT:=example_runtime)
                   (PyStr "2021-03-01T12:00:00+00:00") "111111111111" "us-east-1" "aws"
                   "i-0abc" "arn:aws:ec2:us-east-1:111111111111:instance/i-0abc"
                   "t3.micro" "ami-1234" "subnet-1" "vpc-0a1b2c3d"
                   "2021-02-01 08:00:00+00:00" "1" "SSH" 22 in
  let passing := EC2ASM.ec2_attack_surface_open_tcp_port_check_passing
                   (RT:=example_runtime)
                   (PyStr "2021-03-01T12:00:00+00:00") "111111111111" "us-east-1" "aws"
                   "i-0abc" "arn:aws:ec2:us-east-1:111111111111:instance/i-0abc"
                   "t3.micro" "ami-1234" "subnet-1" "vpc-0a1b2c3d"
                   "2021-02-01 08:00:00+00:00" "1" "SSH" "no-response" 22 in
  failing = Ok (value_of failing) /\
  passing = Ok (value_of passing) /\
  same_but_verdict (value_of failing) (value_of passing).
Proof.
  intros failing passing.
  assert (failing = Ok (value_of failing)) as H1 by reflexivity.
  assert (passing = Ok (value_of passing)) as H2 by reflexivity.
  split; [exact H1|]. split; [exact H2|].
  exact (proj1 (X7_attack_surface_branches_agree (RT:=example_runtime) _ _ _ _ _ _ _ _)
           _ _ _ _ _ _ _ _ _ H1 H2).
Defined.

(** A cluster whose endpoint is encrypted with TLS passes the in-transit
    check. *)
Lemma X8_witness :
  let f := value_of (DAX.dax_encryption_in_transit_check_cluster (RT:=example_runtime)
                       (PyStr "2021-03-01T12:00:00+00:00") "111111111111" "us-east-1" "aws"
                       (dax_cluster "ENABLED")) in
  DAX.dax_encryption_in_transit_check_cluster (RT:=example_runtime)
    (PyStr "2021-03-01T12:00:00+00:00") "111111111111" "us-east-1" "aws"
    (dax_cluster "ENABLED") = Ok f /\
  passing_status f.
Proof.
  intros f.
  assert (DAX.dax_encryption_in_transit_check_cluster (RT:=example_runtime)
            (PyStr "2021-03-01T12:00:00+00:00") "111111111111" "us-east-1" "aws"
            (dax_cluster "ENABLED") = Ok f) as Hf by reflexivity.
  split; [exact Hf|].
  destruct (X8_in_transit_fails_iff_none (RT:=example_runtime) _ _ _ _ _ _ Hf)
    as (encryptionType & Htype & _ & Hpass).
  apply Hpass. simpl in Htype. injection Htype as <-. discriminate.
Defined.

(** The name nmap gives the service of port 22. *)
Lemma X9_witness :
  let port := scanned_port "22" "open" "syn-ack" "ssh" in
  upper_contract (RT:=example_runtime) /\
  (forall name, py_path port [PyStr "service"; PyStr "name"] = Ok name ->
                is_ascii_str (py_str (RT:=example_runtime) name) = true) /\
  EC2ASM.port_service_name (RT:=example_runtime) port 22 = Ok "SSH" /\
  str_upper (Runtime:=example_runtime) "SSH" = "SSH" /\
  forallb (fun c => negb (is_lower c)) (list_ascii_of_string "SSH") = true.
Proof.
  intros port.
  assert (upper_contract (RT:=example_runtime)) as Hupper.
  { intros s _. reflexivity. }
  assert (forall name, py_path port [PyStr "service"; PyStr "name"] = Ok name ->
                       is_ascii_str (py_str (RT:=example_runtime) name) = true) as Hascii.
  { intros name Hname. injection Hname as <-. reflexivity. }
  assert (EC2ASM.port_service_name (RT:=example_runtime) port 22 = Ok "SSH") as H
    by reflexivity.
  split; [exact Hupper|]. split; [exact Hascii|]. split; [exact H|].
  exact (X9_port_service_name_upper (RT:=example_runtime) _ _ _ Hupper Hascii H).
Defined.

(** An instance whose public address is the empty string is scanned. *)
Lemma X10_witness :
  let i := PyDict [("InstanceId", PyStr "i-0abc"); ("PublicIpAddress", PyStr "")] in
  py_getitem i (PyStr "PublicIpAddress") = Ok (PyStr "") /\
  EC2ASM.instance_host_ip i = Ok (Some (PyStr "")).
Proof.
  intros i.
  assert (py_getitem i (PyStr "PublicIpAddress") = Ok (PyStr "")) as H by reflexivity.
  split; [exact H|].
  exact (proj2 (proj2 (X10_public_address_skipped_iff i)) H).
Defined.

(** Three clusters, the second of which is still being created: one finding,
    then the [KeyError] of the second cluster. *)
Lemma X11_witness :
  let clusters := [dax_cluster "DISABLED"; dax_cluster_creating; dax_cluster "ENABLED"] in
  let time := PyStr "2021-03-01T12:00:00+00:00" in
  let x := run (aws_reporting_clusters clusters)
             (DAX.dax_encryption_at_rest_check (RT:=example_runtime)
                "111111111111" "us-east-1" "aws" ∅) tt in
  py_getitem (clusters_listing clusters) (PyStr "Clusters") = Ok (PyList clusters) /\
  head (trace x) = Some (UtcNow, Ok time) /\
  listing_seen "describe_clusters" "describe_clusters" ∅ (trace x)
    = Some (clusters_listing clusters) /\
  yielded (trace x) =
    yields_until_error
      (map (DAX.dax_encryption_at_rest_check_cluster (RT:=example_runtime)
              time "111111111111" "us-east-1" "aws") clusters) /\
  length (yielded (trace x)) = 1%nat /\
  fst (outcome x) = Raise (KeyError (PyStr "ClusterDiscoveryEndpoint")).
Proof.
  intros clusters time x.
  assert (py_getitem (clusters_listing clusters) (PyStr "Clusters") = Ok (PyList clusters))
    as Hc by reflexivity.
  assert (head (trace x) = Some (UtcNow, Ok time)) as Hhead by reflexivity.
  assert (listing_seen "describe_clusters" "describe_clusters" ∅ (trace x)
            = Some (clusters_listing clusters)) as Hseen by reflexivity.
  split; [exact Hc|]. split; [exact Hhead|]. split; [exact Hseen|].
  destruct (proj1 (X11_dax_checks_yield_in_order (RT:=example_runtime)
                     (aws_reporting_clusters clusters) tt
                     "111111111111" "us-east-1" "aws" ∅ time
                     (clusters_listing clusters) clusters Hc) Hhead Hseen)
    as [Hyielded Hout].
  split; [exact Hyielded|]. split; [reflexivity|reflexivity].
Defined.

(** A scanner that raises [KeyError]: the instance gets no finding, and the
    work on it ends normally. *)
Lemma X13_witness :
  let e := KeyError (PyStr "203.0.113.7") in
  let x := run (aws_scanner_raises e)
             (EC2ASM.ec2_attack_surface_open_tcp_port_check_instance (RT:=example_runtime)
                (PyStr "2021-03-01T12:00:00+00:00") "111111111111" "us-east-1" "aws"
                public_instance tt) tt in
  In (NmapTcpScan (PyStr "203.0.113.7") nmap_args, Raise e) (trace x) /\
  yielded (trace x) = [] /\
  fst (outcome x) = Ok tt.
Proof.
  intros e x.
  assert (In (NmapTcpScan (PyStr "203.0.113.7") nmap_args, Raise e) (trace x)) as Hin.
  { left. reflexivity. }
  split; [exact Hin|].
  exact (proj1 (X13_failed_scan_gives_no_finding (RT:=example_runtime) (aws_scanner_raises e) tt
                  (PyStr "2021-03-01T12:00:00+00:00") "111111111111" "us-east-1" "aws" tt
                  public_instance (PyStr "203.0.113.7") nmap_args e) Hin).
Defined.

(** A VPC of the region of the function, and the same VPC seen from a
    function that runs in another region. *)
Lemma X18_witness :
  let resourceId := "arn:aws:ec2:us-east-1:111111111111:vpc/vpc-0a1b2c3d" in
  let resources := PyDict [("Type", PyStr "AwsEc2Vpc"); ("Id", PyStr resourceId)] in
  let tr awsRegion :=
    trace (run (aws_refusing "" "")
             (Playbook.remediate_resource (RT:=example_runtime)
                (boto3_client "sts") (boto3_client "securityhub")
                awsRegion "responder" (PyStr "111111111111")
                "finding-1" "111111111111" resources tt) tt) in
  str_at (RT:=example_runtime) resources [PyStr "Id"] = Ok resourceId /\
  resourceId = vpc_arn "us-east-1" "111111111111" "vpc-0a1b2c3d" /\
  occurs (vpc_arn "us-east-1" "111111111111" "") "vpc-0a1b2c3d" = false /\
  named_after (RT:=example_runtime) "vpc-0a1b2c3d" (tr "us-east-1") /\
  occurs (vpc_arn "eu-west-1" "111111111111" "") resourceId = false /\
  named_after (RT:=example_runtime) resourceId (tr "eu-west-1").
Proof.
  intros resourceId resources tr.
  assert (str_at (RT:=example_runtime) resources [PyStr "Id"] = Ok resourceId)
    as Hid by reflexivity.
  assert (resourceId = vpc_arn "us-east-1" "111111111111" "vpc-0a1b2c3d")
    as Harn by reflexivity.
  assert (occurs (vpc_arn "us-east-1" "111111111111" "") "vpc-0a1b2c3d" = false)
    as Hvpc by reflexivity.
  assert (occurs (vpc_arn "eu-west-1" "111111111111" "") resourceId = false)
    as Hother by reflexivity.
  split; [exact Hid|]. split; [exact Harn|]. split; [exact Hvpc|].
  split; [|split; [exact Hother|]].
  - exact (proj1 (X18_artifacts_named_after_vpc (RT:=example_runtime) (aws_refusing "" "") tt
                    (boto3_client "sts") (boto3_client "securityhub")
                    "us-east-1" "responder" (PyStr "111111111111")
                    "finding-1" "111111111111" resources resourceId Hid)
             "vpc-0a1b2c3d" Harn Hvpc).
  - exact (proj2 (X18_artifacts_named_after_vpc (RT:=example_runtime) (aws_refusing "" "") tt
                    (boto3_client "sts") (boto3_client "securityhub")
                    "eu-west-1" "responder" (PyStr "111111111111")
                    "finding-1" "111111111111" resources resourceId Hid)
             Hother).
Defined.

(** The function with both variables set, on an event with one finding. *)
Lemma X19_witness :
  let x := run (aws_refusing "" "")
             (Playbook.lambda_handler (RT:=example_runtime) lambda_environ
                (vpc_finding_event "111111111111") tt) tt in
  is_Some (lambda_environ !! "AWS_REGION") /\
  is_Some (lambda_environ !! "AWS_LAMBDA_FUNCTION_NAME") /\
  exists r rest,
    trace x = (ApiCall (boto3_client "sts") "get_caller_identity" [], r) :: rest /\
    calls_to "get_caller_identity" rest = [] /\
    (forall e, r = Raise e -> rest = [] /\ fst (outcome x) = Raise e).
Proof.
  intros x.
  assert (is_Some (lambda_environ !! "AWS_REGION")) as Hregion.
  { exists "us-east-1". reflexivity. }
  assert (is_Some (lambda_environ !! "AWS_LAMBDA_FUNCTION_NAME")) as Hname.
  { exists "responder". reflexivity. }
  split; [exact Hregion|]. split; [exact Hname|].
  exact (proj2 (proj2 (X19_handler_identifies_caller_once (RT:=example_runtime)
                         (aws_refusing "" "") tt lambda_environ
                         (vpc_finding_event "111111111111")))
           Hregion Hname).
Defined.

(** The two ports of the scan of [aws_one_public_instance]: two findings. *)
Lemma X14_witness :
  let x := run aws_one_public_instance
             (EC2ASM.ec2_attack_surface_open_tcp_port_check_instance (RT:=example_runtime)
                (PyStr "2021-03-01T12:00:00+00:00") "111111111111" "us-east-1" "aws"
                public_instance tt) tt in
  let scanner := PyDict [("203.0.113.7", PyDict [("ports", PyList scanned_ports)])] in
  let build :=
    EC2ASM.ec2_attack_surface_open_tcp_port_check_port (RT:=example_runtime)
      (PyStr "2021-03-01T12:00:00+00:00") "111111111111" "us-east-1" "aws"
      "i-0abc" "arn:aws:ec2:us-east-1:111111111111:instance/i-0abc"
      "t3.micro" "ami-1234" "subnet-1" "vpc-0a1b2c3d" "2021-02-01 08:00:00+00:00" in
  scanner <> PyNone /\
  In (NmapTcpScan (PyStr "203.0.113.7") nmap_args, Ok scanner) (trace x) /\
  py_path scanner [PyStr "203.0.113.7"; PyStr "ports"] = Ok (PyList scanned_ports) /\
  yielded (trace x) = yields_until_error (port_findings build scanned_ports) /\
  length (yielded (trace x)) = 2%nat /\
  fst (outcome x) = Ok tt.
Proof.
  intros x scanner build.
  assert (scanner <> PyNone) as Hne by discriminate.
  assert (In (NmapTcpScan (PyStr "203.0.113.7") nmap_args, Ok scanner) (trace x)) as Hin.
  { left. reflexivity. }
  assert (py_path scanner [PyStr "203.0.113.7"; PyStr "ports"] = Ok (PyList scanned_ports))
    as Hpath by reflexivity.
  split; [exact Hne|]. split; [exact Hin|]. split; [exact Hpath|].
  destruct (proj1 (X14_findings_follow_ports (RT:=example_runtime) aws_one_public_instance tt
                     (PyStr "2021-03-01T12:00:00+00:00") "111111111111" "us-east-1" "aws" tt
                     public_instance (PyStr "203.0.113.7") nmap_args scanner scanned_ports
                     Hne) Hin Hpath)
    as (iid & ity & iim & sub & vpc & launched & Hiid & Hity & Hiim & Hsub & Hvpc & Hlaunched
        & Hyielded & Hout).
  injection Hiid as <-. injection Hity as <-. injection Hiim as <-.
  injection Hsub as <-. injection Hvpc as <-. injection Hlaunched as <-.
  split; [exact Hyielded|]. split; [reflexivity|reflexivity].
Defined.

(** An instance without block devices, at the head of the listing. *)
Lemma X15_witness :
  let x := run aws_one_public_instance
             (EC2ASM.ec2_attack_surface_open_tcp_port_check_instance (RT:=example_runtime)
                (PyStr "2021-03-01T12:00:00+00:00") "111111111111" "us-east-1" "aws"
                instance_store_instance tt) tt in
  py_getitem instance_store_instance (PyStr "BlockDeviceMappings") = Ok (PyList []) /\
  EC2ASM.instance_launched_at (RT:=example_runtime) instance_store_instance
    = Raise IndexError /\
  trace x = [] /\
  outcome x = (Raise IndexError, tt).
Proof.
  intros x.
  assert (py_getitem instance_store_instance (PyStr "BlockDeviceMappings") = Ok (PyList []))
    as Hempty by reflexivity.
  split; [exact Hempty|].
  destruct (X15_instance_without_block_device_aborts (RT:=example_runtime)
              aws_one_public_instance tt
              (PyStr "2021-03-01T12:00:00+00:00") "111111111111" "us-east-1" "aws" tt
              instance_store_instance Hempty)
    as (Hlaunch & Htrace & _).
  split; [exact Hlaunch|]. split; [exact Htrace|reflexivity].
Defined.

(** ** Runs against a given outside *)

Section RunFacts.
Context `{RT : Runtime}.

Lemma trace_run_Do {W A} (h : handler W) o (k : result pyval -> prog A) (w : W) :
  trace (run h (Do o k) w) =
  (o, fst (h w o)) :: trace (run h (k (fst (h w o))) (snd (h w o))).
Proof. reflexivity. Qed.

Lemma outcome_run_Do {W A} (h : handler W) o (k : result pyval -> prog A) (w : W) :
  outcome (run h (Do o k) w) = outcome (run h (k (fst (h w o))) (snd (h w o))).
Proof. reflexivity. Qed.

Lemma in_step_yields {A} (build : A -> result pyval) (R : A -> pyval -> Prop) (l : list A) :
  (forall x f, build x = Ok f -> R x f) ->
  in_step R l (yields_until_error (map build l)).
Proof.
  intros HR. unfold in_step. induction l as [|x l IH]; cbn [map yields_until_error].
  - constructor.
  - destruct (build x) as [f|e] eqn:E; [|constructor].
    cbn [length take]. constructor; [by apply HR|exact IH].
Qed.

Lemma in_step_ports (build : Z -> pyval -> result pyval) (R : pyval -> pyval -> Prop)
    (ports : list pyval) :
  (forall index port f, build index port = Ok f -> R port f) ->
  in_step R ports (yields_until_error (port_findings build ports)).
Proof.
  intros HR. unfold in_step, port_findings. generalize 0.
  induction ports as [|x l IH]; intros i; cbn [enumerate_from map yields_until_error fst snd].
  - constructor.
  - destruct (build i x) as [f|e] eqn:E; [|constructor].
    cbn [length take]. constructor; [by eapply HR|apply IH].
Qed.

Lemma in_step_lookup {A} (R : A -> pyval -> Prop) (l : list A) (fs : list pyval) k x f :
  in_step R l fs -> l !! k = Some x -> fs !! k = Some f -> R x f.
Proof.
  unfold in_step. intros H Hx Hf.
  assert (take (length fs) l !! k = Some x) as Hx'.
  { rewrite lookup_take_lt; [done|]. by eapply lookup_lt_Some. }
  eapply Forall2_lookup_lr; eauto.
Qed.

Lemma dax_check_run (build : pyval -> pyval -> result pyval) cache
    {W} (h : handler W) (w : W) time clusters :
  dax_run_sees h w cache time clusters ->
  let x := run h ((iso8601Time <- perform UtcNow ;;
                   response <- DAX.describe_clusters ;;
                   clusters <- lift (py_getitem response (PyStr "Clusters")) ;;
                   clusters <- lift (py_iter clusters) ;;
                   for_each clusters (fun cluster =>
                     finding <- lift (build iso8601Time cluster) ;;
                     yield finding)) cache) w in
  yielded (trace x) = yields_until_error (map (build time) clusters) /\
  fst (outcome x) = first_error (map (build time) clusters).
Proof.
  intros (Hclock & listing & Hlisting & Hclusters) x. subst x.
  apply (always_run h _ _ w (dax_check_yields build cache) time listing clusters);
    [| |exact Hclusters].
  - mred. rewrite trace_run_Do, Hclock. reflexivity.
  - unfold listing_seen. unfold dax_listing in Hlisting.
    destruct (truthy (cache_get cache "describe_clusters")) eqn:Ht; [by injection Hlisting as <-|].
    mred. rewrite trace_run_Do, Hclock. mred.
    unfold DAX.describe_clusters. mred. rewrite Ht. mred.
    rewrite trace_run_Do, Hlisting. reflexivity.
Qed.

Lemma at_rest_check_run {W} (h : handler W) (w : W) a r p cache time clusters :
  dax_run_sees h w cache time clusters ->
  let x := run h (DAX.dax_encryption_at_rest_check a r p cache) w in
  let build := DAX.dax_encryption_at_rest_check_cluster time a r p in
  yielded (trace x) = yields_until_error (map build clusters) /\
  fst (outcome x) = first_error (map build clusters).
Proof.
  exact (dax_check_run
           (fun iso cluster => DAX.dax_encryption_at_rest_check_cluster iso a r p cluster)
           cache h w time clusters).
Qed.

Lemma in_transit_check_run {W} (h : handler W) (w : W) a r p cache time clusters :
  dax_run_sees h w cache time clusters ->
  let x := run h (DAX.dax_encryption_in_transit_check a r p cache) w in
  let build := DAX.dax_encryption_in_transit_check_cluster time a r p in
  yielded (trace x) = yields_until_error (map build clusters) /\
  fst (outcome x) = first_error (map build clusters).
Proof.
  exact (dax_check_run
           (fun iso cluster => DAX.dax_encryption_in_transit_check_cluster iso a r p cluster)
           cache h w time clusters).
Qed.

Lemma str_at_1_inv v (k : pyval) s :
  str_at v [k] = Ok s -> (let? x := py_getitem v k in Ok (py_str x)) = Ok s.
Proof. unfold str_at. cbn [py_path]. by destruct (py_getitem v k). Qed.

Lemma instance_host_ip_public i hostIp :
  py_getitem i (PyStr "PublicIpAddress") = Ok hostIp -> hostIp <> PyNone ->
  EC2ASM.instance_host_ip i = Ok (Some hostIp).
Proof.
  intros Hip Hne. unfold EC2ASM.instance_host_ip. rewrite Hip.
  change (py_or (PyStr "") PyNone) with PyNone.
  destruct (py_eqb hostIp PyNone) eqn:E; [|done].
  apply py_eqb_None in E. done.
Qed.

Lemma ec2_instance_run {W} (h : handler W) (w : W) {S} (s : S) iso a r p i
    iid ity iim sub vpc launched hostIp scanner ports :
  ec2_instance_reads i iid ity iim sub vpc launched hostIp ->
  scan_answered h w hostIp scanner hostIp ports ->
  let x := run h (EC2ASM.ec2_attack_surface_open_tcp_port_check_instance iso a r p i s) w in
  let build := ec2_port_finding iso a r p iid ity iim sub vpc launched in
  yielded (trace x) = yields_until_error (port_findings build ports) /\
  fst (outcome x) = first_error (port_findings build ports).
Proof.
  intros ((Hiid & Hity & Hiim & Hsub & Hvpc & Hlaunched) & Hip & Hpublic)
         (Hscan & Hne & Hports) x build. subst x build.
  assert (In (NmapTcpScan hostIp nmap_args, Ok scanner)
            (trace (run h (EC2ASM.ec2_attack_surface_open_tcp_port_check_instance
                             iso a r p i s) w))) as Hin.
  { unfold EC2ASM.ec2_attack_surface_open_tcp_port_check_instance. mred.
    rewrite (str_at_1_inv _ _ _ Hiid), (str_at_1_inv _ _ _ Hity),
      (str_at_1_inv _ _ _ Hiim), (str_at_1_inv _ _ _ Hsub), (str_at_1_inv _ _ _ Hvpc),
      Hlaunched, (instance_host_ip_public _ _ Hip Hpublic).
    unfold EC2ASM.scan_host, try_except_KeyError. mred.
    rewrite trace_run_Do. left. unfold nmap_args in Hscan. by rewrite Hscan. }
  destruct (always_run h _ _ w (ec2_instance_ports iso a r p i s)
              hostIp nmap_args scanner ports Hin Hne Hports)
    as (iid' & ity' & iim' & sub' & vpc' & launched' & Hiid' & Hity' & Hiim' & Hsub' & Hvpc'
        & Hlaunched' & H).
  rewrite Hiid in Hiid'. rewrite Hity in Hity'. rewrite Hiim in Hiim'.
  rewrite Hsub in Hsub'. rewrite Hvpc in Hvpc'. rewrite Hlaunched in Hlaunched'.
  injection Hiid' as <-. injection Hity' as <-. injection Hiim' as <-.
  injection Hsub' as <-. injection Hvpc' as <-. injection Hlaunched' as <-.
  exact H.
Qed.

Lemma elbv2_lb_run {W} (h : handler W) (w : W) {S} (s : S) iso a r p lb
    arn name dns ty scheme vpc ipt scanner key ports :
  elbv2_lb_reads lb arn name dns ty scheme vpc ipt ->
  scan_answered h w (PyStr dns) scanner key ports ->
  EC2ASM.first_key scanner = Ok key ->
  let x := run h (EC2ASM.elbv2_attack_surface_open_tcp_port_check_lb iso a r p lb s) w in
  let build := EC2ASM.elbv2_attack_surface_open_tcp_port_check_port iso a r p
                 arn name dns ty scheme vpc ipt in
  yielded (trace x) = yields_until_error (port_findings build ports) /\
  fst (outcome x) = first_error (port_findings build ports).
Proof.
  intros (Harn & Hname & Hdns & Hty & Hscheme & Hvpc & Hipt & Hfacing & Happ)
         (Hscan & Hne & Hports) Hkey x build. subst x build.
  assert (In (NmapTcpScan (PyStr dns) nmap_args, Ok scanner)
            (trace (run h (EC2ASM.elbv2_attack_surface_open_tcp_port_check_lb
                             iso a r p lb s) w))) as Hin.
  { unfold EC2ASM.elbv2_attack_surface_open_tcp_port_check_lb. mred.
    rewrite (str_at_1_inv _ _ _ Harn), (str_at_1_inv _ _ _ Hname),
      (str_at_1_inv _ _ _ Hdns), (str_at_1_inv _ _ _ Hty), (str_at_1_inv _ _ _ Hscheme),
      (str_at_1_inv _ _ _ Hvpc), (str_at_1_inv _ _ _ Hipt).
    mred. rewrite Hfacing, Happ. cbn [String.eqb Ascii.eqb Bool.eqb andb].
    unfold EC2ASM.scan_host, try_except_KeyError. mred.
    rewrite trace_run_Do. left. unfold nmap_args in Hscan. by rewrite Hscan. }
  destruct (always_run h _ _ w (elbv2_lb_ports iso a r p lb s)
              (PyStr dns) nmap_args scanner key ports Hin Hne Hkey Hports)
    as (arn' & name' & dns' & ty' & scheme' & vpc' & ipt' & Harn' & Hname' & Hdns' & Hty'
        & Hscheme' & Hvpc' & Hipt' & H).
  rewrite Harn in Harn'. rewrite Hname in Hname'. rewrite Hdns in Hdns'.
  rewrite Hty in Hty'. rewrite Hscheme in Hscheme'. rewrite Hvpc in Hvpc'.
  rewrite Hipt in Hipt'.
  injection Harn' as <-. injection Hname' as <-. injection Hdns' as <-.
  injection Hty' as <-. injection Hscheme' as <-. injection Hvpc' as <-.
  injection Hipt' as <-.
  exact H.
Qed.

Lemma ec2_instance_skipped {W} (h : handler W) (w : W) {S} (s : S) iso a r p i
    iid ity iim sub vpc launched k :
  ec2_instance_described i iid ity iim sub vpc launched ->
  py_getitem i (PyStr "PublicIpAddress") = Raise (KeyError k) ->
  let x := run h (EC2ASM.ec2_attack_surface_open_tcp_port_check_instance iso a r p i s) w in
  trace x = [] /\ outcome x = (Ok tt, s).
Proof.
  intros (Hiid & Hity & Hiim & Hsub & Hvpc & Hlaunched) Hip x. subst x.
  unfold EC2ASM.ec2_attack_surface_open_tcp_port_check_instance. mred.
  rewrite (str_at_1_inv _ _ _ Hiid), (str_at_1_inv _ _ _ Hity),
    (str_at_1_inv _ _ _ Hiim), (str_at_1_inv _ _ _ Hsub), (str_at_1_inv _ _ _ Hvpc),
    Hlaunched.
  unfold EC2ASM.instance_host_ip. rewrite Hip. by cbn.
Qed.

End RunFacts.

(** ** The findings of a run, resource by resource *)

Section FindingsOfRuns.
Context `{RT : Runtime}.

Lemma at_rest_verdict iso a r p cluster f :
  DAX.dax_encryption_at_rest_check_cluster iso a r p cluster = Ok f ->
  verdict_of DAX.dax_encryption_at_rest_check_guard cluster f.
Proof. apply dax_at_rest_status. Qed.

Lemma in_transit_verdict iso a r p cluster f :
  DAX.dax_encryption_in_transit_check_cluster iso a r p cluster = Ok f ->
  verdict_of DAX.dax_encryption_in_transit_check_guard cluster f.
Proof. apply dax_in_transit_status. Qed.

Lemma ec2_port_verdict iso a r p iid iarn ity iim sub vpc launched index port f :
  EC2ASM.ec2_attack_surface_open_tcp_port_check_port
    iso a r p iid iarn ity iim sub vpc launched index port = Ok f ->
  verdict_of port_verdict port f.
Proof.
  intros H. apply ec2_port_status in H as (state & Hstate & Hs).
  eexists. split; [|exact Hs]. unfold port_verdict. by rewrite Hstate.
Qed.

Lemma elbv2_port_verdict iso a r p arn name dns ty scheme vpc ipt index port f :
  EC2ASM.elbv2_attack_surface_open_tcp_port_check_port
    iso a r p arn name dns ty scheme vpc ipt index port = Ok f ->
  verdict_of port_verdict port f.
Proof.
  intros H. apply elbv2_port_status in H as (state & Hstate & Hs).
  eexists. split; [|exact Hs]. unfold port_verdict. by rewrite Hstate.
Qed.

Lemma at_rest_id_of iso a r p cluster f :
  DAX.dax_encryption_at_rest_check_cluster iso a r p cluster = Ok f ->
  id_of at_rest_finding_id cluster f.
Proof.
  intros H. apply dax_at_rest_id in H as (arn & Harn & Hid).
  eexists. split; [|exact Hid]. unfold at_rest_finding_id. by rewrite Harn.
Qed.

Lemma in_transit_id_of iso a r p cluster f :
  DAX.dax_encryption_in_transit_check_cluster iso a r p cluster = Ok f ->
  id_of in_transit_finding_id cluster f.
Proof.
  intros H. apply dax_in_transit_id in H as (arn & Harn & Hid).
  eexists. split; [|exact Hid]. unfold in_transit_finding_id. by rewrite Harn.
Qed.

Lemma ec2_port_id_of iso a r p iid ity iim sub vpc launched index port f :
  ec2_port_finding iso a r p iid ity iim sub vpc launched index port = Ok f ->
  id_of (ec2_finding_id p r a iid) port f.
Proof.
  intros H. apply ec2_port_id in H as (portid & n & name & Hportid & Hn & Hname & Hid).
  eexists. split; [|exact Hid]. unfold ec2_finding_id, scanned_service.
  rewrite Hportid. cbn [rbind]. rewrite Hn. cbn [rbind]. by rewrite Hname.
Qed.

Lemma elbv2_port_id_of iso a r p arn name dns ty scheme vpc ipt index port f :
  EC2ASM.elbv2_attack_surface_open_tcp_port_check_port
    iso a r p arn name dns ty scheme vpc ipt index port = Ok f ->
  id_of (elbv2_finding_id arn) port f.
Proof.
  intros H. apply elbv2_port_id in H as (portid & n & sname & Hportid & Hn & Hname & Hid).
  eexists. split; [|exact Hid]. unfold elbv2_finding_id, scanned_service.
  rewrite Hportid. cbn [rbind]. rewrite Hn. cbn [rbind]. by rewrite Hname.
Qed.

(** Two lists of findings whose Ids follow the resources have the same Id
    wherever the resources have. *)
Lemma same_id_at_step (id1 id2 : pyval -> result string) l1 l2 fs1 fs2 k x1 x2 :
  in_step (id_of id1) l1 fs1 -> in_step (id_of id2) l2 fs2 ->
  l1 !! k = Some x1 -> l2 !! k = Some x2 -> id1 x1 = id2 x2 ->
  same_id_at k fs1 fs2.
Proof.
  intros H1 H2 Hx1 Hx2 Hid f1 f2 Hf1 Hf2.
  destruct (in_step_lookup _ _ _ _ _ _ H1 Hx1 Hf1) as (s1 & E1 & ->).
  destruct (in_step_lookup _ _ _ _ _ _ H2 Hx2 Hf2) as (s2 & E2 & ->).
  congruence.
Qed.

Lemma at_rest_only_enabling iso a r p cluster f :
  DAX.dax_encryption_at_rest_check_cluster iso a r p cluster = Ok f ->
  at_rest_outcome cluster f.
Proof.
  intros H.
  apply dax_at_rest_status in H as (failing & Hg & Hs).
  unfold DAX.dax_encryption_at_rest_check_guard in Hg.
  destruct (py_getitem cluster (PyStr "SSEDescription")) as [sse|] eqn:E1; [simpl in Hg|discriminate].
  destruct (py_getitem sse (PyStr "Status")) as [status|] eqn:E2; [simpl in Hg|discriminate].
  injection Hg as <-. exists sse, status. do 2 (split; [done|]).
  change (py_or (PyStr "ENABLING") (PyStr "ENABLED")) with (PyStr "ENABLING") in Hs.
  unfold py_ne in Hs.
  destruct (py_eqb status (PyStr "ENABLING")) eqn:E3; simpl in Hs.
  - apply py_eqb_str in E3. subst status.
    split; [congruence|]. split; [done|]. discriminate.
  - assert (status <> PyStr "ENABLING") as Hne.
    { intros ->. simpl in E3. discriminate. }
    split; [done|]. split; [congruence|]. done.
Qed.

(** A cluster whose finding cannot be built stops the check. *)
Lemma first_error_aborts {A} (build : A -> result pyval) (l : list A) x e :
  In x l -> build x = Raise e ->
  (exists e', first_error (map build l) = Raise e') /\
  (length (yields_until_error (map build l)) < length l)%nat.
Proof.
  intros Hin Hx. induction l as [|y l IH]; [destruct Hin|].
  cbn [map first_error yields_until_error length].
  destruct (build y) as [f|e'] eqn:E.
  - destruct Hin as [->|Hin]; [congruence|].
    destruct (IH Hin) as [He Hlen]. split; [exact He|]. cbn [length]. lia.
  - split; [eauto|]. cbn [length]. lia.
Qed.

End FindingsOfRuns.

(** Find the read that raised, among [paths]. *)
Ltac find_read paths :=
  lazymatch paths with
  | cons ?path ?rest =>
      first
        [ exists path; split;
          [ cbv [In at_rest_read_paths in_transit_read_paths dax_evidence_paths]; tauto
          | cbn [py_path];
            repeat match goal with
            | E : py_getitem ?v ?k = _ |- context [py_getitem ?v ?k] =>
                rewrite E; cbn [rbind]
            end;
            reflexivity ]
        | find_read rest ]
  end.

(** Follow a chain of [let?] that raised down to the read that raised. *)
Ltac raised_read H paths :=
  repeat match type of H with
  | context [rbind (py_getitem ?v ?k) _] =>
      let E := fresh "E" in
      destruct (py_getitem v k) eqn:E; cbn [rbind] in H;
      [|injection H as <-; find_read paths]
  end.

Section Reads.
Context `{RT : Runtime}.

Lemma at_rest_raises_a_read iso a r p cluster e :
  DAX.dax_encryption_at_rest_check_cluster iso a r p cluster = Raise e ->
  exists path, In path at_rest_read_paths /\ py_path cluster path = Raise e.
Proof.
  unfold DAX.dax_encryption_at_rest_check_cluster, DAX.dax_encryption_at_rest_check_guard.
  intros H.
  let paths := eval cbv [at_rest_read_paths dax_evidence_paths] in at_rest_read_paths in
  (raised_read H paths;
   destruct (py_ne _ _);
     [unfold DAX.dax_encryption_at_rest_check_failing in H
     |unfold DAX.dax_encryption_at_rest_check_passing in H];
     raised_read H paths; discriminate H).
Qed.

Lemma in_transit_raises_a_read iso a r p cluster e :
  DAX.dax_encryption_in_transit_check_cluster iso a r p cluster = Raise e ->
  exists path, In path in_transit_read_paths /\ py_path cluster path = Raise e.
Proof.
  unfold DAX.dax_encryption_in_transit_check_cluster,
    DAX.dax_encryption_in_transit_check_guard.
  intros H.
  let paths := eval cbv [in_transit_read_paths dax_evidence_paths] in in_transit_read_paths in
  (raised_read H paths;
   destruct (py_eqb _ _);
     [unfold DAX.dax_encryption_in_transit_check_failing in H
     |unfold DAX.dax_encryption_in_transit_check_passing in H];
     raised_read H paths; discriminate H).
Qed.

End Reads.

(** ** Claims about the findings *)

Section FindingClaims.
Context `{RT : Runtime}.

(** C2. Every finding a registered check yields carries the status fields of
    the verdict of the check: when the guard of the check evaluates to
    failing, Severity.Label is HIGH, Compliance.Status is FAILED,
    Workflow.Status is NEW and RecordState is ACTIVE; when it evaluates to
    passing they are INFORMATIONAL, PASSED, RESOLVED and ARCHIVED.  The first
    four parts are about the finding built for one cluster or one scanned
    port, the fifth about every finding yielded in every run of every
    registered check.  The last four are about the runs: against an outside
    that answers the clock and lists clusters, a DAX check yields the findings
    built for the clusters, one after the other up to the first that cannot be
    built, and the finding at each position has the status of the verdict of
    the guard on the cluster at that position; against a scanner that answers
    the scan of an instance or of a load balancer with ports, the check yields
    the findings built for the ports, and the finding at each position has the
    status of the verdict on the port at that position: failing when the port
    is open. *)
Theorem C2_status_follows_verdict :
  (forall iso a r p cluster f,
     DAX.dax_encryption_at_rest_check_cluster iso a r p cluster = Ok f ->
     exists failing, DAX.dax_encryption_at_rest_check_guard cluster = Ok failing /\
                     status_of_verdict failing f) /\
  (forall iso a r p cluster f,
     DAX.dax_encryption_in_transit_check_cluster iso a r p cluster = Ok f ->
     exists failing, DAX.dax_encryption_in_transit_check_guard cluster = Ok failing /\
                     status_of_verdict failing f) /\
  (forall iso a r p iid iarn ity iim sub vpc launched index port f,
     EC2ASM.ec2_attack_surface_open_tcp_port_check_port
       iso a r p iid iarn ity iim sub vpc launched index port = Ok f ->
     exists state, py_getitem port (PyStr "state") = Ok state /\
                   status_of_verdict (String.eqb (py_str state) "open") f) /\
  (forall iso a r p arn name dns ty scheme vpc ipt index port f,
     EC2ASM.elbv2_attack_surface_open_tcp_port_check_port
       iso a r p arn name dns ty scheme vpc ipt index port = Ok f ->
     exists state, py_getitem port (PyStr "state") = Ok state /\
                   status_of_verdict (String.eqb (py_str state) "open") f) /\
  (forall service check a r p cache W (h : handler W) (w : W),
     In (service, check) registered_checks ->
     Forall well_formed_status (yielded (trace (run h (check a r p cache) w)))) /\
  (forall W (h : handler W) (w : W) a r p cache time clusters,
     dax_run_sees h w cache time clusters ->
     let tr := trace (run h (DAX.dax_encryption_at_rest_check a r p cache) w) in
     yielded tr =
       yields_until_error
         (map (DAX.dax_encryption_at_rest_check_cluster time a r p) clusters) /\
     in_step (verdict_of DAX.dax_encryption_at_rest_check_guard) clusters (yielded tr)) /\
  (forall W (h : handler W) (w : W) a r p cache time clusters,
     dax_run_sees h w cache time clusters ->
     let tr := trace (run h (DAX.dax_encryption_in_transit_check a r p cache) w) in
     yielded tr =
       yields_until_error
         (map (DAX.dax_encryption_in_transit_check_cluster time a r p) clusters) /\
     in_step (verdict_of DAX.dax_encryption_in_transit_check_guard) clusters (yielded tr)) /\
  (forall W (h : handler W) (w : W) S (s : S) iso a r p i
          iid ity iim sub vpc launched hostIp scanner ports,
     ec2_instance_reads i iid ity iim sub vpc launched hostIp ->
     scan_answered h w hostIp scanner hostIp ports ->
     let tr := trace (run h (EC2ASM.ec2_attack_surface_open_tcp_port_check_instance
                               iso a r p i s) w) in
     yielded tr =
       yields_until_error
         (port_findings (ec2_port_finding iso a r p iid ity iim sub vpc launched) ports) /\
     in_step (verdict_of port_verdict) ports (yielded tr)) /\
  (forall W (h : handler W) (w : W) S (s : S) iso a r p lb
          arn name dns ty scheme vpc ipt scanner key ports,
     elbv2_lb_reads lb arn name dns ty scheme vpc ipt ->
     scan_answered h w (PyStr dns) scanner key ports ->
     EC2ASM.first_key scanner = Ok key ->
     let tr := trace (run h (EC2ASM.elbv2_attack_surface_open_tcp_port_check_lb
                               iso a r p lb s) w) in
     yielded tr =
       yields_until_error
         (port_findings (EC2ASM.elbv2_attack_surface_open_tcp_port_check_port iso a r p
                           arn name dns ty scheme vpc ipt) ports) /\
     in_step (verdict_of port_verdict) ports (yielded tr)).
Proof.
  split; [exact dax_at_rest_status|].
  split; [exact dax_in_transit_status|].
  split; [exact ec2_port_status|].
  split; [exact elbv2_port_status|].
  split.
  { intros service check a r p cache W h w Hin.
    apply yielded_Forall.
    apply (always_run h _ (fun tr _ => Forall (fun ev => yields_only well_formed_status (fst ev)) tr)).
    apply all_ops_always. by eapply registered_checks_ops. }
  split; [|split; [|split]].
  - intros W h w a r p cache time clusters Hsees tr. subst tr.
    destruct (at_rest_check_run h w a r p cache time clusters Hsees) as [Hy _].
    split; [exact Hy|]. rewrite Hy. apply in_step_yields.
    intros cluster f. apply at_rest_verdict.
  - intros W h w a r p cache time clusters Hsees tr. subst tr.
    destruct (in_transit_check_run h w a r p cache time clusters Hsees) as [Hy _].
    split; [exact Hy|]. rewrite Hy. apply in_step_yields.
    intros cluster f. apply in_transit_verdict.
  - intros W h w S s iso a r p i iid ity iim sub vpc launched hostIp scanner ports
      Hreads Hscan tr. subst tr.
    destruct (ec2_instance_run h w s iso a r p i _ _ _ _ _ _ _ _ _ Hreads Hscan) as [Hy _].
    split; [exact Hy|]. rewrite Hy. apply in_step_ports.
    intros index port f. apply ec2_port_verdict.
  - intros W h w S s iso a r p lb arn name dns ty scheme vpc ipt scanner key ports
      Hreads Hscan Hkey tr. subst tr.
    destruct (elbv2_lb_run h w s iso a r p lb _ _ _ _ _ _ _ _ _ _ Hreads Hscan Hkey)
      as [Hy _].
    split; [exact Hy|]. rewrite Hy. apply in_step_ports.
    intros index port f. apply elbv2_port_verdict.
Qed.

(** C6. The Id of a finding is the identifier of the resource followed by the
    code suffix of the check, in the failing and in the passing branch alike:
    the ARN of the cluster and [/dax-encryption-at-rest-check] or
    [/dax-encryption-in-transit-check]; the ARN of the instance, which the
    check builds from the partition, the region and the account of the run
    and the InstanceId of the instance, or the LoadBalancerArn of the load
    balancer, and [/attack-surface-ec2-open-<service>-check] or
    [/attack-surface-elbv2-open-<service>-check].  In the runs: the finding
    yielded at each position has the Id that the cluster, or the port of the
    instance or load balancer, at that position gives.  Hence two runs of a
    check, against any two outsides, at any two times and with any two
    verdicts, yield findings with the same Id at every position where the
    clusters have the same ClusterArn, or where the ports of two instances
    with the same InstanceId, or of two load balancers with the same
    LoadBalancerArn, have the same service name. *)
Theorem C6_finding_id_deterministic :
  (forall iso a r p cluster f,
     DAX.dax_encryption_at_rest_check_cluster iso a r p cluster = Ok f ->
     exists arn, py_getitem cluster (PyStr "ClusterArn") = Ok arn /\
       get_path f ["Id"] = Some (PyStr (py_str arn +:+ "/dax-encryption-at-rest-check"))) /\
  (forall iso a r p cluster f,
     DAX.dax_encryption_in_transit_check_cluster iso a r p cluster = Ok f ->
     exists arn, py_getitem cluster (PyStr "ClusterArn") = Ok arn /\
       get_path f ["Id"] = Some (PyStr (py_str arn +:+ "/dax-encryption-in-transit-check"))) /\
  (forall iso1 iso2 a1 a2 r1 r2 p1 p2 cluster1 cluster2 f1 f2,
     DAX.dax_encryption_at_rest_check_cluster iso1 a1 r1 p1 cluster1 = Ok f1 ->
     DAX.dax_encryption_at_rest_check_cluster iso2 a2 r2 p2 cluster2 = Ok f2 ->
     py_getitem cluster1 (PyStr "ClusterArn") = py_getitem cluster2 (PyStr "ClusterArn") ->
     get_path f1 ["Id"] = get_path f2 ["Id"]) /\
  (forall iso1 iso2 a1 a2 r1 r2 p1 p2 cluster1 cluster2 f1 f2,
     DAX.dax_encryption_in_transit_check_cluster iso1 a1 r1 p1 cluster1 = Ok f1 ->
     DAX.dax_encryption_in_transit_check_cluster iso2 a2 r2 p2 cluster2 = Ok f2 ->
     py_getitem cluster1 (PyStr "ClusterArn") = py_getitem cluster2 (PyStr "ClusterArn") ->
     get_path f1 ["Id"] = get_path f2 ["Id"]) /\
  (forall W (h : handler W) (w : W) a r p cache time clusters,
     dax_run_sees h w cache time clusters ->
     let x := trace (run h (DAX.dax_encryption_at_rest_check a r p cache) w) in
     let y := trace (run h (DAX.dax_encryption_in_transit_check a r p cache) w) in
     (yielded x =
        yields_until_error
          (map (DAX.dax_encryption_at_rest_check_cluster time a r p) clusters) /\
      in_step (id_of at_rest_finding_id) clusters (yielded x)) /\
     (yielded y =
        yields_until_error
          (map (DAX.dax_encryption_in_transit_check_cluster time a r p) clusters) /\
      in_step (id_of in_transit_finding_id) clusters (yielded y))) /\
  (forall W (h : handler W) (w : W) S (s : S) iso a r p i
          iid ity iim sub vpc launched hostIp scanner ports,
     ec2_instance_reads i iid ity iim sub vpc launched hostIp ->
     scan_answered h w hostIp scanner hostIp ports ->
     let tr := trace (run h (EC2ASM.ec2_attack_surface_open_tcp_port_check_instance
                               iso a r p i s) w) in
     yielded tr =
       yields_until_error
         (port_findings (ec2_port_finding iso a r p iid ity iim sub vpc launched) ports) /\
     in_step (id_of (ec2_finding_id p r a iid)) ports (yielded tr)) /\
  (forall W (h : handler W) (w : W) S (s : S) iso a r p lb
          arn name dns ty scheme vpc ipt scanner key ports,
     elbv2_lb_reads lb arn name dns ty scheme vpc ipt ->
     scan_answered h w (PyStr dns) scanner key ports ->
     EC2ASM.first_key scanner = Ok key ->
     let tr := trace (run h (EC2ASM.elbv2_attack_surface_open_tcp_port_check_lb
                               iso a r p lb s) w) in
     yielded tr =
       yields_until_error
         (port_findings (EC2ASM.elbv2_attack_surface_open_tcp_port_check_port iso a r p
                           arn name dns ty scheme vpc ipt) ports) /\
     in_step (id_of (elbv2_finding_id arn)) ports (yielded tr)) /\
  (forall W1 W2 (h1 : handler W1) (h2 : handler W2) w1 w2 a1 a2 r1 r2 p1 p2
          cache1 cache2 time1 time2 clusters1 clusters2 k cluster1 cluster2,
     dax_run_sees h1 w1 cache1 time1 clusters1 ->
     dax_run_sees h2 w2 cache2 time2 clusters2 ->
     clusters1 !! k = Some cluster1 -> clusters2 !! k = Some cluster2 ->
     py_getitem cluster1 (PyStr "ClusterArn") = py_getitem cluster2 (PyStr "ClusterArn") ->
     same_id_at k
       (yielded (trace (run h1 (DAX.dax_encryption_at_rest_check a1 r1 p1 cache1) w1)))
       (yielded (trace (run h2 (DAX.dax_encryption_at_rest_check a2 r2 p2 cache2) w2))) /\
     same_id_at k
       (yielded (trace (run h1 (DAX.dax_encryption_in_transit_check a1 r1 p1 cache1) w1)))
       (yielded (trace (run h2 (DAX.dax_encryption_in_transit_check a2 r2 p2 cache2) w2)))) /\
  (forall W1 W2 (h1 : handler W1) (h2 : handler W2) w1 w2 S1 S2 (s1 : S1) (s2 : S2)
          iso1 iso2 a r p i1 i2 iid ity1 ity2 iim1 iim2 sub1 sub2 vpc1 vpc2
          launched1 launched2 hostIp1 hostIp2 scanner1 scanner2 ports1 ports2 k port1 port2,
     ec2_instance_reads i1 iid ity1 iim1 sub1 vpc1 launched1 hostIp1 ->
     ec2_instance_reads i2 iid ity2 iim2 sub2 vpc2 launched2 hostIp2 ->
     scan_answered h1 w1 hostIp1 scanner1 hostIp1 ports1 ->
     scan_answered h2 w2 hostIp2 scanner2 hostIp2 ports2 ->
     ports1 !! k = Some port1 -> ports2 !! k = Some port2 ->
     scanned_service port1 = scanned_service port2 ->
     same_id_at k
       (yielded (trace (run h1 (EC2ASM.ec2_attack_surface_open_tcp_port_check_instance
                                  iso1 a r p i1 s1) w1)))
       (yielded (trace (run h2 (EC2ASM.ec2_attack_surface_open_tcp_port_check_instance
                                  iso2 a r p i2 s2) w2)))) /\
  (forall W1 W2 (h1 : handler W1) (h2 : handler W2) w1 w2 S1 S2 (s1 : S1) (s2 : S2)
          iso1 iso2 a1 a2 r1 r2 p1 p2 lb1 lb2 arn name1 name2 dns1 dns2 ty1 ty2
          scheme1 scheme2 vpc1 vpc2 ipt1 ipt2 scanner1 scanner2 key1 key2
          ports1 ports2 k port1 port2,
     elbv2_lb_reads lb1 arn name1 dns1 ty1 scheme1 vpc1 ipt1 ->
     elbv2_lb_reads lb2 arn name2 dns2 ty2 scheme2 vpc2 ipt2 ->
     scan_answered h1 w1 (PyStr dns1) scanner1 key1 ports1 ->
     scan_answered h2 w2 (PyStr dns2) scanner2 key2 ports2 ->
     EC2ASM.first_key scanner1 = Ok key1 -> EC2ASM.first_key scanner2 = Ok key2 ->
     ports1 !! k = Some port1 -> ports2 !! k = Some port2 ->
     scanned_service port1 = scanned_service port2 ->
     same_id_at k
       (yielded (trace (run h1 (EC2ASM.elbv2_attack_surface_open_tcp_port_check_lb
                                  iso1 a1 r1 p1 lb1 s1) w1)))
       (yielded (trace (run h2 (EC2ASM.elbv2_attack_surface_open_tcp_port_check_lb
                                  iso2 a2 r2 p2 lb2 s2) w2)))).
Proof.
  assert (forall W (h : handler W) (w : W) a r p cache time clusters,
            dax_run_sees h w cache time clusters ->
            let x := trace (run h (DAX.dax_encryption_at_rest_check a r p cache) w) in
            yielded x =
              yields_until_error
                (map (DAX.dax_encryption_at_rest_check_cluster time a r p) clusters) /\
            in_step (id_of at_rest_finding_id) clusters (yielded x)) as Hrest.
  { intros W h w a r p cache time clusters Hsees x. subst x.
    destruct (at_rest_check_run h w a r p cache time clusters Hsees) as [Hy _].
    split; [exact Hy|]. rewrite Hy. apply in_step_yields.
    intros cluster f. apply at_rest_id_of. }
  assert (forall W (h : handler W) (w : W) a r p cache time clusters,
            dax_run_sees h w cache time clusters ->
            let y := trace (run h (DAX.dax_encryption_in_transit_check a r p cache) w) in
            yielded y =
              yields_until_error
                (map (DAX.dax_encryption_in_transit_check_cluster time a r p) clusters) /\
            in_step (id_of in_transit_finding_id) clusters (yielded y)) as Htransit.
  { intros W h w a r p cache time clusters Hsees y. subst y.
    destruct (in_transit_check_run h w a r p cache time clusters Hsees) as [Hy _].
    split; [exact Hy|]. rewrite Hy. apply in_step_yields.
    intros cluster f. apply in_transit_id_of. }
  assert (forall W (h : handler W) (w : W) S (s : S) iso a r p i
                 iid ity iim sub vpc launched hostIp scanner ports,
            ec2_instance_reads i iid ity iim sub vpc launched hostIp ->
            scan_answered h w hostIp scanner hostIp ports ->
            let tr := trace (run h (EC2ASM.ec2_attack_surface_open_tcp_port_check_instance
                                      iso a r p i s) w) in
            yielded tr =
              yields_until_error
                (port_findings (ec2_port_finding iso a r p iid ity iim sub vpc launched) ports) /\
            in_step (id_of (ec2_finding_id p r a iid)) ports (yielded tr)) as Hec2.
  { intros W h w S s iso a r p i iid ity iim sub vpc launched hostIp scanner ports
      Hreads Hscan tr. subst tr.
    destruct (ec2_instance_run h w s iso a r p i _ _ _ _ _ _ _ _ _ Hreads Hscan) as [Hy _].
    split; [exact Hy|]. rewrite Hy. apply in_step_ports.
    intros index port f. apply ec2_port_id_of. }
  assert (forall W (h : handler W) (w : W) S (s : S) iso a r p lb
                 arn name dns ty scheme vpc ipt scanner key ports,
            elbv2_lb_reads lb arn name dns ty scheme vpc ipt ->
            scan_answered h w (PyStr dns) scanner key ports ->
            EC2ASM.first_key scanner = Ok key ->
            let tr := trace (run h (EC2ASM.elbv2_attack_surface_open_tcp_port_check_lb
                                      iso a r p lb s) w) in
            yielded tr =
              yields_until_error
                (port_findings (EC2ASM.elbv2_attack_surface_open_tcp_port_check_port iso a r p
                                  arn name dns ty scheme vpc ipt) ports) /\
            in_step (id_of (elbv2_finding_id arn)) ports (yielded tr)) as Helb.
  { intros W h w S s iso a r p lb arn name dns ty scheme vpc ipt scanner key ports
      Hreads Hscan Hkey tr. subst tr.
    destruct (elbv2_lb_run h w s iso a r p lb _ _ _ _ _ _ _ _ _ _ Hreads Hscan Hkey)
      as [Hy _].
    split; [exact Hy|]. rewrite Hy. apply in_step_ports.
    intros index port f. apply elbv2_port_id_of. }
  split; [exact dax_at_rest_id|].
  split; [exact dax_in_transit_id|].
  split.
  { intros iso1 iso2 a1 a2 r1 r2 p1 p2 c1 c2 f1 f2 H1 H2 Harn.
    apply dax_at_rest_id in H1 as (arn1 & E1 & ->).
    apply dax_at_rest_id in H2 as (arn2 & E2 & ->).
    congruence. }
  split.
  { intros iso1 iso2 a1 a2 r1 r2 p1 p2 c1 c2 f1 f2 H1 H2 Harn.
    apply dax_in_transit_id in H1 as (arn1 & E1 & ->).
    apply dax_in_transit_id in H2 as (arn2 & E2 & ->).
    congruence. }
  split.
  { intros W h w a r p cache time clusters Hsees x y.
    split; [by apply Hrest|by apply Htransit]. }
  split; [exact Hec2|]. split; [exact Helb|].
  split; [|split].
  - intros W1 W2 h1 h2 w1 w2 a1 a2 r1 r2 p1 p2 cache1 cache2 time1 time2
      clusters1 clusters2 k c1 c2 Hsees1 Hsees2 Hc1 Hc2 Harn.
    split.
    + eapply same_id_at_step;
        [exact (proj2 (Hrest _ h1 w1 a1 r1 p1 _ _ _ Hsees1))
        |exact (proj2 (Hrest _ h2 w2 a2 r2 p2 _ _ _ Hsees2))
        |exact Hc1|exact Hc2|].
      unfold at_rest_finding_id. by rewrite Harn.
    + eapply same_id_at_step;
        [exact (proj2 (Htransit _ h1 w1 a1 r1 p1 _ _ _ Hsees1))
        |exact (proj2 (Htransit _ h2 w2 a2 r2 p2 _ _ _ Hsees2))
        |exact Hc1|exact Hc2|].
      unfold in_transit_finding_id. by rewrite Harn.
  - intros W1 W2 h1 h2 w1 w2 S1 S2 s1 s2 iso1 iso2 a r p i1 i2 iid ity1 ity2 iim1 iim2
      sub1 sub2 vpc1 vpc2 launched1 launched2 hostIp1 hostIp2 scanner1 scanner2
      ports1 ports2 k port1 port2 Hreads1 Hreads2 Hscan1 Hscan2 Hq1 Hq2 Hservice.
    eapply same_id_at_step;
      [exact (proj2 (Hec2 _ h1 w1 _ s1 iso1 a r p i1 _ _ _ _ _ _ _ _ _ Hreads1 Hscan1))
      |exact (proj2 (Hec2 _ h2 w2 _ s2 iso2 a r p i2 _ _ _ _ _ _ _ _ _ Hreads2 Hscan2))
      |exact Hq1|exact Hq2|].
    unfold ec2_finding_id. by rewrite Hservice.
  - intros W1 W2 h1 h2 w1 w2 S1 S2 s1 s2 iso1 iso2 a1 a2 r1 r2 p1 p2 lb1 lb2 arn
      name1 name2 dns1 dns2 ty1 ty2 scheme1 scheme2 vpc1 vpc2 ipt1 ipt2
      scanner1 scanner2 key1 key2 ports1 ports2 k port1 port2
      Hreads1 Hreads2 Hscan1 Hscan2 Hkey1 Hkey2 Hq1 Hq2 Hservice.
    eapply same_id_at_step;
      [exact (proj2 (Helb _ h1 w1 _ s1 iso1 a1 r1 p1 lb1 _ _ _ _ _ _ _ _ _ _
                       Hreads1 Hscan1 Hkey1))
      |exact (proj2 (Helb _ h2 w2 _ s2 iso2 a2 r2 p2 lb2 _ _ _ _ _ _ _ _ _ _
                       Hreads2 Hscan2 Hkey2))
      |exact Hq1|exact Hq2|].
    unfold elbv2_finding_id. by rewrite Hservice.
Qed.

(** C10. In [dax_encryption_at_rest_check] the right-hand side of the guard,
    ["ENABLING" or "ENABLED"], evaluates to ["ENABLING"].  So a cluster whose
    SSEDescription.Status is anything but the string ENABLING, the status
    ENABLED included, gets the FAILED / NEW / ACTIVE finding, and only the
    status ENABLING gets the PASSED finding.  This holds of the finding built
    for a cluster, and of the run of the check: against an outside that
    answers the clock and lists clusters, the check yields the findings built
    for the clusters, one after the other up to the first that cannot be
    built, and the finding at each position is the failing one unless the
    status of the cluster at that position is ENABLING. *)
Theorem C10_only_enabling_passes :
  py_or (PyStr "ENABLING") (PyStr "ENABLED") = PyStr "ENABLING" /\
  (forall iso a r p cluster f,
     DAX.dax_encryption_at_rest_check_cluster iso a r p cluster = Ok f ->
     exists sse status,
       py_getitem cluster (PyStr "SSEDescription") = Ok sse /\
       py_getitem sse (PyStr "Status") = Ok status /\
       (status <> PyStr "ENABLING" -> failing_status f) /\
       (status = PyStr "ENABLING" -> passing_status f) /\
       (status = PyStr "ENABLED" -> failing_status f)) /\
  (forall W (h : handler W) (w : W) a r p cache time clusters,
     dax_run_sees h w cache time clusters ->
     let tr := trace (run h (DAX.dax_encryption_at_rest_check a r p cache) w) in
     yielded tr =
       yields_until_error
         (map (DAX.dax_encryption_at_rest_check_cluster time a r p) clusters) /\
     in_step at_rest_outcome clusters (yielded tr)).
Proof.
  split; [reflexivity|]. split.
  - intros iso a r p cluster f H. exact (at_rest_only_enabling _ _ _ _ _ _ H).
  - intros W h w a r p cache time clusters Hsees tr. subst tr.
    destruct (at_rest_check_run h w a r p cache time clusters Hsees) as [Hy _].
    split; [exact Hy|]. rewrite Hy. apply in_step_yields.
    intros cluster f. apply at_rest_only_enabling.
Qed.

(** C7, as amended.  No attribute is optional for the DAX checks and none
    is rendered as an unknown marker.  When one of the attributes copied into
    the details of the finding cannot be read from the cluster record, the
    construction of the finding raises, in both checks; what it raises is the
    exception of one of its reads of the record, the [KeyError] of the key
    when a key is missing; and in a run the check stops there: it raises, and
    the cluster and those after it get no finding.  The EC2 check tolerates
    two absent keys: when a key on the way to the EBS attach time is missing
    the launch time of the instance is used instead, and when the
    PublicIpAddress key is missing the instance is skipped: it is not scanned
    and gets no finding and, when the fields before the address can be read,
    the work on it performs nothing and ends normally, so that the loop goes
    on. *)
Theorem C7_missing_evidence_raises :
  (forall iso a r p cluster path e,
     In path dax_evidence_paths ->
     py_path cluster path = Raise e ->
     (exists e', DAX.dax_encryption_at_rest_check_cluster iso a r p cluster = Raise e') /\
     (exists e', DAX.dax_encryption_in_transit_check_cluster iso a r p cluster = Raise e')) /\
  (forall iso a r p cluster e,
     (DAX.dax_encryption_at_rest_check_cluster iso a r p cluster = Raise e ->
      exists path, In path at_rest_read_paths /\ py_path cluster path = Raise e) /\
     (DAX.dax_encryption_in_transit_check_cluster iso a r p cluster = Raise e ->
      exists path, In path in_transit_read_paths /\ py_path cluster path = Raise e)) /\
  (forall d (key : string),
     assoc key d = None ->
     py_path (PyDict d) [PyStr key] = Raise (KeyError (PyStr key))) /\
  (forall W (h : handler W) (w : W) a r p cache time clusters,
     dax_run_sees h w cache time clusters ->
     let x := run h (DAX.dax_encryption_at_rest_check a r p cache) w in
     let y := run h (DAX.dax_encryption_in_transit_check a r p cache) w in
     (yielded (trace x) =
        yields_until_error
          (map (DAX.dax_encryption_at_rest_check_cluster time a r p) clusters) /\
      fst (outcome x) =
        first_error (map (DAX.dax_encryption_at_rest_check_cluster time a r p) clusters)) /\
     (yielded (trace y) =
        yields_until_error
          (map (DAX.dax_encryption_in_transit_check_cluster time a r p) clusters) /\
      fst (outcome y) =
        first_error (map (DAX.dax_encryption_in_transit_check_cluster time a r p) clusters)) /\
     (forall cluster path e,
        In cluster clusters -> In path dax_evidence_paths ->
        py_path cluster path = Raise e ->
        aborts_before_end clusters (trace x) (outcome x) /\
        aborts_before_end clusters (trace y) (outcome y))) /\
  (forall i k,
     py_path i ebs_attach_time_path = Raise (KeyError k) ->
     EC2ASM.instance_launched_at i =
       (let? launchTime := py_getitem i (PyStr "LaunchTime") in Ok (py_str launchTime))) /\
  (forall S iso a r p i k (s : S),
     py_getitem i (PyStr "PublicIpAddress") = Raise (KeyError k) ->
     all_ops no_scan_no_yield
       (EC2ASM.ec2_attack_surface_open_tcp_port_check_instance iso a r p i s)) /\
  (forall W (h : handler W) (w : W) S (s : S) iso a r p i iid ity iim sub vpc launched k,
     ec2_instance_described i iid ity iim sub vpc launched ->
     py_getitem i (PyStr "PublicIpAddress") = Raise (KeyError k) ->
     let x := run h (EC2ASM.ec2_attack_surface_open_tcp_port_check_instance
                       iso a r p i s) w in
     trace x = [] /\ outcome x = (Ok tt, s)).
Proof.
  assert (forall iso a r p cluster path e,
            In path dax_evidence_paths ->
            py_path cluster path = Raise e ->
            (exists e', DAX.dax_encryption_at_rest_check_cluster iso a r p cluster = Raise e') /\
            (exists e', DAX.dax_encryption_in_transit_check_cluster iso a r p cluster = Raise e'))
    as Hraises.
  { intros iso a r p cluster path e Hin Hraise. split.
    + destruct (DAX.dax_encryption_at_rest_check_cluster iso a r p cluster) as [f|e'] eqn:E;
        [|by eauto].
      destruct (dax_at_rest_evidence _ _ _ _ _ _ _ E Hin) as [v Hv]. congruence.
    + destruct (DAX.dax_encryption_in_transit_check_cluster iso a r p cluster) as [f|e'] eqn:E;
        [|by eauto].
      destruct (dax_in_transit_evidence _ _ _ _ _ _ _ E Hin) as [v Hv]. congruence. }
  split; [exact Hraises|].
  split.
  { intros iso a r p cluster e.
    split; [apply at_rest_raises_a_read|apply in_transit_raises_a_read]. }
  split.
  { intros d key Hkey. cbn [py_path py_getitem]. by rewrite Hkey. }
  split.
  { intros W h w a r p cache time clusters Hsees x y. subst x y.
    pose proof (at_rest_check_run h w a r p cache time clusters Hsees) as [Hy1 Ho1].
    pose proof (in_transit_check_run h w a r p cache time clusters Hsees) as [Hy2 Ho2].
    split; [exact (conj Hy1 Ho1)|]. split; [exact (conj Hy2 Ho2)|].
    intros cluster path e Hcluster Hpath Hraise.
    destruct (Hraises time a r p cluster path e Hpath Hraise) as [[e1 He1] [e2 He2]].
    split; unfold aborts_before_end.
    - rewrite Ho1, Hy1. exact (first_error_aborts _ _ _ _ Hcluster He1).
    - rewrite Ho2, Hy2. exact (first_error_aborts _ _ _ _ Hcluster He2). }
  split.
  { intros i k H. unfold EC2ASM.instance_launched_at.
    unfold ebs_attach_time_path in H. simpl in H.
    destruct (py_getitem i (PyStr "BlockDeviceMappings")) as [m|e1]; simpl in *;
      [|by injection H as ->].
    destruct (py_getitem m (PyInt 0)) as [d|e2]; simpl in *; [|by injection H as ->].
    destruct (py_getitem d (PyStr "Ebs")) as [ebs|e3]; simpl in *; [|by injection H as ->].
    destruct (py_getitem ebs (PyStr "AttachTime")) as [t|e4]; simpl in *;
      [discriminate|by injection H as ->]. }
  split.
  { intros S iso a r p i k s H.
    unfold EC2ASM.ec2_attack_surface_open_tcp_port_check_instance.
    repeat (apply all_ops_lift_bind; intros ? ?).
    match goal with E : EC2ASM.instance_host_ip i = Ok _ |- _ =>
      unfold EC2ASM.instance_host_ip in E; rewrite H in E; simpl in E; injection E as <- end.
    constructor. }
  intros W h w S s iso a r p i iid ity iim sub vpc launched k Hdescribed Hip.
  by eapply ec2_instance_skipped.
Qed.

End FindingClaims.

(** ** The claims about the findings at concrete inputs *)

(** The DAX checks abort on a cluster without a discovery endpoint: the
    finding construction raises [KeyError], the check yields nothing, and no
    unknown marker is produced. *)
Lemma C7_counterexample :
  DAX.dax_encryption_at_rest_check_cluster (RT:=example_runtime)
    (PyStr "2021-03-01T12:00:00+00:00") "111111111111" "us-east-1" "aws"
    dax_cluster_creating
  = Raise (KeyError (PyStr "ClusterDiscoveryEndpoint")) /\
  (let x := run (aws_reporting_clusters [dax_cluster_creating])
              (DAX.dax_encryption_at_rest_check (RT:=example_runtime)
                 "111111111111" "us-east-1" "aws" ∅) tt in
   fst (outcome x) = Raise (KeyError (PyStr "ClusterDiscoveryEndpoint")) /\
   yielded (trace x) = []).
Proof. split; [reflexivity|]. vm_compute. split; reflexivity. Qed.

(** The at-rest check on two clusters, one without encryption and one whose
    encryption is being enabled: a failing and a passing finding. *)
Lemma C2_witness :
  let clusters := [dax_cluster "DISABLED"; dax_cluster "ENABLING"] in
  let h := aws_reporting_clusters clusters in
  let time := PyStr "2021-03-01T12:00:00+00:00" in
  let tr := trace (run h (DAX.dax_encryption_at_rest_check (RT:=example_runtime)
                            "111111111111" "us-east-1" "aws" ∅) tt) in
  dax_run_sees h tt ∅ time clusters /\
  yielded tr =
    yields_until_error
      (map (DAX.dax_encryption_at_rest_check_cluster (RT:=example_runtime)
              time "111111111111" "us-east-1" "aws") clusters) /\
  in_step (verdict_of DAX.dax_encryption_at_rest_check_guard) clusters (yielded tr) /\
  (exists f1 f2, yielded tr = [f1; f2] /\ failing_status f1 /\ passing_status f2).
Proof.
  intros clusters h time tr.
  assert (dax_run_sees h tt ∅ time clusters) as Hsees.
  { split; [reflexivity|]. exists (clusters_listing clusters). split; reflexivity. }
  split; [exact Hsees|].
  destruct (proj1 (proj2 (proj2 (proj2 (proj2 (proj2
              (C2_status_follows_verdict (RT:=example_runtime)))))))
              unit h tt "111111111111" "us-east-1" "aws" ∅ time clusters Hsees)
    as [Hyielded Hstep].
  split; [exact Hyielded|]. split; [exact Hstep|].
  eexists _, _. split; [reflexivity|]. split; reflexivity.
Defined.

(** The two ports of the scan of [aws_one_public_instance]: the Ids of the
    two findings. *)
Lemma C6_witness :
  let h := aws_one_public_instance in
  let hostIp := PyStr "203.0.113.7" in
  let scanner := PyDict [("203.0.113.7", PyDict [("ports", PyList scanned_ports)])] in
  let tr := trace (run h (EC2ASM.ec2_attack_surface_open_tcp_port_check_instance
                            (RT:=example_runtime)
                            (PyStr "2021-03-01T12:00:00+00:00")
                            "111111111111" "us-east-1" "aws" public_instance tt) tt) in
  ec2_instance_reads (RT:=example_runtime) public_instance
    "i-0abc" "t3.micro" "ami-1234" "subnet-1" "vpc-0a1b2c3d" "2021-02-01 08:00:00+00:00"
    hostIp /\
  scan_answered h tt hostIp scanner hostIp scanned_ports /\
  in_step (id_of (ec2_finding_id (RT:=example_runtime) "aws" "us-east-1" "111111111111" "i-0abc"))
    scanned_ports (yielded tr) /\
  map (fun f => get_path f ["Id"]) (yielded tr) =
    [ Some (PyStr "arn:aws:ec2:us-east-1:111111111111:instance/i-0abc/attack-surface-ec2-open-SSH-check");
      Some (PyStr "arn:aws:ec2:us-east-1:111111111111:instance/i-0abc/attack-surface-ec2-open-SPLUNKD-check") ].
Proof.
  intros h hostIp scanner tr.
  assert (ec2_instance_reads (RT:=example_runtime) public_instance
            "i-0abc" "t3.micro" "ami-1234" "subnet-1" "vpc-0a1b2c3d"
            "2021-02-01 08:00:00+00:00" hostIp) as Hreads.
  { repeat split; try reflexivity. discriminate. }
  assert (scan_answered h tt hostIp scanner hostIp scanned_ports) as Hscan.
  { split; [reflexivity|]. split; [discriminate|reflexivity]. }
  split; [exact Hreads|]. split; [exact Hscan|].
  destruct (proj1 (proj2 (proj2 (proj2 (proj2 (proj2
              (C6_finding_id_deterministic (RT:=example_runtime)))))))
              unit h tt unit tt (PyStr "2021-03-01T12:00:00+00:00")
              "111111111111" "us-east-1" "aws" public_instance
              "i-0abc" "t3.micro" "ami-1234" "subnet-1" "vpc-0a1b2c3d"
              "2021-02-01 08:00:00+00:00" hostIp scanner scanned_ports Hreads Hscan)
    as [_ Hstep].
  split; [exact Hstep|reflexivity].
Defined.

(** A cluster whose encryption at rest is ENABLED: the check yields one
    finding, the failing one. *)
Lemma C10_witness :
  let clusters := [dax_cluster "ENABLED"] in
  let h := aws_reporting_clusters clusters in
  let time := PyStr "2021-03-01T12:00:00+00:00" in
  let tr := trace (run h (DAX.dax_encryption_at_rest_check (RT:=example_runtime)
                            "111111111111" "us-east-1" "aws" ∅) tt) in
  dax_run_sees h tt ∅ time clusters /\
  yielded tr =
    yields_until_error
      (map (DAX.dax_encryption_at_rest_check_cluster (RT:=example_runtime)
              time "111111111111" "us-east-1" "aws") clusters) /\
  in_step at_rest_outcome clusters (yielded tr) /\
  (exists f, yielded tr = [f] /\ failing_status f).
Proof.
  intros clusters h time tr.
  assert (dax_run_sees h tt ∅ time clusters) as Hsees.
  { split; [reflexivity|]. exists (clusters_listing clusters). split; reflexivity. }
  split; [exact Hsees|].
  destruct (proj2 (proj2 (C10_only_enabling_passes (RT:=example_runtime)))
              unit h tt "111111111111" "us-east-1" "aws" ∅ time clusters Hsees)
    as [Hyielded Hstep].
  split; [exact Hyielded|]. split; [exact Hstep|].
  eexists. split; reflexivity.
Defined.

(** A listing whose second cluster has no discovery endpoint: both checks
    yield the finding of the first cluster and raise the [KeyError]. *)
Lemma C7_witness :
  let clusters := [dax_cluster "ENABLED"; dax_cluster_creating; dax_cluster "ENABLED"] in
  let h := aws_reporting_clusters clusters in
  let time := PyStr "2021-03-01T12:00:00+00:00" in
  let path := [PyStr "ClusterDiscoveryEndpoint"; PyStr "Address"] in
  let x := run h (DAX.dax_encryption_at_rest_check (RT:=example_runtime)
                    "111111111111" "us-east-1" "aws" ∅) tt in
  let y := run h (DAX.dax_encryption_in_transit_check (RT:=example_runtime)
                    "111111111111" "us-east-1" "aws" ∅) tt in
  dax_run_sees h tt ∅ time clusters /\
  In dax_cluster_creating clusters /\
  In path dax_evidence_paths /\
  py_path dax_cluster_creating path = Raise (KeyError (PyStr "ClusterDiscoveryEndpoint")) /\
  aborts_before_end clusters (trace x) (outcome x) /\
  aborts_before_end clusters (trace y) (outcome y) /\
  length (yielded (trace x)) = 1%nat /\
  fst (outcome x) = Raise (KeyError (PyStr "ClusterDiscoveryEndpoint")).
Proof.
  intros clusters h time path x y.
  assert (dax_run_sees h tt ∅ time clusters) as Hsees.
  { split; [reflexivity|]. exists (clusters_listing clusters). split; reflexivity. }
  assert (In dax_cluster_creating clusters) as Hcluster.
  { right. left. reflexivity. }
  assert (In path dax_evidence_paths) as Hpath.
  { do 3 right. left. reflexivity. }
  assert (py_path dax_cluster_creating path
            = Raise (KeyError (PyStr "ClusterDiscoveryEndpoint"))) as Hraise by reflexivity.
  split; [exact Hsees|]. split; [exact Hcluster|]. split; [exact Hpath|].
  split; [exact Hraise|].
  destruct (proj1 (proj2 (proj2 (proj2 (C7_missing_evidence_raises (RT:=example_runtime)))))
              unit h tt "111111111111" "us-east-1" "aws" ∅ time clusters Hsees)
    as (_ & _ & Haborts).
  destruct (Haborts dax_cluster_creating path _ Hcluster Hpath Hraise) as [Hx Hy].
  split; [exact Hx|]. split; [exact Hy|]. split; reflexivity.
Defined.

(** ** The playbook against an outside that accepts its requests *)

Lemma always_when_run {W A} (ok : event -> Prop) (h : handler W) (p : prog A)
    (post : list event -> A -> Prop) (w : W) :
  (forall w o, ok (o, fst (h w o))) ->
  always_when ok p post -> post (trace (run h p w)) (outcome (run h p w)).
Proof.
  intros Hok. revert post w. induction p as [a | o k IH]; intros post w Hp; simpl in *.
  - exact Hp.
  - apply (IH (fst (h w o)) (fun tr a => post ((o, fst (h w o)) :: tr) a)), Hp, Hok.
Qed.

Lemma always_and {A} (p : prog A) (post1 post2 : list event -> A -> Prop) :
  always p post1 -> always p post2 -> always p (fun tr a => post1 tr a /\ post2 tr a).
Proof.
  revert post1 post2. induction p as [a | o k IH]; intros post1 post2 H1 H2; simpl in *.
  - by split.
  - intros r. exact (IH r _ _ (H1 r) (H2 r)).
Qed.

Section PlaybookCompletes.
Context `{RT : Runtime}.

Lemma chain_3 v (k1 k2 k3 : pyval) x :
  py_path v [k1; k2; k3] = Ok x ->
  (let? a := py_getitem v k1 in
   let? b := py_getitem a k2 in
   let? c := py_getitem b k3 in
   Ok (py_str c)) = Ok (py_str x).
Proof.
  cbn [py_path].
  destruct (py_getitem v k1) as [a|]; [cbn [rbind]|done].
  destruct (py_getitem a k2) as [b|]; [cbn [rbind]|done].
  destruct (py_getitem b k3) as [c|]; [cbn [rbind]|done].
  by intros [= ->].
Qed.

Lemma chain_2 v (k1 k2 : pyval) x :
  py_path v [k1; k2] = Ok x ->
  (let? a := py_getitem v k1 in
   let? b := py_getitem a k2 in
   Ok (py_str b)) = Ok (py_str x).
Proof.
  cbn [py_path].
  destruct (py_getitem v k1) as [a|]; [cbn [rbind]|done].
  destruct (py_getitem a k2) as [b|]; [cbn [rbind]|done].
  by intros [= ->].
Qed.

Ltac completes_found :=
  let name := fresh "name" in
  let Hname := fresh "Hname" in
  match goal with H : rbind _ _ = Ok _ |- _ =>
    destruct (log_group_name_inv _ _ H) as (name & Hname & ->);
    eexists _, name, _; split; [eexists _, _; simpl; tauto|];
    split; [exact Hname|reflexivity]
  end.

Lemma pipeline_completes logs iam ec2 securityhub fn findingId vpcId :
  always (Playbook.same_account_pipeline logs iam ec2 securityhub fn findingId vpcId tt)
    (completes securityhub fn findingId).
Proof.
  unfold Playbook.same_account_pipeline.
  walk.
  all: unfold completes; intros Hres;
    first [ discriminate Hres
          | split; [reflexivity|]; split; [cbn; repeat constructor|]; completes_found ].
Qed.

Ltac mred_when :=
  cbn [bind get put ret raise lift perform perform_ print print_exn time_sleep
       yield try_except pbind fst snd always_when rbind].

(** Go on with the answer to a request: the one that was accepted, for a
    provisioning request, and any answer for the others. *)
Ltac accepted_step :=
  lazymatch goal with
  | |- forall r : result pyval, accepted (ApiCall _ ?m _, r) -> _ =>
      let r := fresh "r" in
      let Hok := fresh "Hok" in
      intros r Hok; cbn [accepted] in Hok;
      first
        [ let Hin := fresh "Hin" in
          let Hgroups := fresh "Hgroups" in
          let Hpolicy := fresh "Hpolicy" in
          let Hrole := fresh "Hrole" in
          let Ha := fresh "Ha" in
          let Hb := fresh "Hb" in
          assert (In m provisioning_steps) as Hin by (cbn; tauto);
          destruct (Hok Hin) as (? & -> & Hgroups & Hpolicy & Hrole); clear Hok Hin;
          mred_when;
          try (destruct (Hgroups eq_refl) as (? & ? & Ha & Hb);
               apply chain_3 in Ha; apply chain_3 in Hb; rewrite Ha, Hb);
          try (destruct (Hpolicy eq_refl) as (? & Ha);
               apply chain_2 in Ha; rewrite Ha);
          try (destruct (Hrole eq_refl) as (? & ? & Ha & Hb);
               apply chain_2 in Ha; apply chain_2 in Hb; rewrite Ha, Hb);
          clear Hgroups Hpolicy Hrole
        | destruct r ]
  | |- forall r : result pyval, accepted (_, r) -> _ => intros ? _
  end.

Lemma pipeline_accepted logs iam ec2 securityhub fn findingId vpcId :
  always_when accepted
    (Playbook.same_account_pipeline logs iam ec2 securityhub fn findingId vpcId tt)
    (fun _ res => fst res = Ok tt).
Proof.
  unfold Playbook.same_account_pipeline.
  repeat (mred_when; accepted_step).
  all: reflexivity.
Qed.

(** The cross-account branch once the role is assumed: the pipeline starts
    with the client of the credentials that were answered. *)
Lemma cross_account_branch_starts sts securityhub fn findingId findingOwner vpcId :
  always (Playbook.cross_account_branch sts securityhub fn findingId findingOwner vpcId tt)
    (fun tr res =>
       exists r rest,
         tr = (assume_role_request sts findingOwner, r) :: rest /\
         forall member accessKey secretKey sessionToken,
           r = Ok member ->
           py_path member [PyStr "Credentials"; PyStr "AccessKeyId"] = Ok accessKey ->
           py_path member [PyStr "Credentials"; PyStr "SecretAccessKey"] = Ok secretKey ->
           py_path member [PyStr "Credentials"; PyStr "SessionToken"] = Ok sessionToken ->
           creates_first (boto3_client_with "logs" accessKey secretKey sessionToken)
             vpcId rest res).
Proof.
  unfold Playbook.cross_account_branch. mred. intros r.
  destruct r as [member|e]; mred.
  2: { eexists _, _. split; [reflexivity|]. intros ? ? ? ? [=]. }
  destruct (let? creds := py_getitem member (PyStr "Credentials") in
            py_getitem creds (PyStr "AccessKeyId")) as [accessKey|] eqn:E1; mred.
  2: { eexists _, _. split; [reflexivity|]. intros m ak sk tok [= <-] Hak.
       apply credential_path_inv in Hak. congruence. }
  destruct (let? creds := py_getitem member (PyStr "Credentials") in
            py_getitem creds (PyStr "SecretAccessKey")) as [secretKey|] eqn:E2; mred.
  2: { eexists _, _. split; [reflexivity|]. intros m ak sk tok [= <-] _ Hsk.
       apply credential_path_inv in Hsk. congruence. }
  destruct (let? creds := py_getitem member (PyStr "Credentials") in
            py_getitem creds (PyStr "SessionToken")) as [sessionToken|] eqn:E3; mred.
  2: { eexists _, _. split; [reflexivity|]. intros m ak sk tok [= <-] _ _ Htok.
       apply credential_path_inv in Htok. congruence. }
  rewrite pipelines_equal.
  eapply always_mono; [|apply pipeline_behaviour].
  intros tr res (_ & _ & _ & Hfirst).
  eexists _, tr. split; [reflexivity|].
  intros m ak sk tok [= <-] Hak Hsk Htok.
  apply credential_path_inv in Hak, Hsk, Htok.
  assert (ak = accessKey) as -> by congruence.
  assert (sk = secretKey) as -> by congruence.
  assert (tok = sessionToken) as -> by congruence.
  exact Hfirst.
Qed.

Lemma str_at_1_iff v (k : pyval) (res : result string) :
  str_at v [k] = res <-> (let? x := py_getitem v k in Ok (py_str x)) = res.
Proof. unfold str_at. cbn [py_path]. by destruct (py_getitem v k). Qed.

(** The work on one resource of a finding, from the identifier of the
    resource on. *)
Lemma remediate_resource_identity sts securityhub awsRegion fn master findingId findingOwner
    resources :
  always (Playbook.remediate_resource sts securityhub awsRegion fn master
            findingId findingOwner resources tt)
    (fun tr res =>
       (forall e, str_at resources [PyStr "Id"] = Raise e -> tr = [] /\ fst res = Raise e) /\
       (forall resourceId, str_at resources [PyStr "Id"] = Ok resourceId ->
          let vpcId := str_replace resourceId (vpc_arn awsRegion findingOwner "") "" in
          (master = PyStr findingOwner ->
             local_identity tr /\ creates_first (boto3_client "logs") vpcId tr res) /\
          (master <> PyStr findingOwner ->
             assumed_identity sts findingOwner tr /\
             exists r rest,
               tr = (assume_role_request sts findingOwner, r) :: rest /\
               forall member accessKey secretKey sessionToken,
                 r = Ok member ->
                 py_path member [PyStr "Credentials"; PyStr "AccessKeyId"] = Ok accessKey ->
                 py_path member [PyStr "Credentials"; PyStr "SecretAccessKey"] = Ok secretKey ->
                 py_path member [PyStr "Credentials"; PyStr "SessionToken"] = Ok sessionToken ->
                 creates_first (boto3_client_with "logs" accessKey secretKey sessionToken)
                   vpcId rest res))).
Proof.
  unfold Playbook.remediate_resource. mred.
  pose proof (str_at_1_iff resources (PyStr "Id")) as Hid.
  destruct (let? x := py_getitem resources (PyStr "Id") in Ok (py_str x))
    as [resourceId|e] eqn:E; mred.
  2: { split.
       - intros e' He'. apply Hid in He'. by injection He' as <-.
       - intros resourceId He'. apply Hid in He'. discriminate. }
  assert (forall e, str_at resources [PyStr "Id"] <> Raise e) as Hno.
  { intros e He. apply Hid in He. discriminate. }
  assert (forall resourceId', str_at resources [PyStr "Id"] = Ok resourceId' ->
            resourceId' = resourceId) as Hthe.
  { intros resourceId' Hr. apply Hid in Hr. by injection Hr as <-. }
  clear Hid.
  change ("arn:aws:ec2:" +:+ awsRegion +:+ ":" +:+ findingOwner +:+ ":vpc/")
    with (vpc_arn awsRegion findingOwner "").
  unfold py_ne. destruct (py_eqb (PyStr findingOwner) master) eqn:Eowner; cbn [negb].
  - apply py_eqb_str_l in Eowner.
    unfold Playbook.same_account_branch. cbv zeta.
    eapply always_mono; [|apply pipeline_behaviour].
    intros tr res ((_ & Hstop) & _ & Hfrom & Hfirst).
    split; [intros e He; by destruct (Hno e)|].
    intros resourceId' Hr. rewrite (Hthe _ Hr).
    split; [|done].
    intros _. split; [|exact Hfirst].
    intros c m kw r Hin.
    destruct (Hfrom c m kw r Hin) as [[Hm Hc]|[-> ->]].
    + split.
      * intros ->. simpl in Hm. intuition discriminate.
      * intros _. by destruct Hc as [->|[->| ->]].
    + split; [discriminate|]. simpl. intuition discriminate.
  - assert (master <> PyStr findingOwner) as Hne.
    { intros ->. simpl in Eowner. by rewrite String.eqb_refl in Eowner. }
    eapply always_mono.
    2: { apply (always_and _ _ _ (cross_account_branch_behaviour _ _ _ _ _ _)
                  (cross_account_branch_starts _ _ _ _ _ _)). }
    intros tr res [[Hassumed _] Hstarts].
    split; [intros e He; by destruct (Hno e)|].
    intros resourceId' Hr. rewrite (Hthe _ Hr).
    split; [done|]. intros _. by split.
Qed.

End PlaybookCompletes.

(** ** Claims about the identity and the report of the playbook *)

Section PlaybookRunClaims.
Context `{RT : Runtime}.

(** C4. For a resource of a finding.  When the identifier of the resource
    cannot be read, nothing is performed and the exception of the read is
    raised.  Otherwise: when the account of the finding is the account of the
    caller, no role is assumed and every provisioning call is made by a client
    without explicit credentials, under the ambient identity, the first of
    them being the request of the ambient logs client to create the log
    group.  When it is another account, the first operation is
    [sts.assume_role] on [arn:aws:iam::<owner>:role/XA-ElectricEye-Response],
    before any provisioning call, and every provisioning call is made by a
    client built with the AccessKeyId, SecretAccessKey and SessionToken of the
    answer, which are non-empty whenever STS answers with non-empty
    credentials; and when STS answers with the three credentials, the next
    operation is the request to create the log group, made by the logs client
    built with them. *)
Theorem C4_identity_of_provisioning {W} (h : handler W) (w : W)
    sts securityhub awsRegion fn masterAccountId findingId findingOwner resources :
  let x := run h (Playbook.remediate_resource sts securityhub awsRegion fn
                    masterAccountId findingId findingOwner resources tt) w in
  let tr := trace x in
  (forall e, str_at resources [PyStr "Id"] = Raise e ->
     tr = [] /\ fst (outcome x) = Raise e) /\
  (forall resourceId, str_at resources [PyStr "Id"] = Ok resourceId ->
     let vpcId := str_replace resourceId (vpc_arn awsRegion findingOwner "") "" in
     (masterAccountId = PyStr findingOwner ->
        local_identity tr /\
        creates_first (boto3_client "logs") vpcId tr (outcome x)) /\
     (masterAccountId <> PyStr findingOwner ->
        assumed_identity sts findingOwner tr /\
        (sts_contract h -> scoped_credentials tr) /\
        (forall member accessKey secretKey sessionToken,
           fst (h w (assume_role_request sts findingOwner)) = Ok member ->
           py_path member [PyStr "Credentials"; PyStr "AccessKeyId"] = Ok accessKey ->
           py_path member [PyStr "Credentials"; PyStr "SecretAccessKey"] = Ok secretKey ->
           py_path member [PyStr "Credentials"; PyStr "SessionToken"] = Ok sessionToken ->
           exists rest,
             tr = (assume_role_request sts findingOwner, Ok member) :: rest /\
             creates_first (boto3_client_with "logs" accessKey secretKey sessionToken)
               vpcId rest (outcome x)))).
Proof.
  intros x tr. subst tr.
  pose proof (always_run h _ _ w
                (remediate_resource_identity sts securityhub awsRegion fn masterAccountId
                   findingId findingOwner resources)) as [Hraise Hid].
  fold x in Hraise, Hid.
  split; [exact Hraise|].
  intros resourceId Hr vpcId.
  destruct (Hid resourceId Hr) as [Hsame Hcross]. fold vpcId in Hsame, Hcross.
  split; [exact Hsame|].
  intros Hne. destruct (Hcross Hne) as (Hassumed & r & rest & Htr & Hfirst).
  pose proof (trace_head _ _ _ _ _ _ Htr) as Hr0.
  split; [exact Hassumed|]. split.
  - intros Hsts c m kw r' Hin Hm.
    destruct Hassumed as (r1 & rest1 & Htr1 & Hrest).
    pose proof (trace_head _ _ _ _ _ _ Htr1) as Hr1.
    rewrite Htr1 in Hin. destruct Hin as [Hin|Hin].
    { injection Hin as _ <- _ _. simpl in Hm. intuition discriminate. }
    destruct (Hrest c m kw r' Hin) as [_ Hcreds].
    destruct (Hcreds Hm) as (member & ak & sk & tok & -> & Hak & Hsk & Htok & Hc).
    destruct (Hsts _ _ _ _ (eq_sym Hr1)) as (ak' & sk' & tok' & Hak' & Hsk' & Htok' & ? & ? & ?).
    exists ak, sk, tok. split; [done|].
    assert (ak = ak') by congruence. assert (sk = sk') by congruence.
    assert (tok = tok') by congruence. by subst.
  - intros member ak sk tok Hanswer Hak Hsk Htok.
    assert (r = Ok member) as -> by congruence.
    exists rest. split; [exact Htr|].
    exact (Hfirst member ak sk tok eq_refl Hak Hsk Htok).
Qed.

(** C5. Whatever AWS answers, in both copies of the pipeline: once
    [create_flow_logs], the last provisioning step, has been answered, the run
    makes exactly one [update_findings] request, for the finding it was
    started for, with record state ARCHIVED and a note that names the log
    group reported by [describe_log_groups]; the pipeline then returns
    normally whatever the answer to that request, and an exception answered to
    it is printed, not raised.  When the pipeline raises, because a
    provisioning step failed, no [update_findings] request has been made.  A
    run that returns normally has made the six provisioning requests, in
    order and all answered, and after them that one request.  And against an
    outside that accepts every provisioning request, the pipeline returns
    normally. *)
Theorem C5_reports_once {W} (h : handler W) (w : W)
    logs iam ec2 securityhub fn findingId vpcId :
  let x := run h (Playbook.cross_account_pipeline logs iam ec2 securityhub
                    fn findingId vpcId tt) w in
  let y := run h (Playbook.same_account_pipeline logs iam ec2 securityhub
                    fn findingId vpcId tt) w in
  reports_success securityhub fn findingId (trace x) (outcome x) /\
  reports_success securityhub fn findingId (trace y) (outcome y) /\
  completes securityhub fn findingId (trace x) (outcome x) /\
  completes securityhub fn findingId (trace y) (outcome y) /\
  (accepts_provisioning h -> fst (outcome x) = Ok tt /\ fst (outcome y) = Ok tt).
Proof.
  intros x y. subst x y. rewrite pipelines_equal.
  assert (forall p : prog (result unit * unit),
            always p (fun tr res => reports_success securityhub fn findingId tr res) ->
            reports_success securityhub fn findingId (trace (run h p w)) (outcome (run h p w)))
    as Hrun by (intros p; apply always_run).
  assert (reports_success securityhub fn findingId
            (trace (run h (Playbook.same_account_pipeline logs iam ec2 securityhub
                             fn findingId vpcId tt) w))
            (outcome (run h (Playbook.same_account_pipeline logs iam ec2 securityhub
                               fn findingId vpcId tt) w))) as Hreports.
  { apply Hrun. eapply always_mono; [|apply pipeline_behaviour].
    by intros tr res (_ & H & _). }
  pose proof (always_run h _ _ w
                (pipeline_completes logs iam ec2 securityhub fn findingId vpcId))
    as Hcompletes.
  split; [exact Hreports|]. split; [exact Hreports|].
  split; [exact Hcompletes|]. split; [exact Hcompletes|].
  intros Haccepts.
  pose proof (always_when_run accepted h _ _ w Haccepts
                (pipeline_accepted logs iam ec2 securityhub fn findingId vpcId)) as Hok.
  by split.
Qed.

End PlaybookRunClaims.

(** [aws_refusing] accepts the provisioning requests, unless it is one of
    them that it refuses. *)
Lemma aws_refusing_accepts method code :
  ~ In method provisioning_steps ->
  accepts_provisioning (aws_refusing method code).
Proof.
  intros Hmethod w o. destruct o as [c m kw| | | | | | | |]; try exact I.
  cbn [accepted]. intros Hm.
  assert (String.eqb m method = false) as Hne.
  { apply String.eqb_neq. intros ->. by apply Hmethod. }
  unfold aws_refusing. cbn [fst]. rewrite Hne.
  simpl in Hm.
  destruct Hm as [<-|[<-|[<-|[<-|[<-|[<-|[]]]]]]]; cbn [String.eqb Ascii.eqb Bool.eqb fst];
    eexists; (split; [reflexivity|]);
    (split; [intros Hm; try discriminate Hm; eexists _, _; split; reflexivity|]);
    (split; [intros Hm; try discriminate Hm; eexists; reflexivity|]);
    intros Hm; try discriminate Hm; eexists _, _; split; reflexivity.
Defined.

(** A finding of account 111111111111 handled from account 999999999999. *)
Lemma C4_witness :
  let h := aws_refusing "" "" in
  let sts := boto3_client "sts" in
  let resources := PyDict [("Id", PyStr "arn:aws:ec2:us-east-1:111111111111:vpc/vpc-0a1b2c3d")] in
  let x := run h (Playbook.remediate_resource (RT:=example_runtime)
                    sts (boto3_client "securityhub")
                    "us-east-1" "responder" (PyStr "999999999999")
                    "finding-1" "111111111111" resources tt) tt in
  let member := PyDict [("Credentials",
                         PyDict [("AccessKeyId", PyStr "ASIAEXAMPLE");
                                 ("SecretAccessKey", PyStr "secret");
                                 ("SessionToken", PyStr "token")])] in
  str_at (RT:=example_runtime) resources [PyStr "Id"]
    = Ok "arn:aws:ec2:us-east-1:111111111111:vpc/vpc-0a1b2c3d" /\
  PyStr "999999999999" <> PyStr "111111111111" /\
  sts_contract h /\
  fst (h tt (assume_role_request sts "111111111111")) = Ok member /\
  assumed_identity sts "111111111111" (trace x) /\
  scoped_credentials (trace x) /\
  exists rest,
    trace x = (assume_role_request sts "111111111111", Ok member) :: rest /\
    creates_first
      (boto3_client_with "logs" (PyStr "ASIAEXAMPLE") (PyStr "secret") (PyStr "token"))
      "vpc-0a1b2c3d" rest (outcome x).
Proof.
  intros h sts resources x member.
  assert (str_at (RT:=example_runtime) resources [PyStr "Id"]
            = Ok "arn:aws:ec2:us-east-1:111111111111:vpc/vpc-0a1b2c3d") as Hid by reflexivity.
  assert (PyStr "999999999999" <> PyStr "111111111111") as Hne by discriminate.
  assert (sts_contract h) as Hsts
    by (apply aws_refusing_sts_contract; discriminate).
  assert (fst (h tt (assume_role_request sts "111111111111")) = Ok member) as Hanswer
    by reflexivity.
  destruct (proj2 (C4_identity_of_provisioning (RT:=example_runtime) h tt
                     sts (boto3_client "securityhub")
                     "us-east-1" "responder" (PyStr "999999999999")
                     "finding-1" "111111111111" resources) _ Hid)
    as (_ & Hcross).
  destruct (Hcross Hne) as (Hassumed & Hscoped & Hfirst).
  split; [exact Hid|]. split; [exact Hne|]. split; [exact Hsts|]. split; [exact Hanswer|].
  split; [exact Hassumed|]. split; [exact (Hscoped Hsts)|].
  exact (Hfirst member _ _ _ Hanswer eq_refl eq_refl eq_refl).
Defined.

(** The cross-account copy of the pipeline against an account that accepts
    every provisioning request and whose [update_findings] fails: the
    pipeline returns normally, after the six requests and the one report. *)
Lemma C5_witness :
  let h := aws_refusing "update_findings" "InternalException" in
  let x := run h
             (Playbook.cross_account_pipeline (RT:=example_runtime)
                (boto3_client_with "logs" (PyStr "ASIAEXAMPLE") (PyStr "secret") (PyStr "token"))
                (boto3_client_with "iam" (PyStr "ASIAEXAMPLE") (PyStr "secret") (PyStr "token"))
                (boto3_client_with "ec2" (PyStr "ASIAEXAMPLE") (PyStr "secret") (PyStr "token"))
                (boto3_client "securityhub") "responder" "finding-1" "vpc-0a1b2c3d" tt) tt in
  accepts_provisioning h /\
  fst (outcome x) = Ok tt /\
  api_methods (trace x) = provisioning_steps ++ ["update_findings"] /\
  calls_to "update_findings" (trace x) =
    [(archive_request (boto3_client "securityhub") "finding-1"
        "VPCFlowLogs/vpc-0a1b2c3d" "responder",
      Raise (ClientError "InternalException"))].
Proof.
  intros h x.
  assert (accepts_provisioning h) as Haccepts.
  { apply aws_refusing_accepts. simpl. intuition discriminate. }
  destruct (C5_reports_once (RT:=example_runtime) h tt
              (boto3_client_with "logs" (PyStr "ASIAEXAMPLE") (PyStr "secret") (PyStr "token"))
              (boto3_client_with "iam" (PyStr "ASIAEXAMPLE") (PyStr "secret") (PyStr "token"))
              (boto3_client_with "ec2" (PyStr "ASIAEXAMPLE") (PyStr "secret") (PyStr "token"))
              (boto3_client "securityhub") "responder" "finding-1" "vpc-0a1b2c3d")
    as (_ & _ & Hcompletes & _ & Hok).
  destruct (Hok Haccepts) as [Hres _].
  destruct (Hcompletes Hres) as (Hmethods & _ & _).
  split; [exact Haccepts|]. split; [exact Hres|]. split; [exact Hmethods|].
  vm_compute. reflexivity.
Defined.
